(** * TG-BOT: the broadcast subsystem of [bot.py]

    A shallow embedding of the owner/admin helpers and of the broadcast
    command with its background task, followed by the properties of the
    specification that concern them.

    Python values are modelled as follows: [int] as [Z], [str] as
    [string] (one character per unit), [Optional[...]] as [option],
    SQLite tables as lists of rows in storage order.  The handlers run
    in a small state-and-exception monad over a [World] that holds the
    database, the behaviour of the external calls, and a chronological
    trace of the observable effects.  [DB_LOCK] only serialises the
    database sections; each of them is one atomic step here.  A thread
    started by [Thread.start()] runs beside the handler that started
    it: how far it gets before the call returns is the scheduler's
    choice, which the world holds for every coming start; what is left
    of a thread is kept in the world until it is run.  Time is not
    measured, a wait is a [time.sleep] call in the trace. *)

From Stdlib Require Import ZArith List String Ascii Bool Lia QArith.
Import ListNotations.
Open Scope string_scope.
Open Scope list_scope.
Open Scope Z_scope.

(** ** Configuration *)

Definition OWNER_ID : option Z := Some 8116152355.

(** The delay between broadcast messages, in seconds: the literal [0.12]
    taken as the decimal it is written as. *)
Definition BROADCAST_DELAY_SEC : Q := 0.12%Q.

(** ** Tables of [init_db] *)

Record user_row := mk_user_row {
  user_id : Z;
  username : string;
  first_name : string;
  last_name : string;
  lang_code : string;
  last_seen : Z
}.

(** [broadcasts (id, ts, from_user, text, sent_count)] *)
Record broadcast_row := mk_broadcast_row {
  bc_id : Z;
  bc_ts : Z;
  bc_from_user : Z;
  bc_text : string;
  bc_sent_count : Z
}.

(** [admins (user_id, added_by, ts)] *)
Record admin_row := mk_admin_row {
  ad_user_id : Z;
  ad_added_by : Z;
  ad_ts : Z
}.

(** [broadcasts_seq] is the [sqlite_sequence] entry of the AUTOINCREMENT
    key: the largest row id handed out so far. *)
Record Database := mk_Database {
  users : list user_row;
  broadcasts : list broadcast_row;
  broadcasts_seq : Z;
  admins : list admin_row
}.

(** ** Exceptions, external calls and the trace *)

(** An exception, by its message. *)
Definition exn := string.

Inductive result (A : Type) : Type :=
| Ok (a : A)
| Raise (e : exn).
Arguments Ok {A} a.
Arguments Raise {A} e.

(** How one [bot.send_message] call ends. *)
Inductive outcome :=
| Delivered
| Failed (cause : exn).

(** The fallible calls other than [bot.send_message]. *)
Inductive call :=
| SelectUsers
| InsertBroadcast
| UpdateSentCount
| InsertAdmin
| DeleteAdmin
| SelectAdmin
| ReplyText.

(** The three texts [broadcast_cmd] and its decorator reply with:
    "You are not authorized to use this command. Owner only.",
    "Usage: /broadcast your message here ... Or reply to a message with
    /broadcast." and "Broadcast started - id <bid>. Sending to users...". *)
Inductive reply_msg :=
| NotAuthorized
| Usage
| Started (bid : Z).

Inductive event :=
| EvSend (chat_id : Z) (text : string) (o : outcome)
    (* bot.send_message(chat_id, text, parse_mode=HTML) *)
| EvWarning (uid : Z) (e : exn)
    (* logger.warning("Broadcast to %s failed: %s", user_id, e) *)
| EvSleep (secs : Q)
    (* time.sleep(secs) *)
| EvInfo (bid sent total : Z)
    (* logger.info("Broadcast %s finished: sent %s/%s", ...) *)
| EvReply (m : reply_msg)
    (* update.message.reply_text(...) *)
| EvThreadStart (bid : Z) (text : string) (from_user : Z)
    (* threading.Thread(target=_do_broadcast, args=...).start() *)
| EvExcepthook (e : exn).
    (* an exception left a thread: traceback on stderr *)

(** A thread of [_do_broadcast] that has read its snapshot and is not at
    its end: its arguments, [total], the counter [sent], and the rows
    its loop has not reached yet. *)
Record running_task := mk_running_task {
  rt_bid : Z;
  rt_text : string;
  rt_from_user : Z;
  rt_total : Z;
  rt_sent : Z;
  rt_rows : list Z
}.

(** [bot n chat text] is how the [n]-th upcoming [send_message] call
    would end; [raises c] is the exception call [c] raises, if any;
    [clock] is [int(time.time())].  [threads] are the started threads
    that have not taken a step yet, by their arguments, and [running]
    those that have and are not at their end.  [head_start] is the
    scheduler's part: for each coming [Thread.start()], the number of
    steps the new thread takes before the call returns to the handler
    (none once the list is used up); a step is the snapshot read, one
    turn of the loop, or the finalising write with its log line.  What
    is left of a thread after the return is run by [thread_run] and
    [thread_resume]; between them the handlers run as wholes. *)
Record World := mk_World {
  DB : Database;
  bot : nat -> Z -> string -> outcome;
  raises : call -> option exn;
  clock : Z;
  trace : list event;
  threads : list (Z * string * Z);
  running : list running_task;
  head_start : list nat
}.

Definition set_DB (w : World) (d : Database) : World :=
  mk_World d (bot w) (raises w) (clock w) (trace w) (threads w) (running w)
    (head_start w).

Definition set_broadcasts (d : Database) (bs : list broadcast_row) (seq : Z)
  : Database :=
  mk_Database (users d) bs seq (admins d).

Definition set_admins (d : Database) (ads : list admin_row) : Database :=
  mk_Database (users d) (broadcasts d) (broadcasts_seq d) ads.

(** ** The monad of handlers *)

Definition M (A : Type) : Type := World -> result A * World.

Definition ret {A} (a : A) : M A := fun w => (Ok a, w).

Definition bind {A B} (m : M A) (f : A -> M B) : M B :=
  fun w =>
    match m w with
    | (Ok a, w') => f a w'
    | (Raise e, w') => (Raise e, w')
    end.

(** [try: body except Exception as e: handler e] *)
Definition try_except {A} (body : M A) (handler : exn -> M A) : M A :=
  fun w =>
    match body w with
    | (Ok a, w') => (Ok a, w')
    | (Raise e, w') => handler e w'
    end.

Notation "x <- m ;; k" := (bind m (fun x => k))
  (at level 61, m at next level, right associativity).
Notation "m ;; k" := (bind m (fun _ => k))
  (at level 61, right associativity).

Definition emit (e : event) : M unit :=
  fun w =>
    (Ok tt,
     mk_World (DB w) (bot w) (raises w) (clock w) (trace w ++ [e]) (threads w)
       (running w) (head_start w)).

(** A database section: raises what [raises c] says, else runs [f]. *)
Definition db_call {A} (c : call) (f : Database -> Z -> A * Database) : M A :=
  fun w =>
    match raises w c with
    | Some e => (Raise e, w)
    | None => let '(a, d) := f (DB w) (clock w) in (Ok a, set_DB w d)
    end.

Definition bot_send_message (chat_id : Z) (text : string) : M unit :=
  fun w =>
    let o := bot w 0%nat chat_id text in
    let w' := mk_World (DB w) (fun n => bot w (S n)) (raises w) (clock w)
                (trace w ++ [EvSend chat_id text o]) (threads w) (running w)
                (head_start w) in
    match o with
    | Delivered => (Ok tt, w')
    | Failed e => (Raise e, w')
    end.

Definition logger_warning (uid : Z) (e : exn) : M unit := emit (EvWarning uid e).
Definition logger_info (bid sent total : Z) : M unit := emit (EvInfo bid sent total).
Definition time_sleep (secs : Q) : M unit := emit (EvSleep secs).

Definition reply_text (m : reply_msg) : M unit :=
  fun w =>
    match raises w ReplyText with
    | Some e => (Raise e, w)
    | None => emit (EvReply m) w
    end.

(** ** Admins *)

(** Truth value of an [Optional[int]]. *)
Definition truthy_int (o : option Z) : bool :=
  match o with
  | Some n => negb (n =? 0)
  | None => false
  end.

Definition eq_opt_int (n : Z) (o : option Z) : bool :=
  match o with
  | Some m => n =? m
  | None => false
  end.

(** [added_by or 0] *)
Definition or_zero (o : option Z) : Z :=
  match o with
  | Some n => n
  | None => 0
  end.

Definition add_admin (uid : Z) (added_by : option Z) : M unit :=
  db_call InsertAdmin (fun d now =>
    (tt, set_admins d
           (filter (fun r => negb (ad_user_id r =? uid)) (admins d)
            ++ [mk_admin_row uid (or_zero added_by) now]))).

Definition remove_admin (uid : Z) : M unit :=
  db_call DeleteAdmin (fun d _ =>
    (tt, set_admins d (filter (fun r => negb (ad_user_id r =? uid)) (admins d)))).

Definition is_admin (uid : Z) : M bool :=
  if truthy_int OWNER_ID && eq_opt_int uid OWNER_ID then ret true
  else db_call SelectAdmin (fun d _ =>
         (existsb (fun r => ad_user_id r =? uid) (admins d), d)).

(** ** The broadcast task *)

(** [UPDATE broadcasts SET sent_count = ? WHERE id = ?] *)
Definition update_sent_count (sent bid : Z) (bs : list broadcast_row)
  : list broadcast_row :=
  map (fun r =>
         if bc_id r =? bid
         then mk_broadcast_row (bc_id r) (bc_ts r) (bc_from_user r) (bc_text r) sent
         else r) bs.

(** One turn of the [for (user_id,) in rows] loop. *)
Definition loop_body (text : string) (sent : Z) (uid : Z) : M Z :=
  sent' <- try_except
             (bot_send_message uid text ;; ret (sent + 1))
             (fun e => logger_warning uid e ;; ret sent) ;;
  time_sleep BROADCAST_DELAY_SEC ;;
  ret sent'.

Fixpoint for_rows (text : string) (rows : list Z) (sent : Z) : M Z :=
  match rows with
  | [] => ret sent
  | uid :: rest => sent' <- loop_body text sent uid ;; for_rows text rest sent'
  end.

Definition _do_broadcast (bid : Z) (text : string) (from_user : Z) : M unit :=
  rows <- db_call SelectUsers (fun d _ => (map user_id (users d), d)) ;;
  let total := Z.of_nat (List.length rows) in
  sent <- for_rows text rows 0 ;;
  db_call UpdateSentCount (fun d _ =>
    (tt, set_broadcasts d (update_sent_count sent bid (broadcasts d))
           (broadcasts_seq d))) ;;
  logger_info bid sent total.

(** ** Threads *)

(** How a thread ends: an exception that leaves its target ends the
    thread and is reported by the interpreter's thread excepthook;
    nobody receives it. *)
Definition thread_end {A} (r : result A * World) : result unit * World :=
  match r with
  | (Ok _, w') => (Ok tt, w')
  | (Raise e, w') => emit (EvExcepthook e) w'
  end.

(** [threading.Thread.run] for the oldest started thread that has not
    taken a step: all of [_do_broadcast]. *)
Definition thread_run : M unit :=
  fun w =>
    match threads w with
    | [] => (Ok tt, w)
    | (bid, text, from_user) :: rest =>
        let w0 := mk_World (DB w) (bot w) (raises w) (clock w) (trace w) rest
                    (running w) (head_start w) in
        match _do_broadcast bid text from_user w0 with
        | (Ok _, w') => (Ok tt, w')
        | (Raise e, w') => emit (EvExcepthook e) w'
        end
    end.

(** [_do_broadcast] from where the thread [t] is: the turns of the loop
    that are left, the finalising write and the log line. *)
Definition finish_broadcast (t : running_task) : M unit :=
  sent <- for_rows (rt_text t) (rt_rows t) (rt_sent t) ;;
  db_call UpdateSentCount (fun d _ =>
    (tt, set_broadcasts d (update_sent_count sent (rt_bid t) (broadcasts d))
           (broadcasts_seq d))) ;;
  logger_info (rt_bid t) sent (rt_total t).

(** The rest of the oldest thread that is under way. *)
Definition thread_resume : M unit :=
  fun w =>
    match running w with
    | [] => (Ok tt, w)
    | t :: rest =>
        thread_end
          (finish_broadcast t
             (mk_World (DB w) (bot w) (raises w) (clock w) (trace w) (threads w)
                rest (head_start w)))
    end.

(** The first [S k] steps of [_do_broadcast]: the snapshot read, up to
    [k] turns of the loop and, when a step is left after the last turn,
    the finalising write with its log line.  The result is the thread
    as it stands, if it is not at its end. *)
Definition first_steps (k : nat) (bid : Z) (text : string) (from_user : Z)
  : M (option running_task) :=
  rows <- db_call SelectUsers (fun d _ => (map user_id (users d), d)) ;;
  let total := Z.of_nat (List.length rows) in
  sent <- for_rows text (firstn k rows) 0 ;;
  let t := mk_running_task bid text from_user total sent (skipn k rows) in
  if (List.length rows <? k)%nat
  then finish_broadcast t ;; ret None
  else ret (Some t).

(** [threading.Thread(target=_do_broadcast, args=(bid, text, from_user),
    daemon=True).start()]: the new thread runs beside the caller, and
    has taken the steps the scheduler gives it when the call returns.
    The call itself does not fail, and nothing of the thread comes back
    through it. *)
Definition thread_start (bid : Z) (text : string) (from_user : Z) : M unit :=
  fun w =>
    let started (ths : list (Z * string * Z)) :=
      mk_World (DB w) (bot w) (raises w) (clock w)
        (trace w ++ [EvThreadStart bid text from_user])
        ths (running w) (tl (head_start w)) in
    match hd 0%nat (head_start w) with
    | O => (Ok tt, started (threads w ++ [(bid, text, from_user)]))
    | S k =>
        match first_steps k bid text from_user (started (threads w)) with
        | (Ok (Some t), w') =>
            (Ok tt,
             mk_World (DB w') (bot w') (raises w') (clock w') (trace w')
               (threads w') (running w' ++ [t]) (head_start w'))
        | (Ok None, w') => (Ok tt, w')
        | (Raise e, w') => emit (EvExcepthook e) w'
        end
    end.

(** ** The broadcast command *)

Record User := mk_User { u_id : Z }.

(** The replied-to message: its [text] and [caption]. *)
Record Message := mk_Message {
  msg_text : option string;
  msg_caption : option string
}.

(** What the handler reads of [update]: [effective_user] and
    [message.reply_to_message]. *)
Record Update := mk_Update {
  effective_user : option User;
  reply_to_message : option Message
}.

(** Truth value of an [Optional[str]]. *)
Definition truthy_str (o : option string) : bool :=
  match o with
  | Some (String _ _) => true
  | _ => false
  end.

(** [a or b] *)
Definition or_str (a b : option string) : option string :=
  if truthy_str a then a else b.

Definition str_of (o : option string) : string :=
  match o with
  | Some s => s
  | None => ""
  end.

(** [reply_to_message and (reply_to_message.text or reply_to_message.caption)] *)
Definition reply_has_content (update : Update) : bool :=
  match reply_to_message update with
  | Some m => truthy_str (or_str (msg_text m) (msg_caption m))
  | None => false
  end.

(** [reply_to_message.text or reply_to_message.caption or ""] *)
Definition reply_content (update : Update) : string :=
  match reply_to_message update with
  | Some m => str_of (or_str (or_str (msg_text m) (msg_caption m)) (Some ""))
  | None => ""
  end.

(** The text the handler settles on: [None] is the usage branch. *)
Definition choose_btext (update : Update) (args : list string) : option string :=
  if reply_has_content update then Some (reply_content update)
  else match args with
       | _ :: _ => Some (String.concat " " args)
       | [] => None
       end.

(** [INSERT INTO broadcasts (ts, from_user, text, sent_count)] followed by
    [cur.lastrowid]. *)
Definition insert_broadcast (from_user : Z) (text : string) : M Z :=
  db_call InsertBroadcast (fun d now =>
    let bid := broadcasts_seq d + 1 in
    (bid, set_broadcasts d
            (broadcasts d ++ [mk_broadcast_row bid now from_user text 0]) bid)).

(** The undecorated body of [broadcast_cmd]. *)
Definition broadcast_cmd_func (update : Update) (args : list string) : M unit :=
  match effective_user update with
  | None => ret tt
  | Some user =>
      match choose_btext update args with
      | None => reply_text Usage
      | Some btext =>
          bid <- insert_broadcast (u_id user) (substring 0 4000 btext) ;;
          reply_text (Started bid) ;;
          thread_start bid btext (u_id user)
      end
  end.

Definition require_owner (func : Update -> list string -> M unit)
  (update : Update) (args : list string) : M unit :=
  match effective_user update with
  | Some user =>
      if eq_opt_int (u_id user) OWNER_ID then func update args
      else reply_text NotAuthorized
  | None => reply_text NotAuthorized
  end.

Definition broadcast_cmd : Update -> list string -> M unit :=
  require_owner broadcast_cmd_func.

(** ** Reading a trace *)

Fixpoint sent_to (tr : list event) : list (Z * string) :=
  match tr with
  | [] => []
  | EvSend c t _ :: rest => (c, t) :: sent_to rest
  | _ :: rest => sent_to rest
  end.

Fixpoint warnings (tr : list event) : list (Z * exn) :=
  match tr with
  | [] => []
  | EvWarning u e :: rest => (u, e) :: warnings rest
  | _ :: rest => warnings rest
  end.

(** Delivery attempts and waits, in the order they happen. *)
Inductive pace :=
| Attempt
| Wait (secs : Q).

Fixpoint pacing (tr : list event) : list pace :=
  match tr with
  | [] => []
  | EvSend _ _ _ :: rest => Attempt :: pacing rest
  | EvSleep d :: rest => Wait d :: pacing rest
  | _ :: rest => pacing rest
  end.

(** The events a world gained over an earlier one. *)
Definition gained (w w' : World) (tr : list event) : Prop :=
  trace w' = trace w ++ tr.

(** The counter after the first [j] turns of the loop. *)
Definition sent_after (text : string) (rows : list Z) (w : World) (j : nat) : Z :=
  match for_rows text (firstn j rows) 0 w with
  | (Ok s, _) => s
  | (Raise _, _) => -1
  end.

(** The snapshot [_do_broadcast] reads. *)
Definition snapshot (w : World) : list Z := map user_id (users (DB w)).

(** ** The loop, read off the transport *)

(** What the loop adds to the trace and to the counter, read off the
    transport's behaviour. *)
Fixpoint loop_events (b : nat -> Z -> string -> outcome) (text : string)
  (rows : list Z) : list event :=
  match rows with
  | [] => []
  | uid :: rest =>
      match b 0%nat uid text with
      | Delivered => [EvSend uid text Delivered; EvSleep BROADCAST_DELAY_SEC]
      | Failed e =>
          [EvSend uid text (Failed e); EvWarning uid e; EvSleep BROADCAST_DELAY_SEC]
      end ++ loop_events (fun n => b (S n)) text rest
  end.

Fixpoint tally (b : nat -> Z -> string -> outcome) (text : string)
  (rows : list Z) : Z :=
  match rows with
  | [] => 0
  | uid :: rest =>
      match b 0%nat uid text with
      | Delivered => 1
      | Failed _ => 0
      end + tally (fun n => b (S n)) text rest
  end.

(** Ids of the broadcasts table never exceed the sequence value: what
    AUTOINCREMENT maintains, and what makes the next id a fresh one. *)
Definition ledger_ok (d : Database) : Prop :=
  Forall (fun r => bc_id r <= broadcasts_seq d) (broadcasts d).

(** Everything of a world but its transport and trace. *)
Definition same_store (w w' : World) : Prop :=
  DB w' = DB w /\ raises w' = raises w /\ clock w' = clock w /\
  threads w' = threads w.

(** The threads of a world and what the scheduler holds for it. *)
Definition same_threads (w w' : World) : Prop :=
  threads w' = threads w /\ running w' = running w /\
  head_start w' = head_start w.

(** ** Pacing *)

Definition is_wait (p : pace) : bool :=
  match p with
  | Wait _ => true
  | Attempt => false
  end.

Definition waits (p : list pace) : nat := List.length (filter is_wait p).

(** What follows the first attempt. *)
Fixpoint after_first_attempt (p : list pace) : list pace :=
  match p with
  | [] => []
  | Attempt :: rest => rest
  | Wait _ :: rest => after_first_attempt rest
  end.

(** The waits after the first attempt and before the last one: cut at
    the first attempt, turn the rest round, cut at the first attempt
    again (the last of the run), and count. *)
Definition waits_between_attempts (p : list pace) : nat :=
  waits (after_first_attempt (rev (after_first_attempt p))).

Definition turn : list pace := [Attempt; Wait BROADCAST_DELAY_SEC].

(** ** Submission *)

(** The payload of a submission: the text the handler settles on, empty
    when there is none. *)
Definition submitted_payload (update : Update) (args : list string) : string :=
  str_of (choose_btext update args).

Definition is_owner (update : Update) : bool :=
  match effective_user update with
  | Some user => eq_opt_int (u_id user) OWNER_ID
  | None => false
  end.

(** What identifies a job record: everything but its count. *)
Definition job_identity (r : broadcast_row) : Z * Z * Z * string :=
  (bc_id r, bc_ts r, bc_from_user r, bc_text r).

(** The world in which an accepted submission of [btext] by [uid] starts
    its thread: the record is inserted and the submitter has the id. *)
Definition acknowledged (w : World) (uid : Z) (btext : string) : World :=
  let bid := broadcasts_seq (DB w) + 1 in
  mk_World
    (set_broadcasts (DB w)
       (broadcasts (DB w)
        ++ [mk_broadcast_row bid (clock w) uid (substring 0 4000 btext) 0])
       bid)
    (bot w) (raises w) (clock w)
    (trace w ++ [EvReply (Started bid)])
    (threads w) (running w) (head_start w).

(** The world after an accepted submission of [btext] by [uid] whose
    thread has not taken a step when the handler returns. *)
Definition accepted (w : World) (uid : Z) (btext : string) : World :=
  let bid := broadcasts_seq (DB w) + 1 in
  mk_World
    (set_broadcasts (DB w)
       (broadcasts (DB w)
        ++ [mk_broadcast_row bid (clock w) uid (substring 0 4000 btext) 0])
       bid)
    (bot w) (raises w) (clock w)
    (trace w ++ [EvReply (Started bid); EvThreadStart bid btext uid])
    (threads w ++ [(bid, btext, uid)]) (running w) (tl (head_start w)).

(** The thread a handler starts takes no step before the handler
    returns. *)
Definition no_head_start (w : World) : Prop := hd 0%nat (head_start w) = 0%nat.

(** What the handlers replied. *)
Fixpoint replied (tr : list event) : list reply_msg :=
  match tr with
  | [] => []
  | EvReply m :: rest => m :: replied rest
  | _ :: rest => replied rest
  end.



(** Whitespace as [str.strip] sees it, for code points below 256.  The
    specification speaks of trimming; the handler never trims. *)
Definition spec_is_space (c : ascii) : bool :=
  let n := nat_of_ascii c in
  ((9 <=? n) && (n <=? 13) || (28 <=? n) && (n <=? 32)
   || (n =? 133) || (n =? 160))%nat.

(** [s.strip() == ""] *)
Fixpoint spec_blank (s : string) : bool :=
  match s with
  | EmptyString => true
  | String c rest => spec_is_space c && spec_blank rest
  end.

(** ** Sample worlds *)

Definition sample_user (n : Z) : user_row :=
  mk_user_row n "" "user" "" "en" 1700000000.

Definition no_faults : call -> option exn := fun _ => None.

Definition always_delivers : nat -> Z -> string -> outcome :=
  fun _ _ _ => Delivered.

(** The second attempt of the run is refused. *)
Definition second_refused : nat -> Z -> string -> outcome :=
  fun n _ _ =>
    match n with
    | 1%nat => Failed "Forbidden: bot was blocked by the user"
    | _ => Delivered
    end.

(** Users 1, 2, 3; one job, number 1, by initiator 42. *)
Definition sample_db : Database :=
  mk_Database
    [sample_user 1; sample_user 2; sample_user 3]
    [mk_broadcast_row 1 1700000050 42 "Hello all" 0]
    1
    [mk_admin_row 8116152355 0 1700000000].

Definition sample_world (b : nat -> Z -> string -> outcome)
  (f : call -> option exn) : World :=
  mk_World sample_db b f 1700000100 [] [] [] [].

Definition fails_at (c : call) (e : exn) : call -> option exn :=
  fun c' =>
    match c, c' with
    | SelectUsers, SelectUsers => Some e
    | UpdateSentCount, UpdateSentCount => Some e
    | InsertBroadcast, InsertBroadcast => Some e
    | ReplyText, ReplyText => Some e
    | _, _ => None
    end.

Definition the_owner : User := mk_User 8116152355.

(** [/broadcast] with no reply and no arguments. *)
Definition bare_command : Update := mk_Update (Some the_owner) None.

(** [/broadcast] sent as a reply to a message whose text is [t]. *)
Definition reply_to (t : string) : Update :=
  mk_Update (Some the_owner) (Some (mk_Message (Some t) None)).

Fixpoint chars (n : nat) (c : ascii) : string :=
  match n with
  | O => EmptyString
  | S n' => String c (chars n' c)
  end.

(** A text of 4001 characters. *)
Definition long_text : string := chars 4001 "a".

Definition calm_world : World := sample_world always_delivers no_faults.

(** The world after the owner submits [long_text], and after its task ran. *)
Definition long_submitted : World :=
  snd (broadcast_cmd (reply_to long_text) [] calm_world).

Definition long_delivered : World := snd (thread_run long_submitted).

(** ** Failures inside the task *)

(** The attempts the transport refuses, with their causes. *)
Fixpoint refused (b : nat -> Z -> string -> outcome) (text : string)
  (rows : list Z) : list (Z * exn) :=
  match rows with
  | [] => []
  | uid :: rest =>
      match b 0%nat uid text with
      | Delivered => []
      | Failed e => [(uid, e)]
      end ++ refused (fun n => b (S n)) text rest
  end.


Definition one_refusal_world : World := sample_world second_refused no_faults.



(** The scheduler lets the new thread take two steps before
    [Thread.start()] returns: the snapshot read and one turn. *)
Definition eager_thread_world : World :=
  mk_World sample_db always_delivers no_faults 1700000100 [] [] [] [2%nat].



(** ** The choice of the payload *)

(** The replied-to message has a text or a caption (a non-empty one: an
    empty string counts as absent, as it does for Python's [or]). *)
Definition has_text_or_caption (m : Message) : bool :=
  truthy_str (msg_text m) || truthy_str (msg_caption m).

(** The command, sent by [uid], took [p] as its payload: the new job's
    thread is started with [p], whatever it has sent when the handler
    returns is [p], and the job's record holds [p] cut at 4000.  When
    the thread has not taken a step by then, it waits with [p] as its
    argument and the record is the last row of the table, with a count
    of 0. *)
Definition submits (w : World) (update : Update) (args : list string)
  (uid : Z) (p : string) : Prop :=
  exists w' tr,
    broadcast_cmd update args w = (Ok tt, w') /\
    gained w w'
      (EvReply (Started (broadcasts_seq (DB w) + 1))
       :: EvThreadStart (broadcasts_seq (DB w) + 1) p uid :: tr) /\
    Forall (fun s => snd s = p) (sent_to tr) /\
    map job_identity (broadcasts (DB w')) =
      map job_identity (broadcasts (DB w))
      ++ [(broadcasts_seq (DB w) + 1, clock w, uid, substring 0 4000 p)] /\
    (no_head_start w ->
     threads w' = threads w ++ [(broadcasts_seq (DB w) + 1, p, uid)] /\
     broadcasts (DB w') =
       broadcasts (DB w)
       ++ [mk_broadcast_row (broadcasts_seq (DB w) + 1) (clock w) uid
             (substring 0 4000 p) 0]).

(** * The rest of [bot.py]

    What follows covers the code around the broadcast: the invariants
    of its tables, the admin helpers, and the handlers that feed the
    users table or are gated by the owner and admin checks. *)

(** ** Invariants of the tables *)

(** Job ids are distinct and none exceeds the sequence value. *)
Definition ledger_unique (d : Database) : Prop :=
  NoDup (map bc_id (broadcasts d)) /\ ledger_ok d.

(** The rows of the admins table kept for [uid]. *)
Definition admin_rows_of (uid : Z) (d : Database) : list admin_row :=
  filter (fun r => ad_user_id r =? uid) (admins d).

Definition other_admin_rows (uid : Z) (d : Database) : list admin_row :=
  filter (fun r => negb (ad_user_id r =? uid)) (admins d).

(** A world with a job on record but no user. *)
Definition nobody_world : World :=
  mk_World (mk_Database [] [mk_broadcast_row 1 1700000050 42 "Hello all" 0] 1 [])
    always_delivers no_faults 1700000100 [] [] [] [].

(** An admin who is not the owner, and the command he sends. *)
Definition an_admin : User := mk_User 555.

Definition admin_reply_to (t : string) : Update :=
  mk_Update (Some an_admin) (Some (mk_Message (Some t) None)).

Definition insert_fails : World :=
  sample_world always_delivers (fails_at InsertBroadcast "database is locked").

Definition reply_fails : World :=
  sample_world always_delivers (fails_at ReplyText "Timed out").

(** No two rows of the admins table are for the same user. *)
Definition admins_unique (d : Database) : Prop :=
  NoDup (map ad_user_id (admins d)).

(** The admins table holds a row for user 555 besides the owner's. *)
Definition two_admins_world : World :=
  mk_World
    (mk_Database [sample_user 1] [] 0
       [mk_admin_row 8116152355 0 1700000000; mk_admin_row 555 8116152355 1700000010])
    always_delivers no_faults 1700000100 [] [] [] [].

(** ** The other handlers

    The handlers besides the broadcast read more of an update and touch
    two more tables.  They run over a [Bot]: the [World] of the
    broadcast code, the chats and meta tables, the behaviour of the
    further fallible calls, and the replies and API calls made so far.
    Reply texts are given by their kind and the values put into them;
    the names that go into HTML texts are passed through [esc] as in the
    source; inline keyboards are left out.  The order of the rows of a
    table is that of the list; SQL promises none, and no property below
    depends on one. *)

Module Tg.

(** [telegram.User]; [first_name] is the one name every user has. *)
Record Person := mk_Person {
  p_id : Z;
  p_is_bot : bool;
  p_first_name : string;
  p_last_name : option string;
  p_username : option string;
  p_language_code : option string
}.

(** [telegram.Chat] *)
Record Chat := mk_Chat {
  c_id : Z;
  c_type : string;
  c_title : option string;
  c_username : option string
}.

(** [update.message]; [m_reply_to] is [reply_to_message], given by its
    [from_user]. *)
Record Msg := mk_Msg {
  m_from_user : option Person;
  m_chat : Chat;
  m_reply_to : option (option Person);
  m_new_chat_members : list Person;
  m_forward_from : option Person;
  m_forward_from_chat : option Chat;
  m_forward_sender_name : option string
}.

(** [update.callback_query] *)
Record Query := mk_Query {
  q_data : option string;
  q_from_user : Person
}.

Record Upd := mk_Upd {
  effective_user : option Person;
  effective_chat : option Chat;
  message : option Msg;
  callback_query : option Query
}.

(** [chats (chat_id, title, type, last_seen)] *)
Record chat_row := mk_chat_row {
  ch_chat_id : Z;
  ch_title : string;
  ch_type : string;
  ch_last_seen : Z
}.

(** The fallible calls of these handlers. *)
Inductive api :=
| InsertUser
| InsertChat
| ReplaceMeta
| SelectMeta
| SelectCounts
| SelectAdmins
| KickChatMember
| UnbanChatMember
| AnswerQuery
| EditMessageText.

(** The replies, by kind. *)
Inductive saying :=
| SayNotOwner
    (* "You are not authorized to use this command. Owner only." *)
| SayNotAdmin
    (* "You are not an admin." *)
| SayStart (name : string)
| SayMyId (uid : Z) (chat : option Z) (kind : string)
| SayWhoami (uid : Z) (name uname : string) (lang : option string)
| SayStats (n_users n_chats n_broadcasts : Z)
| SayGroupOnly
    (* "This command must be used in a group (reply to a user's message)." *)
| SayReplyToBan
| SayBanned (uid : Z)
| SayFailedBan (e : exn)
| SayReplyToKick
| SayKicked (uid : Z)
| SayFailedKick (e : exn)
| SayUnbanUsage
| SayUnbanned (uid : Z)
| SayFailedUnban (e : exn)
| SayAddAdminUsage
| SayRemoveAdminUsage
| SayInvalidUserId
| SayAddedAdmin (uid : Z)
| SayRemovedAdmin (uid : Z)
| SayNoAdmins
| SayAdmins (rows : list admin_row)
| SayWelcome (name group : string)
| SayForwardedUser (sender : option Z) (fid : Z) (name : string)
| SayForwardedChat (sender : option Z) (cid : Z) (kind title : string)
| SayForwardedHidden (sender : option Z) (name : string)
| SayForwardHint
    (* "Forward a message to me and I'll show you the IDs." *)
| SayYourId (uid : Z)
| SayHelp.

Inductive effect :=
| Reply (s : saying)
    (* update.message.reply_text(...) *)
| Called (c : api) (chat user : Z) (failed : option exn)
    (* context.bot.kick_chat_member / unban_chat_member(chat_id, user_id) *)
| Answer (alert : option Z)
    (* query.answer(text="Your ID: ...", show_alert=True), or query.answer() *)
| Edit (s : saying).
    (* query.edit_message_text(...) *)

Record Bot := mk_Bot {
  core : World;
  chats : list chat_row;
  meta : list (string * string);
  faults : api -> option exn;
  out : list effect
}.

Definition set_core (b : Bot) (w : World) : Bot :=
  mk_Bot w (chats b) (meta b) (faults b) (out b).

Definition set_users (b : Bot) (us : list user_row) : Bot :=
  set_core b
    (set_DB (core b)
       (mk_Database us (broadcasts (DB (core b))) (broadcasts_seq (DB (core b)))
          (admins (DB (core b))))).

Definition set_chats (b : Bot) (cs : list chat_row) : Bot :=
  mk_Bot (core b) cs (meta b) (faults b) (out b).

Definition set_meta (b : Bot) (kvs : list (string * string)) : Bot :=
  mk_Bot (core b) (chats b) kvs (faults b) (out b).

Definition H (A : Type) : Type := Bot -> result A * Bot.

Definition ret {A} (a : A) : H A := fun b => (Ok a, b).

Definition raise {A} (e : exn) : H A := fun b => (Raise e, b).

Definition bind {A B} (m : H A) (f : A -> H B) : H B :=
  fun b =>
    match m b with
    | (Ok a, b') => f a b'
    | (Raise e, b') => (Raise e, b')
    end.

Definition try_except {A} (body : H A) (handler : exn -> H A) : H A :=
  fun b =>
    match body b with
    | (Ok a, b') => (Ok a, b')
    | (Raise e, b') => handler e b'
    end.

Declare Scope tg_scope.
Delimit Scope tg_scope with tg.
Notation "x <~ m ;; k" := (bind m (fun x => k))
  (at level 61, m at next level, right associativity) : tg_scope.
Notation "m ;;; k" := (bind m (fun _ => k))
  (at level 61, right associativity) : tg_scope.
Open Scope tg_scope.

(** A function of the broadcast code, called from these handlers. *)
Definition lift {A} (m : M A) : H A :=
  fun b => let '(r, w') := m (core b) in (r, set_core b w').

Definition emit (e : effect) : H unit :=
  fun b => (Ok tt, mk_Bot (core b) (chats b) (meta b) (faults b) (out b ++ [e])).

Definition store_call {A} (c : api) (f : Bot -> A * Bot) : H A :=
  fun b =>
    match faults b c with
    | Some e => (Raise e, b)
    | None => let '(a, b') := f b in (Ok a, b')
    end.

(** What reading an attribute of [None] raises. *)
Definition attribute_error (attr : string) : exn :=
  String.append "'NoneType' object has no attribute '" (String.append attr "'").

(** [update.message] where the source goes on to read it. *)
Definition the_message (update : Upd) (attr : string) : H Msg :=
  match message update with
  | Some msg => ret msg
  | None => raise (attribute_error attr)
  end.

(** [update.message.reply_text(...)] *)
Definition reply_text (update : Upd) (s : saying) : H unit :=
  _ <~ the_message update "reply_text" ;;
  fun b =>
    match raises (core b) ReplyText with
    | Some e => (Raise e, b)
    | None => emit (Reply s) b
    end.

(** [context.bot.kick_chat_member] and [unban_chat_member] *)
Definition bot_call (c : api) (chat user : Z) : H unit :=
  fun b =>
    match faults b c with
    | Some e =>
        (Raise e,
         mk_Bot (core b) (chats b) (meta b) (faults b)
           (out b ++ [Called c chat user (Some e)]))
    | None => emit (Called c chat user None) b
    end.

Definition query_answer (alert : option Z) : H unit :=
  fun b =>
    match faults b AnswerQuery with
    | Some e => (Raise e, b)
    | None => emit (Answer alert) b
    end.

Definition query_edit_message_text (s : saying) : H unit :=
  fun b =>
    match faults b EditMessageText with
    | Some e => (Raise e, b)
    | None => emit (Edit s) b
    end.

(** *** Strings *)

(** [s or d] for an [Optional[str]] and a default. *)
Definition or_else (s : option string) (d : string) : string :=
  if truthy_str s then str_of s else d.

(** [s.replace(c, r)] for a one-character [c]. *)
Fixpoint replace_char (c : ascii) (r : string) (s : string) : string :=
  match s with
  | EmptyString => EmptyString
  | String a rest =>
      if Ascii.eqb a c then String.append r (replace_char c r rest)
      else String a (replace_char c r rest)
  end.

(** [html.escape(s)], with its default [quote=True]: the five replaces
    in the order the library makes them. *)
Definition html_escape (s : string) : string :=
  replace_char "'" "&#x27;"
    (replace_char "034" "&quot;"
       (replace_char ">" "&gt;"
          (replace_char "<" "&lt;"
             (replace_char "&" "&amp;" s)))).

Definition esc (text : string) : string := html_escape text.

Fixpoint lstrip (s : string) : string :=
  match s with
  | EmptyString => EmptyString
  | String c rest => if spec_is_space c then lstrip rest else s
  end.

Definition rev_string (s : string) : string :=
  string_of_list_ascii (rev (list_ascii_of_string s)).

(** [s.strip()] *)
Definition strip (s : string) : string :=
  rev_string (lstrip (rev_string (lstrip s))).

(** *** Tables *)

Definition db_set_meta (key value : string) : H unit :=
  store_call ReplaceMeta (fun b =>
    (tt, set_meta b
           (filter (fun kv => negb (String.eqb (fst kv) key)) (meta b)
            ++ [(key, value)]))).

Definition db_get_meta (key : string) : H (option string) :=
  store_call SelectMeta (fun b =>
    (match find (fun kv => String.eqb (fst kv) key) (meta b) with
     | Some kv => Some (snd kv)
     | None => None
     end, b)).

Definition save_user (user : option Person) : H unit :=
  match user with
  | None => ret tt
  | Some u =>
      store_call InsertUser (fun b =>
        (tt, set_users b
               (filter (fun r => negb (user_id r =? p_id u))
                  (users (DB (core b)))
                ++ [mk_user_row (p_id u)
                      (or_else (p_username u) "")
                      (p_first_name u)
                      (or_else (p_last_name u) "")
                      (or_else (p_language_code u) "")
                      (clock (core b))])))
  end.

Definition save_chat (chat : option Chat) : H unit :=
  match chat with
  | None => ret tt
  | Some c =>
      store_call InsertChat (fun b =>
        (tt, set_chats b
               (filter (fun r => negb (ch_chat_id r =? c_id c)) (chats b)
                ++ [mk_chat_row (c_id c)
                      (or_else (c_title c) (or_else (c_username c) ""))
                      (c_type c)
                      (clock (core b))])))
  end.

Definition list_admins : H (list admin_row) :=
  store_call SelectAdmins (fun b => (admins (DB (core b)), b)).

(** The dictionary [get_stats] returns. *)
Record stats := mk_stats {
  st_users : Z;
  st_chats : Z;
  st_broadcasts : Z
}.

Definition get_stats : H stats :=
  store_call SelectCounts (fun b =>
    (mk_stats (Z.of_nat (List.length (users (DB (core b)))))
              (Z.of_nat (List.length (chats b)))
              (Z.of_nat (List.length (broadcasts (DB (core b))))), b)).

(** *** Decorators *)

Definition require_owner (func : Upd -> list string -> H unit)
  (update : Upd) (args : list string) : H unit :=
  match effective_user update with
  | Some user =>
      if eq_opt_int (p_id user) OWNER_ID then func update args
      else reply_text update SayNotOwner
  | None => reply_text update SayNotOwner
  end.

Definition require_admin (func : Upd -> list string -> H unit)
  (update : Upd) (args : list string) : H unit :=
  match effective_user update with
  | Some user =>
      admin <~ lift (is_admin (p_id user)) ;;
      if admin then func update args
      else reply_text update SayNotAdmin
  | None => reply_text update SayNotAdmin
  end.

(** *** Interactive handlers *)

Definition start (update : Upd) : H unit :=
  match effective_user update with
  | None => ret tt
  | Some user =>
      save_user (Some user) ;;;
      (if truthy_int OWNER_ID && eq_opt_int (p_id user) OWNER_ID
       then lift (add_admin (p_id user) (Some 0))
       else ret tt) ;;;
      let name :=
        esc (if negb (String.eqb (p_first_name user) "")
             then p_first_name user
             else or_else (p_username user) "there") in
      reply_text update (SayStart name)
  end.

Definition myid_cmd (update : Upd) : H unit :=
  match effective_user update with
  | None => ret tt
  | Some user =>
      save_user (Some user) ;;;
      save_chat (effective_chat update) ;;;
      reply_text update
        (SayMyId (p_id user)
           (option_map c_id (effective_chat update))
           (esc (match effective_chat update with
                 | Some c => c_type c
                 | None => "Unknown"
                 end)))
  end.

Definition whoami (update : Upd) : H unit :=
  match effective_user update with
  | None => ret tt
  | Some user =>
      save_user (Some user) ;;;
      let uname :=
        if truthy_str (p_username user)
        then String.append "@" (str_of (p_username user))
        else "-" in
      let full_name :=
        String.append (p_first_name user)
          (if truthy_str (p_last_name user)
           then String.append " " (str_of (p_last_name user))
           else "") in
      reply_text update
        (SayWhoami (p_id user)
           (esc (if negb (String.eqb full_name "") then full_name else "-"))
           (esc uname)
           (if truthy_str (p_language_code user)
            then Some (esc (str_of (p_language_code user)))
            else None))
  end.

(** [member.full_name] *)
Definition full_name (p : Person) : string :=
  if truthy_str (p_last_name p)
  then String.append (p_first_name p) (String.append " " (str_of (p_last_name p)))
  else p_first_name p.

(** [a or b] on two strings. *)
Definition or_string (a b : string) : string :=
  if negb (String.eqb a "") then a else b.

Definition welcome (update : Upd) (member : Person) : H unit :=
  if p_is_bot member then ret tt
  else
    save_user (Some member) ;;;
    let name :=
      esc (or_string (full_name member) (or_string (p_first_name member) "there")) in
    group <~ match effective_chat update with
             | Some c => ret (esc (or_else (c_title c) "this group"))
             | None => raise (attribute_error "title")
             end ;;
    reply_text update (SayWelcome name group).

Fixpoint for_members (update : Upd) (members : list Person) : H unit :=
  match members with
  | [] => ret tt
  | member :: rest => welcome update member ;;; for_members update rest
  end.

Definition new_members (update : Upd) : H unit :=
  match message update with
  | None => ret tt
  | Some msg =>
      match m_new_chat_members msg with
      | [] => ret tt
      | members =>
          save_chat (effective_chat update) ;;;
          for_members update members
      end
  end.

Definition forwarded_handler (update : Upd) : H unit :=
  match message update with
  | None => ret tt
  | Some msg =>
      save_user (m_from_user msg) ;;;
      save_chat (effective_chat update) ;;;
      let sender_user_id := option_map p_id (m_from_user msg) in
      match m_forward_from msg with
      | Some f =>
          let f_name :=
            or_string
              (strip (String.append (p_first_name f)
                        (String.append " " (or_else (p_last_name f) ""))))
              (or_else (p_username f) "User") in
          reply_text update (SayForwardedUser sender_user_id (p_id f) (esc f_name))
      | None =>
          match m_forward_from_chat msg with
          | Some fc =>
              reply_text update
                (SayForwardedChat sender_user_id (c_id fc) (esc (c_type fc))
                   (esc (or_else (c_title fc) (or_else (c_username fc) "Chat"))))
          | None =>
              if truthy_str (m_forward_sender_name msg)
              then reply_text update
                     (SayForwardedHidden sender_user_id
                        (esc (str_of (m_forward_sender_name msg))))
              else reply_text update SayForwardHint
          end
      end
  end.

Definition callback_query_handler (update : Upd) : H unit :=
  match callback_query update with
  | None => ret tt
  | Some query =>
      let data := or_else (q_data query) "" in
      let user := q_from_user query in
      if String.eqb data "copy_id" then
        query_answer (Some (p_id user)) ;;; save_user (Some user)
      else if String.eqb data "cmd_myid" then
        query_edit_message_text (SayYourId (p_id user)) ;;; save_user (Some user)
      else if String.eqb data "cmd_help" then
        query_edit_message_text SayHelp
      else query_answer None
  end.

(** *** Admin commands *)

Definition stats_cmd_func (update : Upd) (args : list string) : H unit :=
  s <~ get_stats ;;
  reply_text update (SayStats (st_users s) (st_chats s) (st_broadcasts s)).

Definition stats_cmd := require_admin stats_cmd_func.

(** [chat.type in ["group", "supergroup"]] *)
Definition in_group (c : Chat) : bool :=
  String.eqb (c_type c) "group" || String.eqb (c_type c) "supergroup".

(** [target.id] *)
Definition id_of (target : option Person) : H Z :=
  match target with
  | Some p => ret (p_id p)
  | None => raise (attribute_error "id")
  end.

Definition ban_cmd_func (update : Upd) (args : list string) : H unit :=
  msg <~ the_message update "chat" ;;
  if negb (in_group (m_chat msg)) then reply_text update SayGroupOnly
  else
    match m_reply_to msg with
    | None => reply_text update SayReplyToBan
    | Some target =>
        try_except
          (uid <~ id_of target ;;
           bot_call KickChatMember (c_id (m_chat msg)) uid ;;;
           reply_text update (SayBanned uid))
          (fun e => reply_text update (SayFailedBan e))
    end.

Definition ban_cmd := require_admin ban_cmd_func.

Definition kick_cmd_func (update : Upd) (args : list string) : H unit :=
  msg <~ the_message update "chat" ;;
  if negb (in_group (m_chat msg)) then reply_text update SayGroupOnly
  else
    match m_reply_to msg with
    | None => reply_text update SayReplyToKick
    | Some target =>
        try_except
          (uid <~ id_of target ;;
           bot_call KickChatMember (c_id (m_chat msg)) uid ;;;
           bot_call UnbanChatMember (c_id (m_chat msg)) uid ;;;
           reply_text update (SayKicked uid))
          (fun e => reply_text update (SayFailedKick e))
    end.

Definition kick_cmd := require_admin kick_cmd_func.

(** [py_int] is Python's [int] on a string: the number, or [None] where
    it raises. *)
Definition unban_cmd_func (py_int : string -> option Z) (update : Upd)
  (args : list string) : H unit :=
  msg <~ the_message update "reply_to_message" ;;
  let go (target_id : Z) : H unit :=
    try_except
      (bot_call UnbanChatMember (c_id (m_chat msg)) target_id ;;;
       reply_text update (SayUnbanned target_id))
      (fun e => reply_text update (SayFailedUnban e)) in
  match m_reply_to msg with
  | Some target => target_id <~ id_of target ;; go target_id
  | None =>
      match args with
      | a :: _ =>
          match py_int a with
          | Some target_id => go target_id
          | None => reply_text update SayUnbanUsage
          end
      | [] => reply_text update SayUnbanUsage
      end
  end.

Definition unban_cmd (py_int : string -> option Z) :=
  require_admin (unban_cmd_func py_int).

(** *** Owner commands *)

(** [update.effective_user.id] *)
Definition effective_user_id (update : Upd) : H Z :=
  match effective_user update with
  | Some user => ret (p_id user)
  | None => raise (attribute_error "id")
  end.

Definition addadmin_cmd_func (py_int : string -> option Z) (update : Upd)
  (args : list string) : H unit :=
  match args with
  | [] => reply_text update SayAddAdminUsage
  | a :: _ =>
      match py_int a with
      | None => reply_text update SayInvalidUserId
      | Some uid =>
          by_ <~ effective_user_id update ;;
          lift (add_admin uid (Some by_)) ;;;
          reply_text update (SayAddedAdmin uid)
      end
  end.

Definition addadmin_cmd (py_int : string -> option Z) :=
  require_owner (addadmin_cmd_func py_int).

Definition removeadmin_cmd_func (py_int : string -> option Z) (update : Upd)
  (args : list string) : H unit :=
  match args with
  | [] => reply_text update SayRemoveAdminUsage
  | a :: _ =>
      match py_int a with
      | None => reply_text update SayInvalidUserId
      | Some uid =>
          lift (remove_admin uid) ;;;
          reply_text update (SayRemovedAdmin uid)
      end
  end.

Definition removeadmin_cmd (py_int : string -> option Z) :=
  require_owner (removeadmin_cmd_func py_int).

Definition listadmins_cmd_func (update : Upd) (args : list string) : H unit :=
  rows <~ list_admins ;;
  match rows with
  | [] => reply_text update SayNoAdmins
  | _ => reply_text update (SayAdmins rows)
  end.

Definition listadmins_cmd := require_owner listadmins_cmd_func.

End Tg.

(** ** Reading what the other handlers did *)

Fixpoint replies (es : list Tg.effect) : list Tg.saying :=
  match es with
  | [] => []
  | Tg.Reply s :: rest => s :: replies rest
  | _ :: rest => replies rest
  end.

(** The API calls attempted, each with the exception it ended in. *)
Fixpoint calls (es : list Tg.effect) : list (Tg.api * Z * Z * option exn) :=
  match es with
  | [] => []
  | Tg.Called c chat user failed :: rest => (c, chat, user, failed) :: calls rest
  | _ :: rest => calls rest
  end.

(** The effects a bot gained over an earlier state. *)
Definition said (b b' : Tg.Bot) (es : list Tg.effect) : Prop :=
  Tg.out b' = Tg.out b ++ es.

(** How often [uid] is among the recipients a run would read. *)
Definition times_recipient (uid : Z) (w : World) : nat :=
  count_occ Z.eq_dec (snapshot w) uid.

(** ** Sample updates *)

Definition no_api_faults : Tg.api -> option exn := fun _ => None.

Definition sample_bot : Tg.Bot :=
  Tg.mk_Bot calm_world [] [] no_api_faults [].

Definition ann : Tg.Person :=
  Tg.mk_Person 2 false "Ann" (Some "Lee") (Some "ann_lee") (Some "en").

Definition newcomer : Tg.Person :=
  Tg.mk_Person 9 false "Bob" None None None.

Definition helper_bot : Tg.Person :=
  Tg.mk_Person 77 true "HelperBot" None (Some "helper_bot") None.

Definition owner_person : Tg.Person :=
  Tg.mk_Person 8116152355 false "Owner" None None None.

Definition a_group : Tg.Chat := Tg.mk_Chat (-100123) "supergroup" (Some "Friends") None.

Definition a_private_chat : Tg.Chat := Tg.mk_Chat 2 "private" None (Some "ann_lee").

(** A plain message of [p] in chat [c], replying to a message of
    [target] when given. *)
Definition message_from (p : Tg.Person) (c : Tg.Chat)
  (target : option (option Tg.Person)) : Tg.Upd :=
  Tg.mk_Upd (Some p) (Some c)
    (Some (Tg.mk_Msg (Some p) c target [] None None None)) None.

(** The service message for [members] joining chat [c]. *)
Definition join_message (c : Tg.Chat) (members : list Tg.Person) : Tg.Upd :=
  Tg.mk_Upd None (Some c)
    (Some (Tg.mk_Msg None c None members None None None)) None.

(** A button press by [p] with callback data [data]. *)
Definition button_press (p : Tg.Person) (data : option string) : Tg.Upd :=
  Tg.mk_Upd (Some p) None None (Some (Tg.mk_Query data p)).

(** A stand-in for [int] on decimal digits, for the examples. *)
Definition sample_int (s : string) : option Z :=
  if String.eqb s "555" then Some 555
  else if String.eqb s "8116152355" then Some 8116152355
  else None.

(** What a run of the broadcast reads of a bot's state: the users table
    and the behaviour of its database calls. *)
Definition recipients_view (b : Tg.Bot) : list user_row * (call -> option exn) :=
  (users (DB (Tg.core b)), raises (Tg.core b)).

(** [m] leaves that as it is. *)
Definition keeps_recipients {A} (m : Tg.H A) : Prop :=
  forall b, recipients_view (snd (m b)) = recipients_view b.

(** The three commands that manage admins, for a given [int]. *)
Definition owner_commands (py_int : string -> option Z)
  : list (Tg.Upd -> list string -> Tg.H unit) :=
  [Tg.addadmin_cmd py_int; Tg.removeadmin_cmd py_int; Tg.listadmins_cmd].

(** A bot whose admins table holds a row for user 2 (Ann). *)
Definition bot_with_admin_ann : Tg.Bot :=
  Tg.mk_Bot
    (mk_World
       (mk_Database [sample_user 1] [] 0
          [mk_admin_row 8116152355 0 1700000000; mk_admin_row 2 8116152355 1700000010])
       always_delivers no_faults 1700000100 [] [] [] [])
    [] [] no_api_faults [].

Definition fault_at (c : Tg.api) (e : exn) : Tg.api -> option exn :=
  fun c' =>
    match c, c' with
    | Tg.KickChatMember, Tg.KickChatMember => Some e
    | Tg.UnbanChatMember, Tg.UnbanChatMember => Some e
    | Tg.InsertUser, Tg.InsertUser => Some e
    | _, _ => None
    end.

(** A bot that is not allowed to restrict members. *)
Definition powerless_bot : Tg.Bot :=
  Tg.mk_Bot calm_world [] []
    (fault_at Tg.KickChatMember "Not enough rights to restrict/unrestrict chat member")
    [].

(** [v] is the id of a member of the list that is not a bot. *)
Definition joins_as_user (v : Z) (members : list Tg.Person) : bool :=
  existsb (fun p => negb (Tg.p_is_bot p) && (Tg.p_id p =? v)) members.

Definition humans (members : list Tg.Person) : list Tg.Person :=
  filter (fun p => negb (Tg.p_is_bot p)) members.

(** A bot whose admins table is empty (the owner's row was removed). *)
Definition bot_without_admins : Tg.Bot :=
  Tg.mk_Bot
    (mk_World (mk_Database [sample_user 1] [] 0 [])
       always_delivers no_faults 1700000100 [] [] [] [])
    [] [] no_api_faults [].

(** The callback data after which the handler stores the user. *)
Definition stores_user (data : string) : bool :=
  String.eqb data "copy_id" || String.eqb data "cmd_myid".

(** [x in s] for a character. *)
Fixpoint occurs (x : ascii) (s : string) : bool :=
  match s with
  | EmptyString => false
  | String c rest => Ascii.eqb c x || occurs x rest
  end.

(** The characters that open or close markup or an attribute value. *)
Definition markup_chars : list ascii := ["<"; ">"; "034"; "'"]%char.

(** A message of [p] in chat [c] forwarded from user [f]. *)
Definition forwarded_from (p : Tg.Person) (c : Tg.Chat) (f : Tg.Person) : Tg.Upd :=
  Tg.mk_Upd (Some p) (Some c)
    (Some (Tg.mk_Msg (Some p) c None [] (Some f) (Some a_group) (Some "Hidden")))
    None.

(** A forwarded user with nothing to show but an id. *)
Definition nameless : Tg.Person := Tg.mk_Person 31 false "" None None None.

(** Projections of a trace distribute over concatenation; the same
    induction each time. *)
Ltac by_trace_induction tr :=
  let e := fresh "e" in
  let IH := fresh "IH" in
  induction tr as [|e tr IH]; simpl; [reflexivity|];
  destruct e; simpl; rewrite ?IH; reflexivity.

(** Lay a handler open down to the world it returns. *)
Tactic Notation "open_handler" :=
  unfold bind, ret, try_except, bot_send_message, logger_warning, logger_info,
    time_sleep, reply_text, emit.
Tactic Notation "open_handler" "in" hyp(H) :=
  unfold bind, ret, try_except, bot_send_message, logger_warning, logger_info,
    time_sleep, reply_text, emit in H.

(** * Properties *)

(** ** Strings *)

Lemma concat_nonempty (a : string) (rest : list string) :
  a <> "" -> String.concat " " (a :: rest) <> "".
Proof.
  intros Ha. destruct a as [|c a]; [contradiction|].
  destruct rest; simpl; discriminate.
Qed.

Lemma substring_all (s : string) : forall m,
  (String.length s <= m)%nat -> substring 0 m s = s.
Proof.
  induction s as [|c s IH]; intros m Hm.
  - destruct m; reflexivity.
  - destruct m as [|m]; [simpl in Hm; lia|].
    cbn [substring]. rewrite IH; [reflexivity|]. simpl in Hm. lia.
Qed.

Lemma substring_length (s : string) : forall m,
  String.length (substring 0 m s) = Nat.min m (String.length s).
Proof.
  induction s as [|c s IH]; intros m.
  - destruct m; reflexivity.
  - destruct m as [|m]; [reflexivity|].
    cbn [substring String.length]. rewrite IH. reflexivity.
Qed.

Lemma substring_fixed (s : string) (m : nat) :
  substring 0 m s = s <-> (String.length s <= m)%nat.
Proof.
  split; [|apply substring_all].
  intros H. rewrite <- H at 1. rewrite substring_length. lia.
Qed.

(** ** Traces *)

Lemma sent_to_app tr1 tr2 : sent_to (tr1 ++ tr2) = sent_to tr1 ++ sent_to tr2.
Proof. by_trace_induction tr1. Qed.

Lemma pacing_app tr1 tr2 : pacing (tr1 ++ tr2) = pacing tr1 ++ pacing tr2.
Proof. by_trace_induction tr1. Qed.

Lemma nth_firstn_lt (l : list Z) : forall j i,
  (i < j)%nat -> nth i (firstn j l) 0 = nth i l 0.
Proof.
  induction l as [|x l IH]; intros j i Hlt.
  - rewrite firstn_nil. reflexivity.
  - destruct j as [|j]; [lia|]. destruct i as [|i]; simpl; [reflexivity|].
    apply IH. lia.
Qed.

(** ** The loop, turn by turn *)

Section Loop.

Variable text : string.

Lemma loop_body_run sent uid w :
  exists w',
    loop_body text sent uid w =
      (Ok (sent + tally (bot w) text [uid]), w') /\
    same_store w w' /\
    gained w w' (loop_events (bot w) text [uid]) /\
    forall n, bot w' n = bot w (S n).
Proof.
  unfold loop_body, gained, same_store; open_handler; simpl.
  destruct (bot w 0%nat uid text) as [|e]; simpl; rewrite ?Z.add_0_r;
    eexists; (split; [reflexivity|]); simpl;
    rewrite <- ?app_assoc; simpl; rewrite ?app_nil_r;
    repeat split; f_equal; lia.
Qed.

Lemma for_rows_run rows : forall sent w,
  exists w',
    for_rows text rows sent w = (Ok (sent + tally (bot w) text rows), w') /\
    same_store w w' /\
    gained w w' (loop_events (bot w) text rows) /\
    forall n, bot w' n = bot w (List.length rows + n)%nat.
Proof.
  induction rows as [|uid rest IH]; intros sent w.
  - exists w. unfold gained, same_store; simpl.
    rewrite app_nil_r, Z.add_0_r. repeat split.
  - destruct (loop_body_run sent uid w) as (w1 & E1 & S1 & G1 & B1).
    assert (Hb : bot w1 = fun n => bot w (S n)).
    { clear - E1. unfold loop_body in E1. open_handler in E1. simpl in E1.
      destruct (bot w 0%nat uid text); simpl in E1; inversion E1; reflexivity. }
    destruct (IH (sent + tally (bot w) text [uid]) w1) as (w2 & E2 & S2 & G2 & B2).
    exists w2. split; [|split; [|split]].
    + simpl for_rows. unfold bind. rewrite E1, E2, Hb. do 2 f_equal.
      simpl tally. lia.
    + unfold same_store in *. intuition congruence.
    + unfold gained in *. rewrite G2, G1, Hb, <- app_assoc. f_equal.
      simpl. rewrite app_nil_r. reflexivity.
    + intros n. rewrite B2, Hb. reflexivity.
Qed.

Lemma for_rows_app l1 l2 sent :
  forall w,
    for_rows text (l1 ++ l2) sent w =
    bind (for_rows text l1 sent) (for_rows text l2) w.
Proof.
  revert sent. induction l1 as [|u l1 IH]; intros sent w.
  - reflexivity.
  - simpl. unfold bind at 1. unfold bind at 2. unfold bind at 1.
    destruct (loop_body text sent u w) as [[s1|e] w1]; [|reflexivity].
    rewrite IH. reflexivity.
Qed.

(** *** The counter *)

Lemma tally_bounds rows : forall b,
  0 <= tally b text rows <= Z.of_nat (List.length rows).
Proof.
  induction rows as [|u rest IH]; intros b; simpl tally; simpl List.length.
  - lia.
  - specialize (IH (fun n => b (S n))).
    destruct (b 0%nat u text); lia.
Qed.

Lemma tally_app l1 : forall l2 b,
  tally b text (l1 ++ l2) =
  tally b text l1 + tally (fun n => b (List.length l1 + n)%nat) text l2.
Proof.
  induction l1 as [|u l1 IH]; intros l2 b; simpl.
  - reflexivity.
  - rewrite IH. lia.
Qed.

Lemma tally_all_delivered rows : forall b,
  (forall i, (i < List.length rows)%nat -> b i (nth i rows 0) text = Delivered) ->
  tally b text rows = Z.of_nat (List.length rows).
Proof.
  induction rows as [|u rest IH]; intros b H; simpl tally; simpl List.length.
  - reflexivity.
  - assert (H0 : b 0%nat u text = Delivered) by (apply (H 0%nat); simpl; lia).
    rewrite H0, IH; [lia|]. intros i Hi. apply (H (S i)). simpl; lia.
Qed.

Lemma sent_after_tally rows w j :
  sent_after text rows w j = tally (bot w) text (firstn j rows).
Proof.
  unfold sent_after.
  destruct (for_rows_run (firstn j rows) 0 w) as (w' & E & _).
  rewrite E. lia.
Qed.

(** *** What the loop leaves in the trace *)

Lemma sent_to_loop_events rows : forall b,
  sent_to (loop_events b text rows) = map (fun u => (u, text)) rows.
Proof.
  induction rows as [|u rest IH]; intros b; simpl; [reflexivity|].
  destruct (b 0%nat u text); simpl; rewrite IH; reflexivity.
Qed.

Lemma pacing_loop_events rows : forall b,
  pacing (loop_events b text rows) =
  flat_map (fun _ => [Attempt; Wait BROADCAST_DELAY_SEC]) rows.
Proof.
  induction rows as [|u rest IH]; intros b; simpl; [reflexivity|].
  destruct (b 0%nat u text); simpl; rewrite IH; reflexivity.
Qed.

Lemma warnings_loop_events rows : forall b,
  warnings (loop_events b text rows) = refused b text rows.
Proof.
  induction rows as [|u rest IH]; intros b; simpl; [reflexivity|].
  destruct (b 0%nat u text); simpl; rewrite IH; reflexivity.
Qed.

Lemma warnings_all_delivered rows : forall b,
  (forall i, (i < List.length rows)%nat -> b i (nth i rows 0) text = Delivered) ->
  warnings (loop_events b text rows) = [].
Proof.
  induction rows as [|u rest IH]; intros b H; simpl; [reflexivity|].
  assert (H0 : b 0%nat u text = Delivered) by (apply (H 0%nat); simpl; lia).
  rewrite H0. simpl. apply IH. intros i Hi. apply (H (S i)). simpl; lia.
Qed.

Lemma one_failure rows : forall b i0 cause,
  (i0 < List.length rows)%nat ->
  b i0 (nth i0 rows 0) text = Failed cause ->
  (forall i, (i < List.length rows)%nat -> i <> i0 ->
             b i (nth i rows 0) text = Delivered) ->
  tally b text rows = Z.of_nat (List.length rows) - 1 /\
  warnings (loop_events b text rows) = [(nth i0 rows 0, cause)].
Proof.
  induction rows as [|u rest IH]; intros b i0 cause Hlt Hfail Hrest.
  - simpl in Hlt. lia.
  - change (List.length (u :: rest)) with (S (List.length rest)) in *.
    rewrite Nat2Z.inj_succ.
    destruct i0 as [|i1].
    + cbn [nth] in Hfail. cbn [tally loop_events nth]. rewrite Hfail.
      assert (Hall : forall i, (i < List.length rest)%nat ->
                               b (S i) (nth i rest 0) text = Delivered).
      { intros i Hi. apply (Hrest (S i)); simpl; lia. }
      rewrite (tally_all_delivered rest (fun n => b (S n)) Hall).
      cbn [app warnings].
      rewrite (warnings_all_delivered rest (fun n => b (S n)) Hall).
      split; [lia|reflexivity].
    + assert (H0 : b 0%nat u text = Delivered).
      { apply (Hrest 0%nat); simpl; lia. }
      destruct (IH (fun n => b (S n)) i1 cause) as [Ht Hw].
      * lia.
      * exact Hfail.
      * intros i Hi Hne. apply (Hrest (S i)); simpl; lia.
      * cbn [tally loop_events nth]. rewrite H0, Ht.
        cbn [app warnings]. rewrite Hw.
        split; [lia|reflexivity].
Qed.

End Loop.

(** ** The whole task *)

Lemma do_broadcast_run bid text from_user w :
  let rows := snapshot w in
  let sent := tally (bot w) text rows in
  exists w',
    _do_broadcast bid text from_user w =
      (match raises w SelectUsers, raises w UpdateSentCount with
       | Some e, _ => Raise e
       | None, Some e => Raise e
       | None, None => Ok tt
       end, w') /\
    match raises w SelectUsers with
    | Some _ => w' = w
    | None =>
        raises w' = raises w /\ clock w' = clock w /\ threads w' = threads w /\
        match raises w UpdateSentCount with
        | Some _ =>
            DB w' = DB w /\ gained w w' (loop_events (bot w) text rows)
        | None =>
            DB w' = set_broadcasts (DB w)
                      (update_sent_count sent bid (broadcasts (DB w)))
                      (broadcasts_seq (DB w)) /\
            gained w w' (loop_events (bot w) text rows
                         ++ [EvInfo bid sent (Z.of_nat (List.length rows))])
        end
    end.
Proof.
  intros rows sent. subst rows sent. unfold snapshot, _do_broadcast.
  unfold bind at 1. unfold db_call at 1.
  destruct (raises w SelectUsers) as [e|] eqn:Hsel.
  { exists w. split; reflexivity. }
  set (w0 := set_DB w (DB w)).
  destruct (for_rows_run text (map user_id (users (DB w))) 0 w0)
    as (w1 & E & (HDB & Hr & Hc & Ht) & G & _).
  change (bot w0) with (bot w) in *. change (trace w0) with (trace w) in *.
  change (DB w0) with (DB w) in *. change (raises w0) with (raises w) in *.
  change (clock w0) with (clock w) in *. change (threads w0) with (threads w) in *.
  unfold gained in G. unfold bind at 1. rewrite E, Z.add_0_l.
  unfold bind, db_call. rewrite Hr.
  destruct (raises w UpdateSentCount) as [e|] eqn:Hupd.
  - exists w1. unfold gained. repeat split; auto.
  - unfold logger_info, emit. eexists. split; [reflexivity|].
    unfold gained; simpl. rewrite HDB, G, app_assoc.
    repeat split; auto.
Qed.

Lemma update_sent_count_In sent bid bs r :
  In r (update_sent_count sent bid bs) -> bc_id r = bid -> bc_sent_count r = sent.
Proof.
  unfold update_sent_count. rewrite in_map_iff. intros (r0 & <- & _).
  destruct (bc_id r0 =? bid) eqn:E; simpl; [reflexivity|].
  rewrite Z.eqb_neq in E. intros; contradiction.
Qed.

Lemma update_sent_count_keeps sent bid bs r :
  In r bs -> bc_id r = bid ->
  In (mk_broadcast_row bid (bc_ts r) (bc_from_user r) (bc_text r) sent)
     (update_sent_count sent bid bs).
Proof.
  intros Hin Hid. unfold update_sent_count. apply in_map_iff.
  exists r. split; [|assumption].
  rewrite Hid, Z.eqb_refl. reflexivity.
Qed.

Lemma update_sent_count_texts sent bid bs :
  map bc_text (update_sent_count sent bid bs) = map bc_text bs.
Proof.
  unfold update_sent_count. rewrite map_map. apply map_ext.
  intros r. destruct (bc_id r =? bid); reflexivity.
Qed.

Lemma update_sent_count_identity sent bid bs :
  map job_identity (update_sent_count sent bid bs) = map job_identity bs.
Proof.
  unfold update_sent_count. rewrite map_map. apply map_ext.
  intros r. destruct (bc_id r =? bid); reflexivity.
Qed.

Lemma texts_of_identities (bs : list broadcast_row) :
  map bc_text bs = map snd (map job_identity bs).
Proof. rewrite map_map. reflexivity. Qed.

Lemma update_sent_count_other sent bid bs :
  Forall (fun r => bc_id r <> bid) bs -> update_sent_count sent bid bs = bs.
Proof.
  induction 1 as [|r rs Hr _ IH]; [reflexivity|].
  simpl. rewrite IH. apply Z.eqb_neq in Hr. rewrite Hr. reflexivity.
Qed.

Lemma ledger_ok_fresh d :
  ledger_ok d ->
  Forall (fun r => bc_id r <> broadcasts_seq d + 1) (broadcasts d).
Proof.
  unfold ledger_ok. apply Forall_impl. intros r Hr. lia.
Qed.

(** ** Threads *)

Lemma loop_body_same_threads text sent uid w :
  same_threads w (snd (loop_body text sent uid w)).
Proof.
  unfold loop_body, same_threads; open_handler; simpl.
  destruct (bot w 0%nat uid text); simpl; repeat split.
Qed.

Lemma for_rows_same_threads text rows : forall sent w,
  same_threads w (snd (for_rows text rows sent w)).
Proof.
  induction rows as [|uid rest IH]; intros sent w; simpl.
  - repeat split.
  - unfold bind.
    pose proof (loop_body_same_threads text sent uid w) as H.
    destruct (loop_body text sent uid w) as [[s|e] w1]; simpl in H.
    + specialize (IH s w1). unfold same_threads in *. intuition congruence.
    + exact H.
Qed.

(** The rest of a thread, from any state of it. *)
Lemma finish_broadcast_run t w :
  let sent := rt_sent t + tally (bot w) (rt_text t) (rt_rows t) in
  exists w',
    finish_broadcast t w =
      (match raises w UpdateSentCount with
       | Some e => Raise e
       | None => Ok tt
       end, w') /\
    raises w' = raises w /\ clock w' = clock w /\ same_threads w w' /\
    match raises w UpdateSentCount with
    | Some _ =>
        DB w' = DB w /\
        gained w w' (loop_events (bot w) (rt_text t) (rt_rows t))
    | None =>
        DB w' = set_broadcasts (DB w)
                  (update_sent_count sent (rt_bid t) (broadcasts (DB w)))
                  (broadcasts_seq (DB w)) /\
        gained w w' (loop_events (bot w) (rt_text t) (rt_rows t)
                     ++ [EvInfo (rt_bid t) sent (rt_total t)])
    end.
Proof.
  intros sent. subst sent. unfold finish_broadcast.
  destruct (for_rows_run (rt_text t) (rt_rows t) (rt_sent t) w)
    as (w1 & E & (HDB & Hr & Hc & Ht) & G & _).
  pose proof (for_rows_same_threads (rt_text t) (rt_rows t) (rt_sent t) w) as Hs.
  rewrite E in Hs. cbn [snd] in Hs.
  unfold gained in G. unfold bind at 1. rewrite E.
  unfold bind, db_call. rewrite Hr.
  destruct (raises w UpdateSentCount) as [e|] eqn:Hupd.
  - exists w1. unfold gained. repeat split; auto; apply Hs.
  - unfold logger_info, emit. eexists. split; [reflexivity|].
    unfold gained, same_threads in *; simpl. rewrite HDB, G, app_assoc.
    repeat split; auto; apply Hs.
Qed.

(** [_do_broadcast] is the snapshot read followed by the rest. *)
Lemma do_broadcast_from_snapshot bid text from_user w :
  _do_broadcast bid text from_user w =
  bind (db_call SelectUsers (fun d _ => (map user_id (users d), d)))
    (fun rows =>
       finish_broadcast
         (mk_running_task bid text from_user (Z.of_nat (List.length rows)) 0 rows))
    w.
Proof. reflexivity. Qed.

(** Turns taken earlier leave the rest of the thread to do the rest. *)
Lemma finish_after_turns k bid text from_user total rows sent w :
  finish_broadcast (mk_running_task bid text from_user total sent rows) w =
  bind (for_rows text (firstn k rows) sent)
    (fun s =>
       finish_broadcast
         (mk_running_task bid text from_user total s (skipn k rows)))
    w.
Proof.
  unfold finish_broadcast. cbn [rt_text rt_rows rt_sent rt_bid rt_total].
  rewrite <- (firstn_skipn k rows) at 1. unfold bind at 1.
  rewrite for_rows_app. unfold bind.
  destruct (for_rows text (firstn k rows) sent w) as [[s|e] w1]; reflexivity.
Qed.

Lemma do_broadcast_same_threads bid text from_user w :
  same_threads w (snd (_do_broadcast bid text from_user w)).
Proof.
  destruct (do_broadcast_run bid text from_user w) as (w' & E & P).
  rewrite do_broadcast_from_snapshot in *. unfold bind, db_call in *.
  destruct (raises w SelectUsers); [repeat split|].
  cbn [fst snd] in *.
  destruct (finish_broadcast_run
              (mk_running_task bid text from_user
                 (Z.of_nat (List.length (map user_id (users (DB w))))) 0
                 (map user_id (users (DB w))))
              (set_DB w (DB w)))
    as (w1 & E1 & _ & _ & Hs & _).
  rewrite E1. exact Hs.
Qed.

(** The first steps of a thread, read off the world they start in. *)
Lemma first_steps_run k bid text from_user w :
  let rows := snapshot w in
  let N := Z.of_nat (List.length rows) in
  exists r w',
    first_steps k bid text from_user w = (r, w') /\
    raises w' = raises w /\ clock w' = clock w /\ same_threads w w' /\
    match raises w SelectUsers with
    | Some e => r = Raise e /\ w' = w
    | None =>
        if (List.length rows <? k)%nat
        then
          match raises w UpdateSentCount with
          | Some e =>
              r = Raise e /\ DB w' = DB w /\
              gained w w' (loop_events (bot w) text rows)
          | None =>
              r = Ok None /\
              DB w' = set_broadcasts (DB w)
                        (update_sent_count (tally (bot w) text rows) bid
                           (broadcasts (DB w)))
                        (broadcasts_seq (DB w)) /\
              gained w w' (loop_events (bot w) text rows
                           ++ [EvInfo bid (tally (bot w) text rows) N])
          end
        else
          r = Ok (Some (mk_running_task bid text from_user N
                          (tally (bot w) text (firstn k rows)) (skipn k rows))) /\
          DB w' = DB w /\
          gained w w' (loop_events (bot w) text (firstn k rows)) /\
          forall n, bot w' n = bot w (List.length (firstn k rows) + n)%nat
    end.
Proof.
  intros rows N. subst rows N. unfold snapshot, first_steps.
  unfold bind at 1. unfold db_call at 1.
  destruct (raises w SelectUsers) as [e|] eqn:Hsel.
  { exists (Raise e), w. repeat split. }
  set (rows := map user_id (users (DB w))).
  set (w0 := set_DB w (DB w)).
  destruct (List.length rows <? k)%nat eqn:Hk.
  - apply Nat.ltb_lt in Hk.
    rewrite firstn_all2, skipn_all2 by lia.
    destruct (for_rows_run text rows 0 w0) as (w1 & E & (HDB & Hr & Hc & Ht) & G & _).
    pose proof (for_rows_same_threads text rows 0 w0) as Hs.
    rewrite E in Hs. cbn [snd] in Hs.
    unfold bind at 1. rewrite E, Z.add_0_l. unfold gained in G.
    change (bot w0) with (bot w) in *. change (trace w0) with (trace w) in *.
    change (DB w0) with (DB w) in *. change (raises w0) with (raises w) in *.
    change (clock w0) with (clock w) in *.
    destruct (finish_broadcast_run
                (mk_running_task bid text from_user (Z.of_nat (List.length rows))
                   (tally (bot w) text rows) []) w1)
      as (w2 & E2 & Hr2 & Hc2 & Hs2 & P2).
    cbn [rt_sent rt_text rt_rows rt_bid rt_total tally loop_events app] in *.
    rewrite Z.add_0_r in *. rewrite Hr in E2, P2. unfold bind. rewrite E2.
    unfold gained in *.
    assert (Hst : same_threads w w2).
    { unfold same_threads in *. cbn [w0 set_DB threads running head_start] in Hs.
      intuition congruence. }
    destruct (raises w UpdateSentCount) as [e|] eqn:Hupd; destruct P2 as [HDB2 G2].
    + exists (Raise e), w2. rewrite ?app_nil_r in G2.
      repeat split; try congruence; apply Hst.
    + exists (Ok None), w2. unfold ret.
      split; [reflexivity|].
      split; [congruence|]. split; [congruence|]. split; [exact Hst|].
      split; [reflexivity|]. split.
      * rewrite HDB2, HDB. reflexivity.
      * rewrite G2, G, app_assoc. reflexivity.
  - destruct (for_rows_run text (firstn k rows) 0 w0)
      as (w1 & E & (HDB & Hr & Hc & Ht) & G & Hb).
    pose proof (for_rows_same_threads text (firstn k rows) 0 w0) as Hs.
    rewrite E in Hs. cbn [snd] in Hs.
    unfold bind at 1. rewrite E, Z.add_0_l. unfold ret.
    exists (Ok (Some (mk_running_task bid text from_user
                        (Z.of_nat (List.length rows))
                        (tally (bot w) text (firstn k rows)) (skipn k rows)))), w1.
    split; [reflexivity|].
    split; [exact Hr|]. split; [exact Hc|]. split; [exact Hs|].
    split; [reflexivity|]. split; [exact HDB|]. split; [exact G|exact Hb].
Qed.

Lemma thread_start_never_raises bid text from_user w :
  fst (thread_start bid text from_user w) = Ok tt.
Proof.
  unfold thread_start. destruct (hd 0%nat (head_start w)); [reflexivity|].
  destruct (first_steps _ _ _ _ _) as [[[t|]|e] w']; reflexivity.
Qed.

(** [Thread.start()], by what the scheduler gives the new thread. *)
Lemma thread_start_cases bid text from_user w :
  let rows := snapshot w in
  let N := Z.of_nat (List.length rows) in
  exists w' tr,
    thread_start bid text from_user w = (Ok tt, w') /\
    gained w w' (EvThreadStart bid text from_user :: tr) /\
    raises w' = raises w /\ clock w' = clock w /\
    head_start w' = tl (head_start w) /\
    match hd 0%nat (head_start w) with
    | O =>
        tr = [] /\ DB w' = DB w /\ bot w' = bot w /\
        threads w' = threads w ++ [(bid, text, from_user)] /\
        running w' = running w
    | S k =>
        threads w' = threads w /\
        match raises w SelectUsers with
        | Some e =>
            tr = [EvExcepthook e] /\ DB w' = DB w /\ running w' = running w
        | None =>
            if (List.length rows <? k)%nat
            then
              running w' = running w /\
              match raises w UpdateSentCount with
              | Some e =>
                  tr = loop_events (bot w) text rows ++ [EvExcepthook e] /\
                  DB w' = DB w
              | None =>
                  tr = loop_events (bot w) text rows
                       ++ [EvInfo bid (tally (bot w) text rows) N] /\
                  DB w' = set_broadcasts (DB w)
                            (update_sent_count (tally (bot w) text rows) bid
                               (broadcasts (DB w)))
                            (broadcasts_seq (DB w))
              end
            else
              tr = loop_events (bot w) text (firstn k rows) /\
              DB w' = DB w /\
              running w' =
                running w
                ++ [mk_running_task bid text from_user N
                      (tally (bot w) text (firstn k rows)) (skipn k rows)] /\
              forall n, bot w' n = bot w (List.length (firstn k rows) + n)%nat
        end
    end.
Proof.
  intros rows N. unfold thread_start.
  destruct (hd 0%nat (head_start w)) as [|k].
  { eexists; exists []. split; [reflexivity|]. unfold gained.
    cbn [DB bot raises clock trace threads running head_start].
    repeat split. }
  set (ws := mk_World _ _ _ _ _ _ _ _).
  destruct (first_steps_run k bid text from_user ws)
    as (r & w1 & E & Hr & Hc & (Ht & Hrun & Hh) & P).
  rewrite E. unfold gained in *.
  change (raises ws) with (raises w) in *. change (clock ws) with (clock w) in *.
  change (snapshot ws) with rows in *. change (bot ws) with (bot w) in *.
  change (DB ws) with (DB w) in *. change (threads ws) with (threads w) in *.
  change (running ws) with (running w) in *.
  change (head_start ws) with (tl (head_start w)) in *.
  change (trace ws) with (trace w ++ [EvThreadStart bid text from_user]) in *.
  fold N in P.
  destruct (raises w SelectUsers) as [e|].
  { destruct P as [-> ->]. unfold emit. eexists; exists [EvExcepthook e].
    split; [reflexivity|].
    cbn [DB bot raises clock trace threads running head_start ws].
    rewrite <- app_assoc. repeat split. }
  destruct (List.length rows <? k)%nat.
  - destruct (raises w UpdateSentCount) as [e|].
    + destruct P as (-> & HDB & G). unfold emit.
      eexists; exists (loop_events (bot w) text rows ++ [EvExcepthook e]).
      split; [reflexivity|].
      cbn [DB bot raises clock trace threads running head_start].
      rewrite G, <- !app_assoc. repeat split; assumption.
    + destruct P as (-> & HDB & G).
      exists w1; eexists. split; [reflexivity|].
      rewrite G, <- !app_assoc. repeat split; assumption.
  - destruct P as (-> & HDB & G & Hb).
    eexists; eexists. split; [reflexivity|].
    cbn [DB bot raises clock trace threads running head_start].
    rewrite G, <- !app_assoc, Hrun. repeat split; assumption.
Qed.

Lemma replied_app tr1 tr2 : replied (tr1 ++ tr2) = replied tr1 ++ replied tr2.
Proof. by_trace_induction tr1. Qed.

Lemma replied_loop_events text rows : forall b,
  replied (loop_events b text rows) = [].
Proof.
  induction rows as [|u rest IH]; intros b; simpl; [reflexivity|].
  destruct (b 0%nat u text); simpl; apply IH.
Qed.

(** What every start has in common. *)
Lemma thread_start_run bid text from_user w :
  exists w' tr,
    thread_start bid text from_user w = (Ok tt, w') /\
    gained w w' (EvThreadStart bid text from_user :: tr) /\
    raises w' = raises w /\ clock w' = clock w /\
    users (DB w') = users (DB w) /\ admins (DB w') = admins (DB w) /\
    broadcasts_seq (DB w') = broadcasts_seq (DB w) /\
    replied tr = [] /\
    (exists j, sent_to tr = map (fun u => (u, text)) (firstn j (snapshot w))) /\
    (broadcasts (DB w') = broadcasts (DB w) \/
     exists sent,
       broadcasts (DB w') = update_sent_count sent bid (broadcasts (DB w)) /\
       sent_to tr = map (fun u => (u, text)) (snapshot w)) /\
    (no_head_start w ->
     tr = [] /\ DB w' = DB w /\ bot w' = bot w /\
     threads w' = threads w ++ [(bid, text, from_user)] /\
     running w' = running w).
Proof.
  destruct (thread_start_cases bid text from_user w)
    as (w' & tr & E & G & Hr & Hc & _ & P).
  exists w', tr. split; [exact E|]. split; [exact G|].
  split; [exact Hr|]. split; [exact Hc|].
  unfold no_head_start.
  destruct (hd 0%nat (head_start w)) as [|k].
  { destruct P as (-> & HDB & Hb & Ht & Hrun). rewrite HDB.
    do 4 (split; [reflexivity|]).
    split; [exists 0%nat; reflexivity|]. split; [left; reflexivity|].
    intros _. repeat split; assumption. }
  destruct P as (_ & P).
  destruct (raises w SelectUsers) as [e|].
  { destruct P as (-> & HDB & _). rewrite HDB.
    do 4 (split; [reflexivity|]).
    split; [exists 0%nat; reflexivity|]. split; [left; reflexivity|].
    intros H; discriminate H. }
  destruct (List.length (snapshot w) <? k)%nat.
  - destruct P as (_ & P).
    destruct (raises w UpdateSentCount) as [e|]; destruct P as (-> & HDB);
      rewrite HDB; cbn [set_broadcasts users admins broadcasts_seq broadcasts];
      rewrite replied_app, replied_loop_events, sent_to_app, sent_to_loop_events;
      cbn [replied sent_to app]; rewrite app_nil_r;
      do 4 (split; [reflexivity|]);
      (split; [exists (List.length (snapshot w)); rewrite firstn_all; reflexivity|]);
      (split; [|intros H; discriminate H]).
    + left. reflexivity.
    + right. eexists. split; reflexivity.
  - destruct P as (-> & HDB & _). rewrite HDB.
    rewrite replied_loop_events, sent_to_loop_events.
    do 4 (split; [reflexivity|]).
    split; [exists k; reflexivity|]. split; [left; reflexivity|].
    intros H; discriminate H.
Qed.

Lemma thread_run_never_raises w : fst (thread_run w) = Ok tt.
Proof.
  unfold thread_run. destruct (threads w) as [|[[bid text] from_user] rest].
  - reflexivity.
  - destruct (_do_broadcast _ _ _ _) as [[u|e] w']; reflexivity.
Qed.

(** ** The run *)

(** C1: when the snapshot read and the finalising write go through and
    every delivery attempt of the run succeeds, the counter stands at [j]
    after the [j]-th recipient (one increment per recipient), the task
    ends normally, and the job record with id [bid] is rewritten with
    [sent_count] equal to the size [N] of the snapshot. *)
Theorem all_delivered_count_is_N (w : World) (bid : Z) (text : string)
  (from_user : Z) :
  raises w SelectUsers = None ->
  raises w UpdateSentCount = None ->
  (forall i, (i < List.length (snapshot w))%nat ->
             bot w i (nth i (snapshot w) 0) text = Delivered) ->
  let N := Z.of_nat (List.length (snapshot w)) in
  exists w',
    _do_broadcast bid text from_user w = (Ok tt, w') /\
    (forall j, (j <= List.length (snapshot w))%nat ->
               sent_after text (snapshot w) w j = Z.of_nat j) /\
    broadcasts (DB w') = update_sent_count N bid (broadcasts (DB w)) /\
    (forall r, In r (broadcasts (DB w')) -> bc_id r = bid ->
               bc_sent_count r = N) /\
    (forall r, In r (broadcasts (DB w)) -> bc_id r = bid ->
               In (mk_broadcast_row bid (bc_ts r) (bc_from_user r) (bc_text r) N)
                  (broadcasts (DB w'))) /\
    exists tr,
      gained w w' (tr ++ [EvInfo bid N N]) /\
      sent_to tr = map (fun u => (u, text)) (snapshot w) /\
      warnings tr = [].
Proof.
  intros Hsel Hupd Hall N.
  destruct (do_broadcast_run bid text from_user w) as (w' & E & P).
  rewrite Hsel, Hupd in E. rewrite Hsel, Hupd in P.
  destruct P as (_ & _ & _ & HDB & G).
  rewrite (tally_all_delivered _ _ _ Hall) in HDB, G. fold N in HDB, G.
  exists w'. split; [exact E|]. split; [|split; [|split; [|split]]].
  - intros j Hj. rewrite sent_after_tally, tally_all_delivered.
    + rewrite length_firstn. f_equal. lia.
    + intros i Hi. rewrite length_firstn in Hi.
      rewrite nth_firstn_lt by lia. apply Hall. lia.
  - rewrite HDB. reflexivity.
  - rewrite HDB. simpl. intros r. apply update_sent_count_In.
  - rewrite HDB. simpl. intros r. apply update_sent_count_keeps.
  - exists (loop_events (bot w) text (snapshot w)). split; [exact G|].
    split; [apply sent_to_loop_events|].
    apply warnings_all_delivered, Hall.
Qed.

(** Three recipients, all reached: job 1 ends with a count of 3. *)
Lemma all_delivered_count_is_N_witness :
  raises calm_world SelectUsers = None /\
  raises calm_world UpdateSentCount = None /\
  (forall i, (i < List.length (snapshot calm_world))%nat ->
             bot calm_world i (nth i (snapshot calm_world) 0) "Hello all"
             = Delivered) /\
  exists w',
    _do_broadcast 1 "Hello all" 42 calm_world = (Ok tt, w') /\
    broadcasts (DB w') = [mk_broadcast_row 1 1700000050 42 "Hello all" 3].
Proof.
  split; [reflexivity|]. split; [reflexivity|]. split; [intros; reflexivity|].
  destruct (all_delivered_count_is_N calm_world 1 "Hello all" 42 eq_refl eq_refl
              (fun _ _ => eq_refl))
    as (w' & E & _ & HB & _).
  exists w'. split; [exact E|exact HB].
Defined.

(** C2: when the snapshot read and the finalising write go through and
    the delivery to exactly one recipient, the [k]-th of [N], fails with
    some cause, then that failure is logged once with the recipient's id
    and the cause, every recipient of the snapshot is still attempted in
    order, the task ends normally and the job record is rewritten with
    [sent_count = N - 1]. *)
Theorem single_failure_is_isolated (w : World) (bid : Z) (text : string)
  (from_user : Z) (k : nat) (cause : exn) :
  raises w SelectUsers = None ->
  raises w UpdateSentCount = None ->
  (1 <= k <= List.length (snapshot w))%nat ->
  bot w (k - 1)%nat (nth (k - 1) (snapshot w) 0) text = Failed cause ->
  (forall i, (i < List.length (snapshot w))%nat -> i <> (k - 1)%nat ->
             bot w i (nth i (snapshot w) 0) text = Delivered) ->
  let N := Z.of_nat (List.length (snapshot w)) in
  exists w' tr,
    _do_broadcast bid text from_user w = (Ok tt, w') /\
    gained w w' (tr ++ [EvInfo bid (N - 1) N]) /\
    warnings tr = [(nth (k - 1) (snapshot w) 0, cause)] /\
    sent_to tr = map (fun u => (u, text)) (snapshot w) /\
    broadcasts (DB w') = update_sent_count (N - 1) bid (broadcasts (DB w)) /\
    (forall r, In r (broadcasts (DB w')) -> bc_id r = bid ->
               bc_sent_count r = N - 1) /\
    (forall r, In r (broadcasts (DB w)) -> bc_id r = bid ->
               In (mk_broadcast_row bid (bc_ts r) (bc_from_user r) (bc_text r)
                     (N - 1))
                  (broadcasts (DB w'))).
Proof.
  intros Hsel Hupd Hk Hfail Hrest N.
  destruct (do_broadcast_run bid text from_user w) as (w' & E & P).
  rewrite Hsel, Hupd in E. rewrite Hsel, Hupd in P.
  destruct P as (_ & _ & _ & HDB & G).
  destruct (one_failure text (snapshot w) (bot w) (k - 1)%nat cause)
    as [Ht Hw]; [lia|exact Hfail|exact Hrest|].
  rewrite Ht in HDB, G. fold N in HDB, G.
  exists w', (loop_events (bot w) text (snapshot w)).
  split; [exact E|]. split; [exact G|]. split; [exact Hw|].
  split; [apply sent_to_loop_events|].
  rewrite HDB. simpl. split; [reflexivity|]. split; intros r.
  - apply update_sent_count_In.
  - apply update_sent_count_keeps.
Qed.

(** Recipients 1, 2, 3 with the delivery to 2 refused: job 1 ends with a
    count of 2 and one warning, naming recipient 2. *)
Lemma single_failure_is_isolated_witness :
  raises one_refusal_world SelectUsers = None /\
  raises one_refusal_world UpdateSentCount = None /\
  (1 <= 2 <= List.length (snapshot one_refusal_world))%nat /\
  bot one_refusal_world 1%nat (nth 1 (snapshot one_refusal_world) 0) "Hello all"
    = Failed "Forbidden: bot was blocked by the user" /\
  (forall i, (i < List.length (snapshot one_refusal_world))%nat ->
             i <> (2 - 1)%nat ->
             bot one_refusal_world i (nth i (snapshot one_refusal_world) 0)
               "Hello all" = Delivered) /\
  exists w' tr,
    _do_broadcast 1 "Hello all" 42 one_refusal_world = (Ok tt, w') /\
    gained one_refusal_world w' (tr ++ [EvInfo 1 2 3]) /\
    warnings tr = [(2, "Forbidden: bot was blocked by the user")] /\
    broadcasts (DB w') = [mk_broadcast_row 1 1700000050 42 "Hello all" 2].
Proof.
  assert (Hk : (1 <= 2 <= List.length (snapshot one_refusal_world))%nat)
    by (simpl; lia).
  assert (Hrest : forall i,
             (i < List.length (snapshot one_refusal_world))%nat ->
             i <> (2 - 1)%nat ->
             bot one_refusal_world i (nth i (snapshot one_refusal_world) 0)
               "Hello all" = Delivered).
  { intros i _ Hne. destruct i as [|[|i]]; [reflexivity| |reflexivity].
    exfalso. apply Hne. reflexivity. }
  split; [reflexivity|]. split; [reflexivity|].
  split; [exact Hk|]. split; [reflexivity|]. split; [exact Hrest|].
  destruct (single_failure_is_isolated one_refusal_world 1 "Hello all" 42 2
              "Forbidden: bot was blocked by the user"
              eq_refl eq_refl Hk eq_refl Hrest)
    as (w' & tr & E & G & Hw & _ & HB & _).
  exists w', tr. repeat split; assumption.
Defined.

(** C5: the counter is 0 before the first turn, each turn leaves it
    unchanged or adds one, so it never decreases, and after any number
    of turns it is at most the number of recipients processed so far,
    hence at most the size of the snapshot; the turns compose to the
    whole loop, and the value the task writes back, when it writes, is
    the counter after the last turn. *)
Theorem counter_monotone_and_bounded (w : World) (bid : Z) (text : string)
  (from_user : Z) :
  let rows := snapshot w in
  let N := List.length rows in
  sent_after text rows w 0 = 0 /\
  (forall j, sent_after text rows w j <= sent_after text rows w (S j)
             <= sent_after text rows w j + 1) /\
  (forall j d, sent_after text rows w j <= sent_after text rows w (j + d)) /\
  (forall j, 0 <= sent_after text rows w j <= Z.of_nat (Nat.min j N)) /\
  (forall j, for_rows text rows 0 w =
             bind (for_rows text (firstn j rows) 0)
                  (for_rows text (skipn j rows)) w) /\
  0 <= sent_after text rows w N <= Z.of_nat N /\
  match _do_broadcast bid text from_user w with
  | (Ok _, w') =>
      broadcasts (DB w') =
      update_sent_count (sent_after text rows w N) bid (broadcasts (DB w))
  | (Raise _, w') => broadcasts (DB w') = broadcasts (DB w)
  end.
Proof.
  intros rows N.
  assert (Hstep : forall j, sent_after text rows w j
                            <= sent_after text rows w (S j)
                            <= sent_after text rows w j + 1).
  { intros j. rewrite !sent_after_tally.
    destruct (Nat.lt_ge_cases j (List.length rows)) as [Hlt|Hge].
    - destruct (nth_split rows 0 Hlt) as (l1 & l2 & Hrows & Hlen).
      rewrite Hrows.
      replace (S j) with (List.length l1 + 1)%nat by lia.
      rewrite <- Hlen, firstn_app_2, firstn_app, Nat.sub_diag, firstn_all.
      cbn [firstn]. rewrite app_nil_r, tally_app.
      generalize (tally_bounds text [nth (List.length l1) rows 0]
                    (fun n => bot w (List.length l1 + n)%nat)).
      cbn [List.length]. lia.
    - rewrite !firstn_all2 by lia. lia. }
  assert (Hbound : forall j, 0 <= sent_after text rows w j
                             <= Z.of_nat (Nat.min j N)).
  { intros j. rewrite sent_after_tally.
    generalize (tally_bounds text (firstn j rows) (bot w)).
    rewrite length_firstn. fold N. lia. }
  split; [reflexivity|]. split; [exact Hstep|]. split; [|split; [exact Hbound|]].
  - intros j d. induction d as [|d IH].
    + rewrite Nat.add_0_r. lia.
    + rewrite Nat.add_succ_r. specialize (Hstep (j + d)%nat). lia.
  - split; [|split].
    + intros j. rewrite <- for_rows_app, firstn_skipn. reflexivity.
    + specialize (Hbound N). rewrite Nat.min_id in Hbound. exact Hbound.
    + destruct (do_broadcast_run bid text from_user w) as (w' & E & P).
      rewrite E. rewrite sent_after_tally. unfold N. rewrite firstn_all.
      destruct (raises w SelectUsers).
      * subst w'. reflexivity.
      * destruct P as (_ & _ & _ & P).
        destruct (raises w UpdateSentCount); destruct P as [HDB _];
          rewrite HDB; reflexivity.
Qed.

(** *** Pacing *)

Lemma turns_repeat (rows : list Z) :
  flat_map (fun _ => turn) rows = List.concat (repeat turn (List.length rows)).
Proof.
  induction rows as [|u rest IH]; simpl; [reflexivity|].
  rewrite IH. reflexivity.
Qed.

Lemma rev_turns n :
  rev (List.concat (repeat turn n)) = List.concat (repeat (rev turn) n).
Proof.
  induction n as [|n IH]; [reflexivity|].
  cbn [repeat List.concat]. rewrite rev_app_distr, IH.
  clear IH. induction n as [|n IH]; [reflexivity|].
  cbn [repeat List.concat]. rewrite <- app_assoc, IH. reflexivity.
Qed.

Lemma waits_turns n : waits (List.concat (repeat turn n)) = n.
Proof.
  induction n as [|n IH]; [reflexivity|].
  unfold waits in *. cbn [repeat List.concat]. rewrite filter_app, length_app, IH.
  reflexivity.
Qed.

Lemma waits_rev_turns n l :
  waits (List.concat (repeat (rev turn) n) ++ l) = (n + waits l)%nat.
Proof.
  induction n as [|n IH]; [reflexivity|].
  unfold waits in *. cbn [repeat List.concat]. rewrite <- app_assoc, filter_app, length_app, IH.
  reflexivity.
Qed.

Lemma waits_between_turns n :
  waits_between_attempts (List.concat (repeat turn n)) = (n - 1)%nat.
Proof.
  unfold waits_between_attempts.
  destruct n as [|n]; [reflexivity|].
  cbn [repeat List.concat turn app after_first_attempt rev].
  fold turn. rewrite rev_turns.
  destruct n as [|n]; [reflexivity|].
  cbn [repeat List.concat turn rev app after_first_attempt].
  change [Wait BROADCAST_DELAY_SEC; Attempt] with (rev turn).
  rewrite waits_rev_turns. cbn. lia.
Qed.

(** C6: once the snapshot is read, the run consists, for each recipient
    in turn, of one delivery attempt followed by one wait of
    [BROADCAST_DELAY_SEC], which is 120 ms, whatever the attempts'
    outcomes; so there are as many waits as recipients, and [N - 1] of
    them lie between the first and the last attempt. *)
Theorem pacing_wait_after_every_attempt (w : World) (bid : Z) (text : string)
  (from_user : Z) :
  raises w SelectUsers = None ->
  let N := List.length (snapshot w) in
  exists r w' tr,
    _do_broadcast bid text from_user w = (r, w') /\
    gained w w' tr /\
    pacing tr =
      flat_map (fun _ => [Attempt; Wait BROADCAST_DELAY_SEC]) (snapshot w) /\
    (BROADCAST_DELAY_SEC * 1000 == 120)%Q /\
    waits (pacing tr) = N /\
    waits_between_attempts (pacing tr) = (N - 1)%nat.
Proof.
  intros Hsel N.
  destruct (do_broadcast_run bid text from_user w) as (w' & E & P).
  rewrite Hsel in E, P. destruct P as (_ & _ & _ & P).
  assert (Hp : forall tr,
             pacing tr = flat_map (fun _ => turn) (snapshot w) ->
             pacing tr =
               flat_map (fun _ => [Attempt; Wait BROADCAST_DELAY_SEC]) (snapshot w) /\
             (BROADCAST_DELAY_SEC * 1000 == 120)%Q /\
             waits (pacing tr) = N /\
             waits_between_attempts (pacing tr) = (N - 1)%nat).
  { intros tr Htr. split; [exact Htr|]. split; [reflexivity|].
    rewrite Htr, turns_repeat. split.
    - apply waits_turns.
    - apply waits_between_turns. }
  destruct (raises w UpdateSentCount) as [e|]; destruct P as [_ G].
  - exists (Raise e), w', (loop_events (bot w) text (snapshot w)).
    split; [exact E|]. split; [exact G|].
    apply Hp, pacing_loop_events.
  - eexists (Ok tt), w', _.
    split; [exact E|]. split; [exact G|].
    apply Hp. rewrite pacing_app, pacing_loop_events. apply app_nil_r.
Qed.

(** The same run, looked at for its pacing: three attempts, three waits. *)
Lemma pacing_wait_after_every_attempt_witness :
  raises one_refusal_world SelectUsers = None /\
  exists r w' tr,
    _do_broadcast 1 "Hello all" 42 one_refusal_world = (r, w') /\
    gained one_refusal_world w' tr /\
    pacing tr = [Attempt; Wait BROADCAST_DELAY_SEC;
                 Attempt; Wait BROADCAST_DELAY_SEC;
                 Attempt; Wait BROADCAST_DELAY_SEC] /\
    waits_between_attempts (pacing tr) = 2%nat.
Proof.
  split; [reflexivity|].
  destruct (pacing_wait_after_every_attempt one_refusal_world 1 "Hello all" 42
              eq_refl)
    as (r & w' & tr & E & G & Hp & _ & _ & Hb).
  exists r, w', tr. repeat split; assumption.
Defined.

(** ** The submission *)

Lemma broadcast_cmd_starts w update args user btext :
  effective_user update = Some user ->
  eq_opt_int (u_id user) OWNER_ID = true ->
  choose_btext update args = Some btext ->
  raises w InsertBroadcast = None ->
  raises w ReplyText = None ->
  broadcast_cmd update args w =
  thread_start (broadcasts_seq (DB w) + 1) btext (u_id user)
    (acknowledged w (u_id user) btext).
Proof.
  intros Hu Ho Hc Hi Hr.
  unfold broadcast_cmd, require_owner, broadcast_cmd_func.
  rewrite Hu, Ho, Hc.
  unfold insert_broadcast, db_call, acknowledged; open_handler.
  rewrite Hi. cbn [set_DB raises]. rewrite Hr. reflexivity.
Qed.

Lemma broadcast_cmd_accepts w update args user btext :
  effective_user update = Some user ->
  eq_opt_int (u_id user) OWNER_ID = true ->
  choose_btext update args = Some btext ->
  raises w InsertBroadcast = None ->
  raises w ReplyText = None ->
  no_head_start w ->
  broadcast_cmd update args w = (Ok tt, accepted w (u_id user) btext).
Proof.
  intros Hu Ho Hc Hi Hr Hn.
  rewrite (broadcast_cmd_starts w update args user btext Hu Ho Hc Hi Hr).
  unfold thread_start, acknowledged, accepted.
  cbn [DB bot raises clock trace threads running head_start].
  unfold no_head_start in Hn. rewrite Hn, <- app_assoc. reflexivity.
Qed.

Lemma broadcast_cmd_no_payload w update args :
  choose_btext update args = None ->
  broadcast_cmd update args w =
  reply_text (if is_owner update then Usage else NotAuthorized) w.
Proof.
  intros Hc. unfold broadcast_cmd, require_owner, broadcast_cmd_func, is_owner.
  destruct (effective_user update) as [user|]; [|reflexivity].
  destruct (eq_opt_int (u_id user) OWNER_ID); [|reflexivity].
  rewrite Hc. reflexivity.
Qed.

Lemma reply_text_keeps m w :
  DB (snd (reply_text m w)) = DB w /\
  threads (snd (reply_text m w)) = threads w /\
  sent_to (trace (snd (reply_text m w))) = sent_to (trace w).
Proof.
  unfold reply_text, emit. destruct (raises w ReplyText); simpl.
  - repeat split.
  - repeat split. rewrite sent_to_app. apply app_nil_r.
Qed.

Lemma reply_content_nonempty update :
  reply_has_content update = true -> reply_content update <> "".
Proof.
  unfold reply_has_content, reply_content.
  destruct (reply_to_message update) as [m|]; [|discriminate].
  intros H. unfold or_str at 1. rewrite H.
  destruct (or_str (msg_text m) (msg_caption m)) as [[|c s]|];
    simpl in *; discriminate.
Qed.

Lemma empty_payload_no_choice update args :
  Forall (fun a => a <> "") args ->
  submitted_payload update args = "" ->
  choose_btext update args = None.
Proof.
  unfold submitted_payload, choose_btext. intros Hargs.
  destruct (reply_has_content update) eqn:Hr.
  - intros H. exfalso. exact (reply_content_nonempty update Hr H).
  - destruct args as [|a rest]; [reflexivity|].
    intros H. exfalso. inversion Hargs; subst.
    exact (concat_nonempty a rest ltac:(assumption) H).
Qed.


(** C3, as the handler has it: a submission with an empty payload (no
    replied text or caption, no command arguments) is answered at once
    with the usage text, by the decorator with its refusal when the
    sender is not the owner, and nothing else happens: the database,
    hence the broadcasts table, is unchanged, no task is started and
    nothing is sent.  Command arguments are the non-empty tokens of
    [str.split]. *)
Theorem empty_submission_is_rejected (w : World) (update : Update)
  (args : list string) :
  Forall (fun a => a <> "") args ->
  submitted_payload update args = "" ->
  broadcast_cmd update args w =
    reply_text (if is_owner update then Usage else NotAuthorized) w /\
  DB (snd (broadcast_cmd update args w)) = DB w /\
  broadcasts (DB (snd (broadcast_cmd update args w))) = broadcasts (DB w) /\
  threads (snd (broadcast_cmd update args w)) = threads w /\
  sent_to (trace (snd (broadcast_cmd update args w))) = sent_to (trace w).
Proof.
  intros Hargs Hp.
  rewrite (broadcast_cmd_no_payload w update args
             (empty_payload_no_choice update args Hargs Hp)).
  destruct (reply_text_keeps (if is_owner update then Usage else NotAuthorized) w)
    as (HDB & Ht & Hs).
  rewrite HDB. repeat split; assumption.
Qed.

Lemma empty_submission_is_rejected_witness :
  Forall (fun a : string => a <> "") [] /\
  submitted_payload bare_command [] = "" /\
  broadcast_cmd bare_command [] calm_world = reply_text Usage calm_world /\
  broadcasts (DB (snd (broadcast_cmd bare_command [] calm_world))) =
    broadcasts (DB calm_world).
Proof.
  split; [constructor|]. split; [reflexivity|].
  destruct (empty_submission_is_rejected calm_world bare_command []
              (Forall_nil _) eq_refl)
    as (E & _ & HB & _).
  split; [exact E|exact HB].
Defined.

(** C3 fails as stated: [/broadcast] sent by the owner in reply to a
    message whose text is a single space has a whitespace-only payload,
    yet it is accepted: job 2 is recorded and its task started. *)
Lemma whitespace_only_reply_is_accepted :
  spec_blank (submitted_payload (reply_to " ") []) = true /\
  fst (broadcast_cmd (reply_to " ") [] calm_world) = Ok tt /\
  broadcasts (DB (snd (broadcast_cmd (reply_to " ") [] calm_world))) =
    broadcasts (DB calm_world)
    ++ [mk_broadcast_row 2 1700000100 8116152355 " " 0] /\
  threads (snd (broadcast_cmd (reply_to " ") [] calm_world)) =
    [(2, " ", 8116152355)].
Proof.
  repeat split; vm_compute; reflexivity.
Qed.




(** *** The choice of the payload *)

Lemma truthy_or_str a b :
  truthy_str (or_str a b) = truthy_str a || truthy_str b.
Proof.
  unfold or_str. destruct (truthy_str a) eqn:E; simpl; [exact E|reflexivity].
Qed.

Lemma choose_btext_reply update args m :
  reply_to_message update = Some m ->
  has_text_or_caption m = true ->
  choose_btext update args =
  Some (if truthy_str (msg_text m) then str_of (msg_text m)
        else str_of (msg_caption m)).
Proof.
  intros Hm Hc. unfold choose_btext, reply_has_content, reply_content.
  rewrite Hm, truthy_or_str. fold (has_text_or_caption m). rewrite Hc.
  f_equal. unfold has_text_or_caption in Hc. unfold or_str.
  destruct (truthy_str (msg_text m)) eqn:Et.
  - rewrite Et. reflexivity.
  - simpl in Hc. rewrite Hc. reflexivity.
Qed.

Lemma choose_btext_args update a rest :
  (forall m, reply_to_message update = Some m -> has_text_or_caption m = false) ->
  choose_btext update (a :: rest) = Some (String.concat " " (a :: rest)).
Proof.
  intros Hno. unfold choose_btext, reply_has_content.
  destruct (reply_to_message update) as [m|]; [|reflexivity].
  rewrite truthy_or_str. fold (has_text_or_caption m).
  rewrite (Hno m eq_refl). reflexivity.
Qed.

Lemma accepted_submits w update args user p :
  effective_user update = Some user ->
  eq_opt_int (u_id user) OWNER_ID = true ->
  raises w InsertBroadcast = None ->
  raises w ReplyText = None ->
  choose_btext update args = Some p ->
  submits w update args (u_id user) p.
Proof.
  intros Hu Ho Hi Hr Hc. unfold submits.
  rewrite (broadcast_cmd_starts w update args user p Hu Ho Hc Hi Hr).
  destruct (thread_start_run (broadcasts_seq (DB w) + 1) p (u_id user)
              (acknowledged w (u_id user) p))
    as (w' & tr & E & G & _ & _ & _ & _ & _ & _ & (j & Hsent) & Hb & Hno).
  exists w', tr. split; [exact E|]. split; [|split; [|split]].
  - unfold gained in *. rewrite G. unfold acknowledged. cbn [trace].
    rewrite <- app_assoc. reflexivity.
  - rewrite Hsent. apply Forall_forall. intros s Hs.
    apply in_map_iff in Hs. destruct Hs as (u & <- & _). reflexivity.
  - assert (Hid : map job_identity
                    (broadcasts (DB (acknowledged w (u_id user) p))) =
                  map job_identity (broadcasts (DB w))
                  ++ [(broadcasts_seq (DB w) + 1, clock w, u_id user,
                       substring 0 4000 p)]).
    { unfold acknowledged. cbn [DB set_broadcasts broadcasts].
      rewrite map_app. reflexivity. }
    destruct Hb as [Hsame|(sent & Hupd & _)].
    + rewrite Hsame. exact Hid.
    + rewrite Hupd, update_sent_count_identity. exact Hid.
  - intros Hn. destruct (Hno Hn) as (_ & HDB & _ & Hth & _).
    rewrite HDB, Hth. split; reflexivity.
Qed.

(** C10: for a command of the owner, with the insert and the reply going
    through.  When the command replies to a message that has a text or a
    caption, the payload is that text, or the caption when there is no
    text, and the command's outcome is the same whatever the arguments.
    When there is no such replied message and arguments are given, the
    payload is the arguments joined by single spaces. *)
Theorem replied_text_overrides_arguments (w : World) (update : Update)
  (args : list string) (user : User) :
  effective_user update = Some user ->
  eq_opt_int (u_id user) OWNER_ID = true ->
  raises w InsertBroadcast = None ->
  raises w ReplyText = None ->
  (forall m,
     reply_to_message update = Some m ->
     has_text_or_caption m = true ->
     submits w update args (u_id user)
       (if truthy_str (msg_text m) then str_of (msg_text m)
        else str_of (msg_caption m)) /\
     forall args', broadcast_cmd update args' w = broadcast_cmd update args w) /\
  ((forall m, reply_to_message update = Some m ->
              has_text_or_caption m = false) ->
   args <> [] ->
   submits w update args (u_id user) (String.concat " " args)).
Proof.
  intros Hu Ho Hi Hr. split.
  - intros m Hm Hc. split.
    + apply accepted_submits; try assumption.
      apply choose_btext_reply; assumption.
    + intros args'.
      rewrite !(broadcast_cmd_starts w update _ user _ Hu Ho
                  (choose_btext_reply update _ m Hm Hc) Hi Hr).
      reflexivity.
  - intros Hno Hargs. destruct args as [|a rest]; [contradiction|].
    apply accepted_submits; try assumption.
    apply choose_btext_args, Hno.
Qed.

(** The owner replies to "Hello all" with [/broadcast ignored words]. *)
Lemma replied_text_overrides_arguments_witness :
  effective_user (reply_to "Hello all") = Some the_owner /\
  eq_opt_int (u_id the_owner) OWNER_ID = true /\
  raises calm_world InsertBroadcast = None /\
  raises calm_world ReplyText = None /\
  submits calm_world (reply_to "Hello all") ["ignored"; "words"]
    8116152355 "Hello all" /\
  submits calm_world bare_command ["two"; "words"] 8116152355 "two words".
Proof.
  repeat (split; [reflexivity|]).
  split.
  - destruct (replied_text_overrides_arguments calm_world (reply_to "Hello all")
                ["ignored"; "words"] the_owner eq_refl eq_refl eq_refl eq_refl)
      as [A _].
    exact (proj1 (A (mk_Message (Some "Hello all") None) eq_refl eq_refl)).
  - destruct (replied_text_overrides_arguments calm_world bare_command
                ["two"; "words"] the_owner eq_refl eq_refl eq_refl eq_refl)
      as [_ B].
    apply B; [intros m H; discriminate H|discriminate].
Defined.

(** ** From the submission to the recipients *)

Lemma thread_resume_idle w : running w = [] -> thread_resume w = (Ok tt, w).
Proof. intros H. unfold thread_resume. rewrite H. reflexivity. Qed.

Lemma thread_run_idle w : threads w = [] -> thread_run w = (Ok tt, w).
Proof. intros H. unfold thread_run. rewrite H. reflexivity. Qed.

(** A started thread, let run to its end: whatever its head start, it
    makes the attempts of [_do_broadcast], in order, and leaves every
    record its id, time, initiator and text. *)
Lemma thread_settles bid text from_user w :
  threads w = [] ->
  running w = [] ->
  raises w SelectUsers = None ->
  exists w1 w2 w3 tr,
    thread_start bid text from_user w = (Ok tt, w1) /\
    thread_resume w1 = (Ok tt, w2) /\
    thread_run w2 = (Ok tt, w3) /\
    gained w w3 (EvThreadStart bid text from_user :: tr) /\
    sent_to tr = map (fun u => (u, text)) (snapshot w) /\
    map job_identity (broadcasts (DB w1)) = map job_identity (broadcasts (DB w)) /\
    map job_identity (broadcasts (DB w3)) = map job_identity (broadcasts (DB w)) /\
    threads w3 = [] /\ running w3 = [] /\
    (no_head_start w ->
     w2 = w1 /\ DB w1 = DB w /\ gained w w1 [EvThreadStart bid text from_user]).
Proof.
  intros Ht Hrun Hsel.
  destruct (thread_start_cases bid text from_user w)
    as (w1 & tr0 & E & G & Hr & Hc & Hh & P).
  unfold no_head_start. rewrite Hsel in P.
  destruct (hd 0%nat (head_start w)) as [|k].
  - (* the thread has not taken a step *)
    destruct P as (-> & HDB & Hb & Hth & Hrn).
    rewrite Ht in Hth. rewrite Hrun in Hrn. cbn [app] in Hth.
    exists w1, w1. unfold thread_run. rewrite Hth.
    set (w0 := mk_World _ _ _ _ _ [] _ _).
    destruct (do_broadcast_run bid text from_user w0) as (w3 & E3 & P3).
    pose proof (do_broadcast_same_threads bid text from_user w0) as Hs3.
    rewrite E3 in Hs3. cbn [snd] in Hs3. destruct Hs3 as (Ht3 & Hr3 & _).
    change (raises w0) with (raises w1) in *. rewrite Hr, Hsel in *.
    change (snapshot w0) with (map user_id (users (DB w1))) in *.
    rewrite HDB in *. fold (snapshot w) in *.
    change (bot w0) with (bot w1) in *.
    change (threads w0) with (@nil (Z * string * Z)) in *.
    change (running w0) with (running w1) in *. rewrite Hrn in Hr3.
    unfold gained in *. change (trace w0) with (trace w1) in *.
    change (DB w0) with (DB w1) in *. rewrite HDB in *.
    rewrite E3. destruct P3 as (_ & _ & _ & P3).
    destruct (raises w UpdateSentCount) as [e|]; destruct P3 as [HDB3 G3].
    + eexists; exists (loop_events (bot w1) text (snapshot w) ++ [EvExcepthook e]).
      split; [exact E|]. split; [apply thread_resume_idle, Hrn|].
      split; [reflexivity|]. unfold emit.
      cbn [DB trace threads running]. rewrite G3, G, HDB3, <- !app_assoc.
      split; [reflexivity|].
      rewrite sent_to_app, sent_to_loop_events. cbn [sent_to]. rewrite app_nil_r.
      repeat split; assumption.
    + exists w3, (loop_events (bot w1) text (snapshot w)
                  ++ [EvInfo bid (tally (bot w1) text (snapshot w))
                        (Z.of_nat (List.length (snapshot w)))]).
      split; [exact E|]. split; [apply thread_resume_idle, Hrn|].
      split; [reflexivity|]. rewrite G3, G, HDB3, <- !app_assoc.
      split; [reflexivity|].
      rewrite sent_to_app, sent_to_loop_events. cbn [sent_to]. rewrite app_nil_r.
      cbn [set_broadcasts broadcasts]. rewrite update_sent_count_identity.
      repeat split; assumption.
  - destruct P as (Hth & P). rewrite Ht in Hth.
    destruct (List.length (snapshot w) <? k)%nat.
    + (* the thread is at its end *)
      destruct P as (Hrn & P). rewrite Hrun in Hrn.
      exists w1, w1, w1, tr0.
      split; [exact E|]. split; [apply thread_resume_idle, Hrn|].
      split; [apply thread_run_idle, Hth|]. split; [exact G|].
      destruct (raises w UpdateSentCount) as [e|]; destruct P as (-> & HDB);
        rewrite HDB, sent_to_app, sent_to_loop_events; cbn [sent_to];
        rewrite app_nil_r; cbn [set_broadcasts broadcasts];
        rewrite ?update_sent_count_identity;
        do 3 (split; [reflexivity|]);
        (split; [exact Hth|]); (split; [exact Hrn|]);
        intros Hd; discriminate Hd.
    + (* the thread is under way *)
      destruct P as (-> & HDB & Hrn & _). rewrite Hrun in Hrn. cbn [app] in Hrn.
      assert (Hres : exists w2 tr2,
                thread_resume w1 = (Ok tt, w2) /\
                trace w2 = trace w1 ++ tr2 /\
                sent_to tr2 = map (fun u => (u, text)) (skipn k (snapshot w)) /\
                map job_identity (broadcasts (DB w2)) =
                  map job_identity (broadcasts (DB w1)) /\
                threads w2 = [] /\ running w2 = []).
      { unfold thread_resume. rewrite Hrn.
        set (t := mk_running_task _ _ _ _ _ _).
        set (w0 := mk_World _ _ _ _ _ _ [] _).
        destruct (finish_broadcast_run t w0)
          as (w2 & E2 & _ & _ & (Ht2 & Hrn2 & _) & P2).
        change (threads w0) with (threads w1) in *. rewrite Hth in Ht2.
        change (running w0) with (@nil running_task) in *.
        unfold gained in P2. change (trace w0) with (trace w1) in *.
        change (DB w0) with (DB w1) in *.
        change (rt_text t) with text in *.
        change (rt_rows t) with (skipn k (snapshot w)) in *.
        rewrite E2. unfold thread_end, emit.
        destruct (raises w0 UpdateSentCount) as [e|]; destruct P2 as [HDB2 G2].
        - eexists; exists (loop_events (bot w0) text (skipn k (snapshot w))
                           ++ [EvExcepthook e]).
          split; [reflexivity|]. cbn [DB trace threads running].
          rewrite G2, HDB2, <- app_assoc, sent_to_app, sent_to_loop_events.
          cbn [sent_to]. rewrite app_nil_r. repeat split; assumption.
        - exists w2; eexists. split; [reflexivity|]. split; [exact G2|].
          rewrite HDB2, sent_to_app, sent_to_loop_events.
          cbn [sent_to set_broadcasts broadcasts].
          rewrite app_nil_r, update_sent_count_identity.
          repeat split; assumption. }
      destruct Hres as (w2 & tr2 & E2 & G2 & Hs2 & Hid2 & Ht2 & Hrn2).
      exists w1, w2, w2,
        (loop_events (bot w) text (firstn k (snapshot w)) ++ tr2).
      split; [exact E|]. split; [exact E2|].
      split; [apply thread_run_idle, Ht2|].
      unfold gained in *. rewrite G2, G, <- app_assoc. cbn [app].
      split; [reflexivity|].
      rewrite sent_to_app, sent_to_loop_events, Hs2, <- map_app, firstn_skipn.
      split; [reflexivity|]. rewrite Hid2, HDB.
      do 2 (split; [reflexivity|]). split; [exact Ht2|]. split; [exact Hrn2|].
      intros Hd; discriminate Hd.
Qed.

(** C4, as the code has it: the record of an accepted submission holds
    the submitted text cut to its first 4000 characters, and the run
    leaves that text alone; the thread, however, is handed the
    submitted text itself, and that is what every recipient of the
    snapshot is sent, however the thread's steps fall before and after
    the handler's return.  The two texts agree exactly when the
    submitted text has at most 4000 characters.  When the thread has
    not taken a step as the handler returns, the record is the last row
    of the table and all of the run comes after. *)
Theorem persisted_cut_delivered_whole (w : World) (update : Update)
  (args : list string) (user : User) (btext : string) :
  effective_user update = Some user ->
  eq_opt_int (u_id user) OWNER_ID = true ->
  choose_btext update args = Some btext ->
  raises w InsertBroadcast = None ->
  raises w ReplyText = None ->
  raises w SelectUsers = None ->
  threads w = [] ->
  running w = [] ->
  let bid := broadcasts_seq (DB w) + 1 in
  exists w1 w2 w3 tr,
    broadcast_cmd update args w = (Ok tt, w1) /\
    map job_identity (broadcasts (DB w1)) =
      map job_identity (broadcasts (DB w))
      ++ [(bid, clock w, u_id user, substring 0 4000 btext)] /\
    String.length (substring 0 4000 btext) = Nat.min 4000 (String.length btext) /\
    thread_resume w1 = (Ok tt, w2) /\
    thread_run w2 = (Ok tt, w3) /\
    gained w w3
      (EvReply (Started bid) :: EvThreadStart bid btext (u_id user) :: tr) /\
    sent_to tr = map (fun u => (u, btext)) (snapshot w) /\
    map bc_text (broadcasts (DB w3)) = map bc_text (broadcasts (DB w1)) /\
    (substring 0 4000 btext = btext <-> (String.length btext <= 4000)%nat) /\
    (no_head_start w ->
     broadcasts (DB w1) =
       broadcasts (DB w)
       ++ [mk_broadcast_row bid (clock w) (u_id user) (substring 0 4000 btext) 0] /\
     thread_run w1 = (Ok tt, w3) /\
     gained w1 w3 tr).
Proof.
  intros Hu Ho Hc Hi Hr Hsel Ht Hrun bid.
  rewrite (broadcast_cmd_starts w update args user btext Hu Ho Hc Hi Hr).
  fold bid.
  destruct (thread_settles bid btext (u_id user)
              (acknowledged w (u_id user) btext) Ht Hrun Hsel)
    as (w1 & w2 & w3 & tr & E1 & E2 & E3 & G & Hs & Hid1 & Hid3 & _ & _ & Hno).
  assert (Hid : map job_identity
                  (broadcasts (DB (acknowledged w (u_id user) btext))) =
                map job_identity (broadcasts (DB w))
                ++ [(bid, clock w, u_id user, substring 0 4000 btext)]).
  { unfold acknowledged. cbn [DB set_broadcasts broadcasts].
    rewrite map_app. reflexivity. }
  exists w1, w2, w3, tr.
  split; [exact E1|]. split; [rewrite Hid1; exact Hid|].
  split; [apply substring_length|]. split; [exact E2|]. split; [exact E3|].
  unfold gained in *. split.
  { rewrite G. unfold acknowledged. cbn [trace]. rewrite <- app_assoc.
    reflexivity. }
  split; [exact Hs|].
  split; [rewrite !texts_of_identities, Hid3, Hid1; reflexivity|].
  split; [apply substring_fixed|].
  intros Hn. destruct (Hno Hn) as (-> & HDB & G1).
  split; [rewrite HDB; reflexivity|]. split; [exact E3|].
  rewrite G, G1, <- app_assoc. reflexivity.
Qed.

Lemma persisted_cut_delivered_whole_witness :
  choose_btext (reply_to "Hello all") [] = Some "Hello all" /\
  threads eager_thread_world = [] /\
  running eager_thread_world = [] /\
  exists w1 w2 w3 tr,
    broadcast_cmd (reply_to "Hello all") [] eager_thread_world = (Ok tt, w1) /\
    map bc_text (broadcasts (DB w1)) = ["Hello all"; "Hello all"] /\
    thread_resume w1 = (Ok tt, w2) /\
    thread_run w2 = (Ok tt, w3) /\
    gained eager_thread_world w3
      (EvReply (Started 2) :: EvThreadStart 2 "Hello all" 8116152355 :: tr) /\
    sent_to tr = [(1, "Hello all"); (2, "Hello all"); (3, "Hello all")].
Proof.
  split; [reflexivity|]. split; [reflexivity|]. split; [reflexivity|].
  destruct (persisted_cut_delivered_whole eager_thread_world
              (reply_to "Hello all") [] the_owner "Hello all"
              eq_refl eq_refl eq_refl eq_refl eq_refl eq_refl eq_refl eq_refl)
    as (w1 & w2 & w3 & tr & E1 & HB & _ & E2 & E3 & G & Hs & _).
  exists w1, w2, w3, tr. split; [exact E1|].
  split; [rewrite texts_of_identities, HB; reflexivity|].
  split; [exact E2|]. split; [exact E3|]. split; [exact G|exact Hs].
Defined.

(** C4 fails as stated: for a replied text of 4001 characters the record
    holds 4000 of them while each of the three recipients is sent all
    4001. *)
Lemma long_text_persisted_cut_but_sent_whole :
  fst (broadcast_cmd (reply_to long_text) [] calm_world) = Ok tt /\
  map bc_text (broadcasts (DB long_delivered)) = ["Hello all"; chars 4000 "a"] /\
  sent_to (trace long_delivered) =
    [(1, long_text); (2, long_text); (3, long_text)] /\
  long_text <> chars 4000 "a".
Proof.
  split; [vm_compute; reflexivity|].
  split; [vm_compute; reflexivity|].
  split; [vm_compute; reflexivity|].
  intros H.
  apply (f_equal (fun s => Nat.eqb (String.length s) 4000)) in H.
  vm_compute in H. discriminate.
Qed.

(** ** Failures inside the task *)





(** ** The owner *)

(** C9: [is_admin] answers [True] for the owner in every state of the
    world, without touching the database (so also when the database
    fails); in particular after [remove_admin] was called on the owner,
    which, when it goes through, leaves no row for the owner in the
    admins table. *)
Theorem owner_is_admin_unconditionally (w : World) :
  exists owner,
    OWNER_ID = Some owner /\
    is_admin owner w = (Ok true, w) /\
    is_admin owner (snd (remove_admin owner w)) =
      (Ok true, snd (remove_admin owner w)) /\
    match raises w DeleteAdmin with
    | None =>
        existsb (fun r => ad_user_id r =? owner)
                (admins (DB (snd (remove_admin owner w)))) = false
    | Some _ => snd (remove_admin owner w) = w
    end.
Proof.
  exists 8116152355. split; [reflexivity|]. split; [reflexivity|].
  split; [reflexivity|].
  unfold remove_admin, db_call. destruct (raises w DeleteAdmin); [reflexivity|].
  cbn [snd set_DB DB set_admins admins].
  induction (admins (DB w)) as [|r rs IH]; [reflexivity|].
  cbn [filter]. destruct (ad_user_id r =? 8116152355) eqn:E; cbn [negb].
  - exact IH.
  - cbn [existsb]. rewrite E. exact IH.
Qed.

(** * The rest of [bot.py]: properties *)

(** ** More on the run *)

Lemma tally_plus_refused text rows : forall b,
  tally b text rows + Z.of_nat (List.length (refused b text rows)) =
  Z.of_nat (List.length rows).
Proof.
  induction rows as [|u rest IH]; intros b; [reflexivity|].
  cbn [tally refused]. rewrite length_app.
  change (List.length (u :: rest)) with (S (List.length rest)).
  specialize (IH (fun n => b (S n))).
  destruct (b 0%nat u text); cbn [List.length]; lia.
Qed.

(** X1: whatever the transport does, a run whose database calls go
    through accounts for every recipient of the snapshot: the
    recipients are attempted once each, in the order of the snapshot and
    with the text of the run; the trace of the run is, recipient by
    recipient, one attempt followed by one wait of
    [BROADCAST_DELAY_SEC]; the warnings are the attempts the transport
    refused, each with its recipient and cause; and the count written
    back plus the number of warnings is the size of the snapshot. *)
Theorem run_accounts_for_every_recipient (w : World) (bid : Z) (text : string)
  (from_user : Z) :
  raises w SelectUsers = None ->
  raises w UpdateSentCount = None ->
  let N := Z.of_nat (List.length (snapshot w)) in
  exists w' tr sent,
    _do_broadcast bid text from_user w = (Ok tt, w') /\
    gained w w' (tr ++ [EvInfo bid sent N]) /\
    sent_to tr = map (fun u => (u, text)) (snapshot w) /\
    pacing tr =
      flat_map (fun _ => [Attempt; Wait BROADCAST_DELAY_SEC]) (snapshot w) /\
    warnings tr = refused (bot w) text (snapshot w) /\
    sent = tally (bot w) text (snapshot w) /\
    sent + Z.of_nat (List.length (warnings tr)) = N /\
    Z.of_nat (List.length (sent_to tr)) = N /\
    Z.of_nat (waits (pacing tr)) = N /\
    broadcasts (DB w') = update_sent_count sent bid (broadcasts (DB w)).
Proof.
  intros Hsel Hupd N.
  destruct (do_broadcast_run bid text from_user w) as (w' & E & P).
  rewrite Hsel, Hupd in E. rewrite Hsel, Hupd in P.
  destruct P as (_ & _ & _ & HDB & G).
  exists w', (loop_events (bot w) text (snapshot w)),
    (tally (bot w) text (snapshot w)).
  split; [exact E|]. split; [exact G|].
  rewrite warnings_loop_events, sent_to_loop_events, pacing_loop_events.
  do 4 (split; [reflexivity|]).
  fold turn. rewrite turns_repeat, waits_turns, length_map, HDB.
  split; [apply tally_plus_refused|]. repeat split.
Qed.

Lemma run_accounts_for_every_recipient_witness :
  raises one_refusal_world SelectUsers = None /\
  raises one_refusal_world UpdateSentCount = None /\
  exists w' tr sent,
    _do_broadcast 1 "Hello all" 42 one_refusal_world = (Ok tt, w') /\
    gained one_refusal_world w' (tr ++ [EvInfo 1 sent 3]) /\
    sent_to tr = [(1, "Hello all"); (2, "Hello all"); (3, "Hello all")] /\
    pacing tr = [Attempt; Wait BROADCAST_DELAY_SEC;
                 Attempt; Wait BROADCAST_DELAY_SEC;
                 Attempt; Wait BROADCAST_DELAY_SEC] /\
    warnings tr = [(2, "Forbidden: bot was blocked by the user")] /\
    sent = 2 /\
    sent + Z.of_nat (List.length (warnings tr)) = 3.
Proof.
  split; [reflexivity|]. split; [reflexivity|].
  destruct (run_accounts_for_every_recipient one_refusal_world 1 "Hello all" 42
              eq_refl eq_refl)
    as (w' & tr & sent & E & G & Hs & Hp & Hw & Ht & Hsum & _).
  exists w', tr, sent. repeat split; assumption.
Defined.

Lemma update_sent_count_others sent bid bs :
  filter (fun r => negb (bc_id r =? bid)) (update_sent_count sent bid bs) =
  filter (fun r => negb (bc_id r =? bid)) bs.
Proof.
  induction bs as [|r rs IH]; [reflexivity|].
  cbn [update_sent_count map filter]. fold (update_sent_count sent bid rs).
  destruct (bc_id r =? bid) eqn:E; cbn [bc_id]; rewrite E; cbn [negb];
    rewrite IH; reflexivity.
Qed.

Lemma do_broadcast_db bid text from_user w :
  DB (snd (_do_broadcast bid text from_user w)) = DB w \/
  exists sent,
    DB (snd (_do_broadcast bid text from_user w)) =
    set_broadcasts (DB w) (update_sent_count sent bid (broadcasts (DB w)))
      (broadcasts_seq (DB w)).
Proof.
  destruct (do_broadcast_run bid text from_user w) as (w' & E & P).
  rewrite E. cbn [snd].
  destruct (raises w SelectUsers); [subst w'; left; reflexivity|].
  destruct P as (_ & _ & _ & P).
  destruct (raises w UpdateSentCount); destruct P as [HDB _].
  - left. exact HDB.
  - right. eexists. exact HDB.
Qed.

Lemma update_sent_count_ids sent bid bs :
  map bc_id (update_sent_count sent bid bs) = map bc_id bs.
Proof.
  unfold update_sent_count. rewrite map_map. apply map_ext.
  intros r. destruct (bc_id r =? bid); reflexivity.
Qed.

(** X2: the run never changes anything in the database but the count of
    its own job, whether it ends normally or not: the users and admins
    tables and the id sequence are as before, every job record keeps
    its id, time, initiator and text, and the records of other jobs are
    untouched. *)
Theorem run_changes_only_its_count (w : World) (bid : Z) (text : string)
  (from_user : Z) :
  users (DB (snd (_do_broadcast bid text from_user w))) = users (DB w) /\
  admins (DB (snd (_do_broadcast bid text from_user w))) = admins (DB w) /\
  broadcasts_seq (DB (snd (_do_broadcast bid text from_user w))) =
    broadcasts_seq (DB w) /\
  map job_identity (broadcasts (DB (snd (_do_broadcast bid text from_user w)))) =
    map job_identity (broadcasts (DB w)) /\
  filter (fun r => negb (bc_id r =? bid))
    (broadcasts (DB (snd (_do_broadcast bid text from_user w)))) =
  filter (fun r => negb (bc_id r =? bid)) (broadcasts (DB w)).
Proof.
  destruct (do_broadcast_db bid text from_user w) as [E|[sent E]]; rewrite E.
  - repeat split.
  - cbn [set_broadcasts users admins broadcasts_seq broadcasts].
    rewrite update_sent_count_identity, update_sent_count_others.
    repeat split.
Qed.

(** X3: a run for a job id that is not in the table still messages every
    recipient of the snapshot; its finalising write matches no row and
    leaves the table as it was, without any error. *)
Theorem run_for_unknown_job (w : World) (bid : Z) (text : string)
  (from_user : Z) :
  Forall (fun r => bc_id r <> bid) (broadcasts (DB w)) ->
  raises w SelectUsers = None ->
  raises w UpdateSentCount = None ->
  exists w' tr sent,
    _do_broadcast bid text from_user w = (Ok tt, w') /\
    gained w w' (tr ++ [EvInfo bid sent (Z.of_nat (List.length (snapshot w)))]) /\
    sent_to tr = map (fun u => (u, text)) (snapshot w) /\
    broadcasts (DB w') = broadcasts (DB w).
Proof.
  intros Hno Hsel Hupd.
  destruct (do_broadcast_run bid text from_user w) as (w' & E & P).
  rewrite Hsel, Hupd in E. rewrite Hsel, Hupd in P.
  destruct P as (_ & _ & _ & HDB & G).
  exists w', (loop_events (bot w) text (snapshot w)),
    (tally (bot w) text (snapshot w)).
  split; [exact E|]. split; [exact G|].
  split; [apply sent_to_loop_events|].
  rewrite HDB. cbn [set_broadcasts broadcasts].
  apply update_sent_count_other, Hno.
Qed.

Lemma run_for_unknown_job_witness :
  Forall (fun r => bc_id r <> 7) (broadcasts (DB calm_world)) /\
  exists w' tr sent,
    _do_broadcast 7 "Hello all" 42 calm_world = (Ok tt, w') /\
    gained calm_world w' (tr ++ [EvInfo 7 sent 3]) /\
    sent_to tr = [(1, "Hello all"); (2, "Hello all"); (3, "Hello all")] /\
    broadcasts (DB w') = [mk_broadcast_row 1 1700000050 42 "Hello all" 0].
Proof.
  assert (H : Forall (fun r => bc_id r <> 7) (broadcasts (DB calm_world))).
  { repeat constructor. discriminate. }
  split; [exact H|].
  destruct (run_for_unknown_job calm_world 7 "Hello all" 42 H eq_refl eq_refl)
    as (w' & tr & sent & E & G & Hs & HB).
  exists w', tr, sent. repeat split; assumption.
Defined.

(** X4: with no known user the run sends nothing and waits for nothing;
    it writes a count of 0 and logs "sent 0/0". *)
Theorem run_over_empty_snapshot (w : World) (bid : Z) (text : string)
  (from_user : Z) :
  users (DB w) = [] ->
  raises w SelectUsers = None ->
  raises w UpdateSentCount = None ->
  exists w',
    _do_broadcast bid text from_user w = (Ok tt, w') /\
    gained w w' [EvInfo bid 0 0] /\
    broadcasts (DB w') = update_sent_count 0 bid (broadcasts (DB w)).
Proof.
  intros Hu Hsel Hupd.
  destruct (do_broadcast_run bid text from_user w) as (w' & E & P).
  rewrite Hsel, Hupd in E. rewrite Hsel, Hupd in P.
  destruct P as (_ & _ & _ & HDB & G).
  unfold snapshot in HDB, G. rewrite Hu in HDB, G.
  exists w'. split; [exact E|]. split; [exact G|].
  rewrite HDB. reflexivity.
Qed.

Lemma run_over_empty_snapshot_witness :
  users (DB nobody_world) = [] /\
  exists w',
    _do_broadcast 1 "Hello all" 42 nobody_world = (Ok tt, w') /\
    trace w' = [EvInfo 1 0 0].
Proof.
  split; [reflexivity|].
  destruct (run_over_empty_snapshot nobody_world 1 "Hello all" 42
              eq_refl eq_refl eq_refl)
    as (w' & E & G & _).
  exists w'. split; [exact E|exact G].
Defined.

(** ** More on the submission *)

(** X5: a sender who is not the owner, or an update without a sender,
    gets the refusal of the decorator and nothing else, whatever payload
    the command carries: no record is inserted and no task is started. *)
Theorem non_owner_cannot_broadcast (w : World) (update : Update)
  (args : list string) :
  is_owner update = false ->
  broadcast_cmd update args w = reply_text NotAuthorized w /\
  DB (snd (broadcast_cmd update args w)) = DB w /\
  threads (snd (broadcast_cmd update args w)) = threads w /\
  sent_to (trace (snd (broadcast_cmd update args w))) = sent_to (trace w).
Proof.
  intros Hno.
  assert (E : broadcast_cmd update args w = reply_text NotAuthorized w).
  { unfold broadcast_cmd, require_owner. unfold is_owner in Hno.
    destruct (effective_user update) as [user|]; [|reflexivity].
    rewrite Hno. reflexivity. }
  rewrite E. split; [reflexivity|]. apply reply_text_keeps.
Qed.

Lemma non_owner_cannot_broadcast_witness :
  is_owner (admin_reply_to "Hello all") = false /\
  broadcast_cmd (admin_reply_to "Hello all") ["more"] calm_world =
    reply_text NotAuthorized calm_world /\
  DB (snd (broadcast_cmd (admin_reply_to "Hello all") ["more"] calm_world)) =
    DB calm_world.
Proof.
  split; [reflexivity|].
  destruct (non_owner_cannot_broadcast calm_world (admin_reply_to "Hello all")
              ["more"] eq_refl)
    as (E & HDB & _).
  split; [exact E|exact HDB].
Defined.

(** X6: when the insert of the job record raises, the exception reaches
    the caller of the handler at once and the world is as before: no
    record, no reply, no task. *)
Theorem insert_failure_reaches_submitter (w : World) (update : Update)
  (args : list string) (btext : string) (e : exn) :
  is_owner update = true ->
  choose_btext update args = Some btext ->
  raises w InsertBroadcast = Some e ->
  broadcast_cmd update args w = (Raise e, w).
Proof.
  intros Ho Hc Hi. unfold is_owner in Ho.
  unfold broadcast_cmd, require_owner, broadcast_cmd_func.
  destruct (effective_user update) as [user|]; [|discriminate].
  rewrite Ho, Hc. unfold insert_broadcast, db_call, bind. rewrite Hi.
  reflexivity.
Qed.

Lemma insert_failure_reaches_submitter_witness :
  is_owner (reply_to "Hello all") = true /\
  choose_btext (reply_to "Hello all") [] = Some "Hello all" /\
  raises insert_fails InsertBroadcast = Some "database is locked" /\
  broadcast_cmd (reply_to "Hello all") [] insert_fails =
    (Raise "database is locked", insert_fails).
Proof.
  repeat (split; [reflexivity|]).
  exact (insert_failure_reaches_submitter insert_fails (reply_to "Hello all") []
           "Hello all" "database is locked" eq_refl eq_refl eq_refl).
Defined.

(** X7: when the acknowledgement raises after the record was inserted,
    the handler ends with that exception before it starts the task: the
    record stays in the table with a count of 0, and running the started
    threads afterwards changes nothing. *)
Theorem reply_failure_strands_the_job (w : World) (update : Update)
  (args : list string) (user : User) (btext : string) (e : exn) :
  effective_user update = Some user ->
  eq_opt_int (u_id user) OWNER_ID = true ->
  choose_btext update args = Some btext ->
  raises w InsertBroadcast = None ->
  raises w ReplyText = Some e ->
  threads w = [] ->
  exists w',
    broadcast_cmd update args w = (Raise e, w') /\
    broadcasts (DB w') =
      broadcasts (DB w)
      ++ [mk_broadcast_row (broadcasts_seq (DB w) + 1) (clock w) (u_id user)
            (substring 0 4000 btext) 0] /\
    trace w' = trace w /\
    threads w' = [] /\
    thread_run w' = (Ok tt, w').
Proof.
  intros Hu Ho Hc Hi Hr Ht.
  unfold broadcast_cmd, require_owner, broadcast_cmd_func.
  rewrite Hu, Ho, Hc. unfold insert_broadcast, db_call; open_handler.
  rewrite Hi. cbn [set_DB raises]. rewrite Hr.
  eexists. split; [reflexivity|].
  unfold thread_run. cbn [DB set_DB set_broadcasts broadcasts trace threads].
  rewrite Ht. repeat split.
Qed.

Lemma reply_failure_strands_the_job_witness :
  raises reply_fails ReplyText = Some "Timed out" /\
  exists w',
    broadcast_cmd (reply_to "Hello all") [] reply_fails = (Raise "Timed out", w') /\
    broadcasts (DB w') =
      [mk_broadcast_row 1 1700000050 42 "Hello all" 0;
       mk_broadcast_row 2 1700000100 8116152355 "Hello all" 0] /\
    threads w' = [].
Proof.
  split; [reflexivity|].
  destruct (reply_failure_strands_the_job reply_fails (reply_to "Hello all") []
              the_owner "Hello all" "Timed out"
              eq_refl eq_refl eq_refl eq_refl eq_refl eq_refl)
    as (w' & E & HB & _ & Ht & _).
  exists w'. repeat split; assumption.
Defined.

(** *** Job ids *)

Lemma broadcast_cmd_db update args w :
  DB (snd (broadcast_cmd update args w)) = DB w \/
  exists r bs,
    bc_id r = broadcasts_seq (DB w) + 1 /\
    (bs = broadcasts (DB w) ++ [r] \/
     exists sent,
       bs = update_sent_count sent (broadcasts_seq (DB w) + 1)
              (broadcasts (DB w) ++ [r])) /\
    DB (snd (broadcast_cmd update args w)) =
    set_broadcasts (DB w) bs (broadcasts_seq (DB w) + 1).
Proof.
  unfold broadcast_cmd, require_owner, broadcast_cmd_func.
  destruct (effective_user update) as [user|];
    [|left; apply reply_text_keeps].
  destruct (eq_opt_int (u_id user) OWNER_ID); [|left; apply reply_text_keeps].
  destruct (choose_btext update args) as [btext|];
    [|left; apply reply_text_keeps].
  unfold insert_broadcast, db_call; open_handler.
  destruct (raises w InsertBroadcast); [left; reflexivity|].
  cbn [set_DB raises]. right.
  exists (mk_broadcast_row (broadcasts_seq (DB w) + 1) (clock w) (u_id user)
            (substring 0 4000 btext) 0).
  destruct (raises w ReplyText).
  { eexists. split; [reflexivity|]. split; [left; reflexivity|reflexivity]. }
  match goal with
  | |- context [thread_start ?i ?t ?u ?w1] =>
      destruct (thread_start_run i t u w1)
        as (w' & tr & E & _ & _ & _ & Hu & Ha & Hq & _ & _ & Hb & _);
      rewrite E; cbn [snd];
      cbn [DB set_broadcasts users admins broadcasts broadcasts_seq] in Hu, Ha, Hq, Hb
  end.
  exists (broadcasts (DB w')). split; [reflexivity|]. split.
  - destruct Hb as [Hb|(sent & Hb & _)]; rewrite Hb.
    + left. reflexivity.
    + right. exists sent. reflexivity.
  - destruct (DB w') as [us bs sq ads]; cbn in *. subst. reflexivity.
Qed.

Lemma thread_run_db w :
  DB (snd (thread_run w)) = DB w \/
  exists sent bid,
    DB (snd (thread_run w)) =
    set_broadcasts (DB w) (update_sent_count sent bid (broadcasts (DB w)))
      (broadcasts_seq (DB w)).
Proof.
  unfold thread_run. destruct (threads w) as [|[[bid text] from_user] rest];
    [left; reflexivity|].
  set (w0 := mk_World _ _ _ _ _ rest _ _).
  destruct (do_broadcast_db bid text from_user w0) as [E|[sent E]];
    destruct (_do_broadcast bid text from_user w0) as [[u|e] w'];
    cbn [snd emit DB] in *.
  - left. exact E.
  - left. exact E.
  - right. exists sent, bid. exact E.
  - right. exists sent, bid. exact E.
Qed.

Lemma ledger_unique_update sent bid d :
  ledger_unique d ->
  ledger_unique
    (set_broadcasts d (update_sent_count sent bid (broadcasts d))
       (broadcasts_seq d)).
Proof.
  intros [Hnd Hok]. unfold ledger_unique, ledger_ok.
  cbn [set_broadcasts broadcasts broadcasts_seq]. split.
  - rewrite update_sent_count_ids. exact Hnd.
  - unfold ledger_ok in Hok. rewrite Forall_forall in *.
    intros r Hr. apply (in_map bc_id) in Hr.
    rewrite update_sent_count_ids in Hr. apply in_map_iff in Hr.
    destruct Hr as (r0 & <- & Hin). apply Hok, Hin.
Qed.

Lemma ledger_unique_insert r d :
  bc_id r = broadcasts_seq d + 1 ->
  ledger_unique d ->
  ledger_unique
    (set_broadcasts d (broadcasts d ++ [r]) (broadcasts_seq d + 1)).
Proof.
  intros Hid [Hnd Hok]. unfold ledger_unique, ledger_ok.
  cbn [set_broadcasts broadcasts broadcasts_seq]. split.
  - rewrite map_app. cbn [map]. rewrite Hid.
    apply NoDup_app; [exact Hnd|repeat constructor; auto|].
    intros x Hx [Hx'|[]]. subst x.
    apply in_map_iff in Hx. destruct Hx as (r0 & Hr0 & Hin).
    unfold ledger_ok in Hok. rewrite Forall_forall in Hok.
    specialize (Hok r0 Hin). lia.
  - apply Forall_app. split.
    + revert Hok. unfold ledger_ok. apply Forall_impl. intros; lia.
    + repeat constructor. lia.
Qed.

Lemma thread_resume_db w :
  DB (snd (thread_resume w)) = DB w \/
  exists sent bid,
    DB (snd (thread_resume w)) =
    set_broadcasts (DB w) (update_sent_count sent bid (broadcasts (DB w)))
      (broadcasts_seq (DB w)).
Proof.
  unfold thread_resume. destruct (running w) as [|t rest]; [left; reflexivity|].
  set (w0 := mk_World _ _ _ _ _ _ rest _).
  destruct (finish_broadcast_run t w0) as (w' & E & _ & _ & _ & P).
  rewrite E. unfold thread_end, emit.
  change (DB w0) with (DB w) in P.
  destruct (raises w0 UpdateSentCount); destruct P as [HDB _]; cbn [snd DB].
  - left. exact HDB.
  - right. eexists; eexists. exact HDB.
Qed.

(** X8: job ids stay distinct.  If the ids of the table are distinct and
    none exceeds the id sequence, this is still so after any call of the
    command, whatever its thread does before the command returns, and
    after any run of a started thread, from its start or from where it
    stands; and a record the command adds has an id larger than every id
    already in the table. *)
Theorem job_ids_stay_unique (w : World) (update : Update) (args : list string) :
  ledger_unique (DB w) ->
  ledger_unique (DB (snd (broadcast_cmd update args w))) /\
  ledger_unique (DB (snd (thread_run w))) /\
  ledger_unique (DB (snd (thread_resume w))) /\
  forall r, In r (broadcasts (DB (snd (broadcast_cmd update args w)))) ->
            In r (broadcasts (DB w)) \/
            Forall (fun r0 => bc_id r0 < bc_id r) (broadcasts (DB w)).
Proof.
  intros Huq. pose proof Huq as [Hnd Hok]. split; [|split; [|split]].
  - destruct (broadcast_cmd_db update args w) as [E|(r & bs & Hid & Hbs & E)];
      rewrite E; [exact Huq|].
    pose proof (ledger_unique_insert r (DB w) Hid Huq) as Hins.
    destruct Hbs as [->|(sent & ->)]; [exact Hins|].
    exact (ledger_unique_update sent (broadcasts_seq (DB w) + 1) _ Hins).
  - destruct (thread_run_db w) as [E|(sent & bid & E)]; rewrite E;
      [exact Huq|].
    apply ledger_unique_update, Huq.
  - destruct (thread_resume_db w) as [E|(sent & bid & E)]; rewrite E;
      [exact Huq|].
    apply ledger_unique_update, Huq.
  - intros r Hr.
    destruct (broadcast_cmd_db update args w) as [E|(r1 & bs & Hid & Hbs & E)];
      rewrite E in Hr; [left; exact Hr|].
    cbn [set_broadcasts broadcasts] in Hr.
    assert (Hnew : bc_id r = broadcasts_seq (DB w) + 1 ->
                   Forall (fun r0 => bc_id r0 < bc_id r) (broadcasts (DB w))).
    { intros Hr1. revert Hok. unfold ledger_ok. apply Forall_impl. intros; lia. }
    destruct Hbs as [->|(sent & ->)].
    + apply in_app_or in Hr.
      destruct Hr as [Hr|[<-|[]]]; [left; exact Hr|right; apply Hnew, Hid].
    + unfold update_sent_count in Hr. apply in_map_iff in Hr.
      destruct Hr as (r0 & Hr0 & Hin).
      destruct (bc_id r0 =? broadcasts_seq (DB w) + 1) eqn:Eid.
      * right. apply Hnew. subst r. cbn [bc_id]. apply Z.eqb_eq, Eid.
      * subst r0. apply in_app_or in Hin.
        destruct Hin as [Hin|[<-|[]]]; [left; exact Hin|right; apply Hnew, Hid].
Qed.

Lemma job_ids_stay_unique_witness :
  ledger_unique (DB calm_world) /\
  ledger_unique (DB (snd (broadcast_cmd (reply_to "Hello all") [] calm_world))) /\
  map bc_id (broadcasts (DB (snd (broadcast_cmd (reply_to "Hello all") []
                                    calm_world)))) = [1; 2].
Proof.
  assert (H : ledger_unique (DB calm_world)).
  { split.
    - repeat constructor. intros [].
    - repeat constructor. cbn. lia. }
  split; [exact H|].
  split; [|reflexivity].
  exact (proj1 (job_ids_stay_unique calm_world (reply_to "Hello all") [] H)).
Defined.

(** *** The scheduler *)








(** ** Admins *)

Lemma filter_filter_neg {A} (f : A -> bool) (l : list A) :
  filter f (filter (fun x => negb (f x)) l) = [].
Proof.
  induction l as [|x l IH]; [reflexivity|].
  cbn [filter]. destruct (f x) eqn:E; cbn [negb filter].
  - exact IH.
  - rewrite E. exact IH.
Qed.

Lemma filter_neg_idem {A} (f : A -> bool) (l : list A) :
  filter (fun x => negb (f x)) (filter (fun x => negb (f x)) l) =
  filter (fun x => negb (f x)) l.
Proof.
  induction l as [|x l IH]; [reflexivity|].
  cbn [filter]. destruct (f x) eqn:E; cbn [negb filter].
  - exact IH.
  - rewrite E. cbn [negb]. rewrite IH. reflexivity.
Qed.

Lemma existsb_is_filter (uid : Z) (l : list admin_row) :
  existsb (fun r => ad_user_id r =? uid) l =
  negb (Nat.eqb (List.length (filter (fun r => ad_user_id r =? uid) l)) 0).
Proof.
  induction l as [|r l IH]; [reflexivity|].
  cbn [existsb filter]. destruct (ad_user_id r =? uid); [reflexivity|exact IH].
Qed.

Lemma filter_other_user (u v : Z) (l : list admin_row) :
  v <> u ->
  filter (fun r => ad_user_id r =? v)
    (filter (fun r => negb (ad_user_id r =? u)) l) =
  filter (fun r => ad_user_id r =? v) l.
Proof.
  intros Hne. induction l as [|r l IH]; [reflexivity|].
  cbn [filter]. destruct (ad_user_id r =? u) eqn:Eu; cbn [negb filter].
  - apply Z.eqb_eq in Eu.
    assert (Ev : (ad_user_id r =? v) = false) by (apply Z.eqb_neq; lia).
    rewrite Ev. exact IH.
  - destruct (ad_user_id r =? v); rewrite IH; reflexivity.
Qed.

(** X9: once [add_admin] went through for a user, [is_admin] answers
    [True] for that user; the table then holds exactly one row for the
    user, with [added_by or 0] and the time of the call, and the rows of
    the other users are as before. *)
Theorem added_admin_is_admin (w : World) (uid : Z) (added_by : option Z) :
  raises w InsertAdmin = None ->
  raises w SelectAdmin = None ->
  exists w',
    add_admin uid added_by w = (Ok tt, w') /\
    fst (is_admin uid w') = Ok true /\
    admin_rows_of uid (DB w') = [mk_admin_row uid (or_zero added_by) (clock w)] /\
    other_admin_rows uid (DB w') = other_admin_rows uid (DB w).
Proof.
  intros Hi Hs. unfold add_admin, db_call. rewrite Hi.
  eexists. split; [reflexivity|].
  unfold admin_rows_of, other_admin_rows.
  cbn [set_DB DB set_admins admins].
  rewrite !filter_app, filter_filter_neg, filter_neg_idem.
  cbn [filter ad_user_id]. rewrite Z.eqb_refl. cbn [negb app].
  split; [|split; [reflexivity|apply app_nil_r]].
  unfold is_admin.
  destruct (truthy_int OWNER_ID && eq_opt_int uid OWNER_ID); [reflexivity|].
  unfold db_call. cbn [raises set_DB]. rewrite Hs. cbn [fst DB set_DB set_admins admins].
  rewrite existsb_is_filter, filter_app, filter_filter_neg.
  cbn [filter ad_user_id]. rewrite Z.eqb_refl. reflexivity.
Qed.

Lemma added_admin_is_admin_witness :
  raises calm_world InsertAdmin = None /\
  raises calm_world SelectAdmin = None /\
  exists w',
    add_admin 555 (Some 8116152355) calm_world = (Ok tt, w') /\
    fst (is_admin 555 w') = Ok true /\
    admin_rows_of 555 (DB w') = [mk_admin_row 555 8116152355 1700000100].
Proof.
  split; [reflexivity|]. split; [reflexivity|].
  destruct (added_admin_is_admin calm_world 555 (Some 8116152355) eq_refl eq_refl)
    as (w' & E & Ha & Hr & _).
  exists w'. repeat split; assumption.
Defined.

(** X10: once [remove_admin] went through for a user who is not the
    owner, the table holds no row for that user and [is_admin] answers
    [False]; the rows of the other users are as before. *)
Theorem removed_admin_is_not_admin (w : World) (uid : Z) :
  eq_opt_int uid OWNER_ID = false ->
  raises w DeleteAdmin = None ->
  raises w SelectAdmin = None ->
  exists w',
    remove_admin uid w = (Ok tt, w') /\
    fst (is_admin uid w') = Ok false /\
    admin_rows_of uid (DB w') = [] /\
    other_admin_rows uid (DB w') = other_admin_rows uid (DB w).
Proof.
  intros Ho Hd Hs. unfold remove_admin, db_call. rewrite Hd.
  eexists. split; [reflexivity|].
  unfold admin_rows_of, other_admin_rows.
  cbn [set_DB DB set_admins admins].
  rewrite filter_filter_neg, filter_neg_idem.
  split; [|split; reflexivity].
  unfold is_admin. rewrite Ho, andb_false_r.
  unfold db_call. cbn [raises set_DB]. rewrite Hs. cbn [fst DB set_DB set_admins admins].
  rewrite existsb_is_filter, filter_filter_neg. reflexivity.
Qed.

Lemma removed_admin_is_not_admin_witness :
  eq_opt_int 555 OWNER_ID = false /\
  fst (is_admin 555 two_admins_world) = Ok true /\
  exists w',
    remove_admin 555 two_admins_world = (Ok tt, w') /\
    fst (is_admin 555 w') = Ok false /\
    admins (DB w') = [mk_admin_row 8116152355 0 1700000000].
Proof.
  split; [reflexivity|]. split; [reflexivity|].
  destruct (removed_admin_is_not_admin two_admins_world 555
              eq_refl eq_refl eq_refl)
    as (w' & E & Ha & _).
  exists w'. split; [exact E|]. split; [exact Ha|].
  injection E as <-. reflexivity.
Defined.

Lemma NoDup_map_filter {A} (g : A -> Z) (f : A -> bool) (l : list A) :
  NoDup (map g l) -> NoDup (map g (filter f l)).
Proof.
  induction l as [|x l IH]; intros H; [constructor|].
  cbn [map] in H. inversion H as [|y ys Hnin Hnd]; subst.
  cbn [filter]. destruct (f x); [|apply IH, Hnd].
  cbn [map]. constructor; [|apply IH, Hnd].
  intros Hin. apply Hnin. apply in_map_iff in Hin.
  destruct Hin as (z & Hz & Hin). apply filter_In in Hin.
  apply in_map_iff. exists z. split; [exact Hz|apply Hin].
Qed.

(** X11: the admins table keeps one row per user.  If no two rows are
    for the same user, this is still so after [add_admin] and after
    [remove_admin], for any user and whether the call goes through or
    raises. *)
Theorem admins_stay_unique (w : World) (uid : Z) (added_by : option Z) :
  admins_unique (DB w) ->
  admins_unique (DB (snd (add_admin uid added_by w))) /\
  admins_unique (DB (snd (remove_admin uid w))).
Proof.
  unfold admins_unique, add_admin, remove_admin, db_call. intros H. split.
  - destruct (raises w InsertAdmin); [exact H|].
    cbn [snd set_DB DB set_admins admins]. rewrite map_app. cbn [map ad_user_id].
    apply NoDup_app; [apply NoDup_map_filter, H|repeat constructor; auto|].
    intros x Hx [<-|[]]. apply in_map_iff in Hx.
    destruct Hx as (r & Hr & Hin). apply filter_In in Hin.
    destruct Hin as [_ Hin]. rewrite Hr, Z.eqb_refl in Hin. discriminate.
  - destruct (raises w DeleteAdmin); [exact H|].
    cbn [snd set_DB DB set_admins admins]. apply NoDup_map_filter, H.
Qed.

Lemma admins_stay_unique_witness :
  admins_unique (DB two_admins_world) /\
  admins_unique (DB (snd (add_admin 555 None two_admins_world))) /\
  map ad_user_id (admins (DB (snd (add_admin 555 None two_admins_world)))) =
    [8116152355; 555].
Proof.
  assert (H : admins_unique (DB two_admins_world)).
  { repeat constructor; cbn; intuition discriminate. }
  split; [exact H|]. split; [|reflexivity].
  exact (proj1 (admins_stay_unique two_admins_world 555 None H)).
Defined.

(** X12: adding or removing one user as admin does not change what
    [is_admin] answers for any other user. *)
Theorem admin_changes_are_local (w : World) (u v : Z) (added_by : option Z) :
  v <> u ->
  fst (is_admin v (snd (add_admin u added_by w))) = fst (is_admin v w) /\
  fst (is_admin v (snd (remove_admin u w))) = fst (is_admin v w).
Proof.
  intros Hne. unfold is_admin.
  destruct (truthy_int OWNER_ID && eq_opt_int v OWNER_ID); [split; reflexivity|].
  unfold add_admin, remove_admin, db_call. split.
  - destruct (raises w InsertAdmin); [reflexivity|].
    cbn [snd set_DB raises]. destruct (raises w SelectAdmin); [reflexivity|].
    cbn [fst DB set_DB set_admins admins].
    rewrite !existsb_is_filter, filter_app, filter_other_user by exact Hne.
    cbn [filter ad_user_id].
    assert (E : (u =? v) = false) by (apply Z.eqb_neq; lia).
    rewrite E, app_nil_r. reflexivity.
  - destruct (raises w DeleteAdmin); [reflexivity|].
    cbn [snd set_DB raises]. destruct (raises w SelectAdmin); [reflexivity|].
    cbn [fst DB set_DB set_admins admins].
    rewrite !existsb_is_filter, filter_other_user by exact Hne. reflexivity.
Qed.

Lemma admin_changes_are_local_witness :
  555 <> 777 /\
  fst (is_admin 555 (snd (add_admin 777 None two_admins_world))) = Ok true /\
  fst (is_admin 555 (snd (remove_admin 777 two_admins_world))) = Ok true.
Proof.
  assert (H : 555 <> 777) by discriminate.
  split; [exact H|].
  destruct (admin_changes_are_local two_admins_world 777 555 None H) as [A B].
  split; [rewrite A|rewrite B]; reflexivity.
Defined.

(** ** The meta table *)

Lemma find_across {A} (f : A -> bool) (l1 l2 : list A) :
  find f (l1 ++ l2) =
  match find f l1 with
  | Some x => Some x
  | None => find f l2
  end.
Proof.
  induction l1 as [|x l1 IH]; [reflexivity|].
  cbn [app find]. destruct (f x); [reflexivity|exact IH].
Qed.

Lemma find_filter_neg {A} (f : A -> bool) (l : list A) :
  find f (filter (fun x => negb (f x)) l) = None.
Proof.
  induction l as [|x l IH]; [reflexivity|].
  cbn [filter]. destruct (f x) eqn:E; cbn [negb find]; [exact IH|].
  rewrite E. exact IH.
Qed.

Lemma find_filter_other {A} (f g : A -> bool) (l : list A) :
  (forall x, f x = true -> g x = false) ->
  find f (filter (fun x => negb (g x)) l) = find f l.
Proof.
  intros Hfg. induction l as [|x l IH]; [reflexivity|].
  cbn [filter find]. destruct (g x) eqn:Eg; cbn [negb find].
  - destruct (f x) eqn:Ef; [rewrite (Hfg x Ef) in Eg; discriminate|exact IH].
  - destruct (f x); [reflexivity|exact IH].
Qed.

(** X13: a value stored with [db_set_meta] is what [db_get_meta] returns
    for that key afterwards, whatever was stored under it before; the
    other keys answer as before, and a key that was never stored answers
    [None]. *)
Theorem meta_round_trip (b : Tg.Bot) (key value : string) :
  Tg.faults b Tg.ReplaceMeta = None ->
  Tg.faults b Tg.SelectMeta = None ->
  fst (Tg.db_get_meta key (snd (Tg.db_set_meta key value b))) = Ok (Some value) /\
  (forall k, k <> key ->
     fst (Tg.db_get_meta k (snd (Tg.db_set_meta key value b))) =
     fst (Tg.db_get_meta k b)) /\
  (forall k, (forall kv, In kv (Tg.meta b) -> fst kv <> k) ->
     fst (Tg.db_get_meta k b) = Ok None).
Proof.
  intros Hr Hs. unfold Tg.db_get_meta, Tg.db_set_meta, Tg.store_call.
  rewrite Hr. cbn [snd Tg.set_meta Tg.faults Tg.meta]. rewrite Hs.
  cbn [fst]. split; [|split].
  - rewrite find_across, find_filter_neg. cbn [find fst snd].
    rewrite String.eqb_refl. reflexivity.
  - intros k Hk. rewrite find_across, find_filter_other.
    + cbn [find fst]. destruct (String.eqb_spec key k); [congruence|].
      destruct (find _ (Tg.meta b)); reflexivity.
    + intros kv Hkv. apply String.eqb_eq in Hkv.
      apply String.eqb_neq. congruence.
  - intros k Hk. induction (Tg.meta b) as [|kv l IH]; [reflexivity|].
    cbn [find]. destruct (String.eqb_spec (fst kv) k) as [E|_].
    + exfalso. apply (Hk kv); [left; reflexivity|exact E].
    + apply IH. intros kv' Hin. apply Hk. right. exact Hin.
Qed.

Lemma meta_round_trip_witness :
  Tg.faults sample_bot Tg.ReplaceMeta = None /\
  Tg.faults sample_bot Tg.SelectMeta = None /\
  fst (Tg.db_get_meta "motd"
         (snd (Tg.db_set_meta "motd" "second"
                 (snd (Tg.db_set_meta "motd" "first" sample_bot))))) =
    Ok (Some "second") /\
  fst (Tg.db_get_meta "motd" sample_bot) = Ok None.
Proof.
  split; [reflexivity|]. split; [reflexivity|].
  split.
  - exact (proj1 (meta_round_trip
                    (snd (Tg.db_set_meta "motd" "first" sample_bot))
                    "motd" "second" eq_refl eq_refl)).
  - apply (proj2 (proj2 (meta_round_trip sample_bot "motd" "x" eq_refl eq_refl))).
    intros kv [].
Defined.

(** ** The users table *)

Lemma count_occ_filter_out (us : list user_row) (u : Z) :
  count_occ Z.eq_dec
    (map user_id (filter (fun r => negb (user_id r =? u)) us)) u = 0%nat.
Proof.
  induction us as [|r us IH]; [reflexivity|].
  cbn [filter]. destruct (user_id r =? u) eqn:E; cbn [negb]; [exact IH|].
  cbn [map count_occ]. destruct (Z.eq_dec (user_id r) u) as [Heq|_].
  - apply Z.eqb_neq in E. contradiction.
  - exact IH.
Qed.

Lemma count_occ_filter_other (us : list user_row) (u v : Z) :
  v <> u ->
  count_occ Z.eq_dec
    (map user_id (filter (fun r => negb (user_id r =? u)) us)) v =
  count_occ Z.eq_dec (map user_id us) v.
Proof.
  intros Hne. induction us as [|r us IH]; [reflexivity|].
  cbn [filter]. destruct (user_id r =? u) eqn:E; cbn [negb map count_occ].
  - apply Z.eqb_eq in E.
    destruct (Z.eq_dec (user_id r) v); [lia|exact IH].
  - destruct (Z.eq_dec (user_id r) v); rewrite IH; reflexivity.
Qed.

Lemma saved_user_once (b : Tg.Bot) (u : Tg.Person) :
  Tg.faults b Tg.InsertUser = None ->
  count_occ Z.eq_dec
    (map user_id (users (DB (Tg.core (snd (Tg.save_user (Some u) b))))))
    (Tg.p_id u) = 1%nat /\
  forall v, v <> Tg.p_id u ->
    count_occ Z.eq_dec
      (map user_id (users (DB (Tg.core (snd (Tg.save_user (Some u) b)))))) v =
    count_occ Z.eq_dec (map user_id (users (DB (Tg.core b)))) v.
Proof.
  intros Hi. unfold Tg.save_user, Tg.store_call. rewrite Hi.
  cbn [snd Tg.set_users Tg.set_core Tg.core set_DB DB users].
  split.
  - rewrite map_app, count_occ_app, count_occ_filter_out.
    cbn [map user_id count_occ].
    destruct (Z.eq_dec (Tg.p_id u) (Tg.p_id u)); [reflexivity|contradiction].
  - intros v Hv. rewrite map_app, count_occ_app, count_occ_filter_other by exact Hv.
    cbn [map user_id count_occ].
    destruct (Z.eq_dec (Tg.p_id u) v); [congruence|apply Nat.add_0_r].
Qed.

(** X14: once [save_user] went through for a user, that user is among
    the recipients of a broadcast exactly once, however many rows the
    table held for the id before; how often any other id occurs is as
    before, and the broadcasts and admins tables are untouched. *)
Theorem saved_user_is_recipient_once (b : Tg.Bot) (u : Tg.Person) :
  Tg.faults b Tg.InsertUser = None ->
  exists b',
    Tg.save_user (Some u) b = (Ok tt, b') /\
    times_recipient (Tg.p_id u) (Tg.core b') = 1%nat /\
    (forall v, v <> Tg.p_id u ->
       times_recipient v (Tg.core b') = times_recipient v (Tg.core b)) /\
    broadcasts (DB (Tg.core b')) = broadcasts (DB (Tg.core b)) /\
    admins (DB (Tg.core b')) = admins (DB (Tg.core b)).
Proof.
  intros Hi. destruct (saved_user_once b u Hi) as [H1 H2].
  unfold Tg.save_user, Tg.store_call in *. rewrite Hi in *.
  eexists. split; [reflexivity|].
  split; [exact H1|]. split; [exact H2|]. split; reflexivity.
Qed.

Lemma saved_user_is_recipient_once_witness :
  Tg.faults sample_bot Tg.InsertUser = None /\
  exists b',
    Tg.save_user (Some ann) sample_bot = (Ok tt, b') /\
    times_recipient 2 (Tg.core b') = 1%nat /\
    List.length (snapshot (Tg.core b')) = 3%nat.
Proof.
  split; [reflexivity|].
  destruct (saved_user_is_recipient_once sample_bot ann eq_refl)
    as (b' & E & H1 & _).
  exists b'. split; [exact E|]. split; [exact H1|].
  injection E as <-. reflexivity.
Defined.

(** *** Handlers that register their user *)

Lemma after_bind {A B} (m : Tg.H A) (k : A -> Tg.H B) :
  (forall a, keeps_recipients (k a)) ->
  forall b, recipients_view (snd (Tg.bind m k b)) = recipients_view (snd (m b)).
Proof.
  intros Hk b. unfold Tg.bind. destruct (m b) as [[a|e] b1]; [|reflexivity].
  apply Hk.
Qed.

Lemma keeps_bind {A B} (m : Tg.H A) (k : A -> Tg.H B) :
  keeps_recipients m -> (forall a, keeps_recipients (k a)) ->
  keeps_recipients (Tg.bind m k).
Proof.
  intros Hm Hk b. rewrite after_bind by exact Hk. apply Hm.
Qed.

Lemma keeps_ret {A} (a : A) : keeps_recipients (Tg.ret a).
Proof. intros b. reflexivity. Qed.

Lemma keeps_reply_text update s : keeps_recipients (Tg.reply_text update s).
Proof.
  intros b. unfold Tg.reply_text, Tg.the_message, Tg.bind, Tg.ret, Tg.raise, Tg.emit.
  destruct (Tg.message update); [|reflexivity].
  destruct (raises (Tg.core b) ReplyText); reflexivity.
Qed.

Lemma keeps_save_chat chat : keeps_recipients (Tg.save_chat chat).
Proof.
  intros b. unfold Tg.save_chat, Tg.store_call, Tg.ret.
  destruct chat; [|reflexivity].
  destruct (Tg.faults b Tg.InsertChat); reflexivity.
Qed.

Lemma keeps_add_admin uid added_by :
  keeps_recipients (Tg.lift (add_admin uid added_by)).
Proof.
  intros b. unfold Tg.lift, add_admin, db_call.
  destruct (raises (Tg.core b) InsertAdmin); reflexivity.
Qed.

Lemma save_user_raises user b :
  raises (Tg.core (snd (Tg.save_user user b))) = raises (Tg.core b).
Proof.
  unfold Tg.save_user, Tg.store_call, Tg.ret. destruct user; [|reflexivity].
  destruct (Tg.faults b Tg.InsertUser); reflexivity.
Qed.

Lemma greeting_registers (update : Tg.Upd) (b : Tg.Bot) (u : Tg.Person) :
  Tg.effective_user update = Some u ->
  forall h, In h [Tg.start; Tg.myid_cmd; Tg.whoami] ->
  recipients_view (snd (h update b)) =
  recipients_view (snd (Tg.save_user (Some u) b)).
Proof.
  intros Hu h [<-|[<-|[<-|[]]]];
    unfold Tg.start, Tg.myid_cmd, Tg.whoami; rewrite Hu; apply after_bind;
    intros _.
  - apply keeps_bind; [|intros _; apply keeps_reply_text].
    destruct (truthy_int OWNER_ID && eq_opt_int (Tg.p_id u) OWNER_ID);
      [apply keeps_add_admin|apply keeps_ret].
  - apply keeps_bind; [apply keeps_save_chat|intros _; apply keeps_reply_text].
  - apply keeps_reply_text.
Qed.

Lemma map_fst_sent_to (text : string) (rows : list Z) :
  map fst (map (fun u => (u, text)) rows) = rows.
Proof.
  rewrite map_map. apply map_id.
Qed.

(** X15: a user who sent [/start], [/myid] or [/whoami] is a recipient
    of the next broadcast.  If the insert into the users table went
    through (whatever happened to the rest of the handler), a run
    started afterwards that can read its snapshot attempts a delivery to
    that user exactly once. *)
Theorem greeted_user_gets_next_broadcast (b : Tg.Bot) (update : Tg.Upd)
  (u : Tg.Person) (bid : Z) (text : string) (from_user : Z)
  (h : Tg.Upd -> Tg.H unit) :
  In h [Tg.start; Tg.myid_cmd; Tg.whoami] ->
  Tg.effective_user update = Some u ->
  Tg.faults b Tg.InsertUser = None ->
  raises (Tg.core b) SelectUsers = None ->
  exists r w' tr,
    _do_broadcast bid text from_user (Tg.core (snd (h update b))) = (r, w') /\
    gained (Tg.core (snd (h update b))) w' tr /\
    count_occ Z.eq_dec (map fst (sent_to tr)) (Tg.p_id u) = 1%nat.
Proof.
  intros Hh Hu Hi Hsel.
  pose proof (greeting_registers update b u Hu h Hh) as Hv.
  unfold recipients_view in Hv. apply pair_equal_spec in Hv.
  destruct Hv as [Husers Hraises].
  rewrite save_user_raises in Hraises.
  destruct (saved_user_once b u Hi) as [H1 _].
  set (w := Tg.core (snd (h update b))) in *.
  assert (Hsnap : count_occ Z.eq_dec (snapshot w) (Tg.p_id u) = 1%nat).
  { unfold snapshot. rewrite Husers. exact H1. }
  destruct (do_broadcast_run bid text from_user w) as (w' & E & P).
  rewrite Hraises, Hsel in E, P. destruct P as (_ & _ & _ & P).
  destruct (raises (Tg.core b) UpdateSentCount); destruct P as [_ G];
    eexists; exists w'; eexists; (split; [exact E|]); (split; [exact G|]).
  - rewrite sent_to_loop_events, map_fst_sent_to. exact Hsnap.
  - rewrite sent_to_app, sent_to_loop_events. cbn [sent_to].
    rewrite app_nil_r, map_fst_sent_to. exact Hsnap.
Qed.

Lemma greeted_user_gets_next_broadcast_witness :
  In Tg.start [Tg.start; Tg.myid_cmd; Tg.whoami] /\
  Tg.effective_user (message_from newcomer a_private_chat None) = Some newcomer /\
  times_recipient 9 (Tg.core sample_bot) = 0%nat /\
  exists r w' tr,
    _do_broadcast 1 "Hello all" 42
      (Tg.core (snd (Tg.start (message_from newcomer a_private_chat None)
                       sample_bot))) = (r, w') /\
    count_occ Z.eq_dec (map fst (sent_to tr)) 9 = 1%nat.
Proof.
  assert (Hin : In Tg.start [Tg.start; Tg.myid_cmd; Tg.whoami])
    by (left; reflexivity).
  split; [exact Hin|]. split; [reflexivity|]. split; [reflexivity|].
  destruct (greeted_user_gets_next_broadcast sample_bot
              (message_from newcomer a_private_chat None) newcomer
              1 "Hello all" 42 Tg.start Hin eq_refl eq_refl eq_refl)
    as (r & w' & tr & E & _ & Hc).
  exists r, w', tr. split; [exact E|exact Hc].
Defined.

(** *** Statistics *)

Lemma length_filter_out (us : list user_row) (u : Z) :
  Nat.add (List.length (filter (fun r => negb (user_id r =? u)) us))
          (count_occ Z.eq_dec (map user_id us) u) = List.length us.
Proof.
  induction us as [|r us IH]; [reflexivity|].
  cbn [filter map count_occ List.length].
  destruct (Z.eq_dec (user_id r) u) as [E|E].
  - apply Z.eqb_eq in E. rewrite E. cbn [negb]. lia.
  - apply Z.eqb_neq in E. rewrite E. cbn [negb List.length]. lia.
Qed.

(** X16: the user count of [get_stats] counts a user once however often
    they are seen: after [save_user] it is the count before, plus one,
    minus the rows the table already held for that id (so it is
    unchanged for a known user and one more for a new one); the chat and
    broadcast counts do not move. *)
Theorem stats_count_a_user_once (b : Tg.Bot) (u : Tg.Person) :
  Tg.faults b Tg.InsertUser = None ->
  Tg.faults b Tg.SelectCounts = None ->
  exists s s',
    fst (Tg.get_stats b) = Ok s /\
    fst (Tg.get_stats (snd (Tg.save_user (Some u) b))) = Ok s' /\
    Tg.st_users s' + Z.of_nat (times_recipient (Tg.p_id u) (Tg.core b)) =
      Tg.st_users s + 1 /\
    Tg.st_chats s' = Tg.st_chats s /\
    Tg.st_broadcasts s' = Tg.st_broadcasts s.
Proof.
  intros Hi Hc. unfold Tg.get_stats, Tg.save_user, Tg.store_call.
  rewrite Hi. cbn [snd Tg.faults Tg.set_users Tg.set_core]. rewrite Hc.
  eexists; eexists. split; [reflexivity|]. split; [reflexivity|].
  cbn [Tg.st_users Tg.st_chats Tg.st_broadcasts Tg.core Tg.chats set_DB DB
       users broadcasts Tg.set_users Tg.set_core].
  split; [|split; reflexivity].
  unfold times_recipient, snapshot. rewrite length_app. cbn [List.length].
  pose proof (length_filter_out (users (DB (Tg.core b))) (Tg.p_id u)). lia.
Qed.

Lemma stats_count_a_user_once_witness :
  Tg.faults sample_bot Tg.InsertUser = None /\
  Tg.faults sample_bot Tg.SelectCounts = None /\
  exists s s',
    fst (Tg.get_stats sample_bot) = Ok s /\
    fst (Tg.get_stats (snd (Tg.save_user (Some newcomer) sample_bot))) = Ok s' /\
    Tg.st_users s' + 0 = Tg.st_users s + 1.
Proof.
  split; [reflexivity|]. split; [reflexivity|].
  destruct (stats_count_a_user_once sample_bot newcomer eq_refl eq_refl)
    as (s & s' & E & E' & Hn & _).
  exists s, s'. split; [exact E|]. split; [exact E'|exact Hn].
Defined.

(** ** The admin and owner checks *)

Lemma is_admin_by_rows (w : World) (uid : Z) :
  raises w SelectAdmin = None ->
  fst (is_admin uid w) =
  Ok (truthy_int OWNER_ID && eq_opt_int uid OWNER_ID
      || negb (Nat.eqb (List.length (admin_rows_of uid (DB w))) 0)).
Proof.
  intros Hs. unfold is_admin, admin_rows_of.
  destruct (truthy_int OWNER_ID && eq_opt_int uid OWNER_ID); [reflexivity|].
  unfold db_call. rewrite Hs. cbn [fst orb]. rewrite existsb_is_filter.
  reflexivity.
Qed.

(** X17: what [require_admin] lets through.  For a sender [u] and a
    working admins lookup, the wrapped handler runs, on the very state
    the decorator was called in, exactly when [u] is the owner or the
    admins table holds a row for [u]; otherwise the only thing that
    happens is the reply "You are not an admin.". *)
Theorem admin_gate (func : Tg.Upd -> list string -> Tg.H unit)
  (update : Tg.Upd) (args : list string) (b : Tg.Bot) (u : Tg.Person) :
  Tg.effective_user update = Some u ->
  raises (Tg.core b) SelectAdmin = None ->
  Tg.require_admin func update args b =
  if truthy_int OWNER_ID && eq_opt_int (Tg.p_id u) OWNER_ID
     || negb (Nat.eqb (List.length (admin_rows_of (Tg.p_id u) (DB (Tg.core b)))) 0)
  then func update args b
  else Tg.reply_text update Tg.SayNotAdmin b.
Proof.
  intros Hu Hs. unfold Tg.require_admin. rewrite Hu.
  unfold Tg.bind, Tg.lift, is_admin, admin_rows_of.
  destruct b as [w ch me fa ou]. destruct w as [d bt rs ck tr th rn hs].
  cbn [Tg.core] in *.
  destruct (truthy_int OWNER_ID && eq_opt_int (Tg.p_id u) OWNER_ID);
    [reflexivity|].
  unfold db_call. cbn [raises] in *. rewrite Hs.
  cbn [orb DB set_DB Tg.set_core bot raises clock trace threads
       Tg.chats Tg.meta Tg.faults Tg.out].
  rewrite existsb_is_filter.
  destruct (negb (Nat.eqb _ 0)); reflexivity.
Qed.

Lemma admin_gate_witness :
  Tg.effective_user (message_from ann a_group None) = Some ann /\
  raises (Tg.core sample_bot) SelectAdmin = None /\
  Tg.stats_cmd (message_from ann a_group None) [] sample_bot =
    Tg.reply_text (message_from ann a_group None) Tg.SayNotAdmin sample_bot /\
  Tg.stats_cmd (message_from owner_person a_group None) [] sample_bot =
    Tg.stats_cmd_func (message_from owner_person a_group None) [] sample_bot.
Proof.
  split; [reflexivity|]. split; [reflexivity|]. split.
  - exact (admin_gate Tg.stats_cmd_func (message_from ann a_group None) []
             sample_bot ann eq_refl eq_refl).
  - exact (admin_gate Tg.stats_cmd_func (message_from owner_person a_group None)
             [] sample_bot owner_person eq_refl eq_refl).
Defined.

(** X18: the commands that manage admins are closed to everyone but the
    owner, admins included: for a sender who is not the owner (or an
    update without sender), [/addadmin], [/removeadmin] and
    [/listadmins] only reply that the command is for the owner, and
    leave the database, the admins table in particular, as it was. *)
Theorem only_owner_manages_admins (py_int : string -> option Z)
  (update : Tg.Upd) (args : list string) (b : Tg.Bot)
  (cmd : Tg.Upd -> list string -> Tg.H unit) :
  In cmd (owner_commands py_int) ->
  (forall u, Tg.effective_user update = Some u ->
             eq_opt_int (Tg.p_id u) OWNER_ID = false) ->
  cmd update args b = Tg.reply_text update Tg.SayNotOwner b /\
  Tg.core (snd (cmd update args b)) = Tg.core b.
Proof.
  intros Hcmd Hno.
  assert (E : cmd update args b = Tg.reply_text update Tg.SayNotOwner b).
  { destruct Hcmd as [<-|[<-|[<-|[]]]];
      unfold Tg.addadmin_cmd, Tg.removeadmin_cmd, Tg.listadmins_cmd,
        Tg.require_owner;
      destruct (Tg.effective_user update) as [u|]; try reflexivity;
      rewrite (Hno u eq_refl); reflexivity. }
  rewrite E. split; [reflexivity|].
  unfold Tg.reply_text, Tg.the_message, Tg.bind, Tg.ret, Tg.raise, Tg.emit.
  destruct (Tg.message update); [|reflexivity].
  destruct (raises (Tg.core b) ReplyText); reflexivity.
Qed.

Lemma only_owner_manages_admins_witness :
  In (Tg.addadmin_cmd sample_int) (owner_commands sample_int) /\
  fst (is_admin 2 (Tg.core bot_with_admin_ann)) = Ok true /\
  Tg.addadmin_cmd sample_int (message_from ann a_private_chat None) ["555"]
    bot_with_admin_ann =
  Tg.reply_text (message_from ann a_private_chat None) Tg.SayNotOwner
    bot_with_admin_ann.
Proof.
  assert (Hin : In (Tg.addadmin_cmd sample_int) (owner_commands sample_int))
    by (left; reflexivity).
  split; [exact Hin|]. split; [reflexivity|].
  apply (only_owner_manages_admins sample_int
           (message_from ann a_private_chat None) ["555"] bot_with_admin_ann
           (Tg.addadmin_cmd sample_int) Hin).
  intros u Hu. injection Hu as <-. reflexivity.
Defined.

Lemma add_admin_rows (w : World) (uid : Z) (added_by : option Z) :
  raises w InsertAdmin = None ->
  admin_rows_of uid (DB (snd (add_admin uid added_by w))) =
    [mk_admin_row uid (or_zero added_by) (clock w)] /\
  raises (snd (add_admin uid added_by w)) = raises w.
Proof.
  intros Hi. unfold add_admin, db_call, admin_rows_of. rewrite Hi.
  cbn [snd set_DB DB set_admins admins raises].
  rewrite filter_app, filter_filter_neg. cbn [filter ad_user_id].
  rewrite Z.eqb_refl. split; reflexivity.
Qed.

Lemma remove_admin_rows (w : World) (uid : Z) :
  raises w DeleteAdmin = None ->
  admin_rows_of uid (DB (snd (remove_admin uid w))) = [] /\
  raises (snd (remove_admin uid w)) = raises w.
Proof.
  intros Hd. unfold remove_admin, db_call, admin_rows_of. rewrite Hd.
  cbn [snd set_DB DB set_admins admins raises].
  rewrite filter_filter_neg. split; reflexivity.
Qed.

Lemma reply_text_core update s b :
  Tg.core (snd (Tg.reply_text update s b)) = Tg.core b.
Proof.
  unfold Tg.reply_text, Tg.the_message, Tg.bind, Tg.ret, Tg.raise, Tg.emit.
  destruct (Tg.message update); [|reflexivity].
  destruct (raises (Tg.core b) ReplyText); reflexivity.
Qed.

(** X19: [/addadmin <id>] from the owner makes that user an admin.  When
    the argument is a number for [int] and the insert goes through, the
    admins table afterwards holds exactly one row for the user, added by
    the owner at the time of the call, and [is_admin] answers [True] for
    the user, whether or not the confirmation could be sent. *)
Theorem addadmin_makes_admin (py_int : string -> option Z) (update : Tg.Upd)
  (a : string) (rest : list string) (b : Tg.Bot) (u : Tg.Person) (uid : Z) :
  Tg.effective_user update = Some u ->
  eq_opt_int (Tg.p_id u) OWNER_ID = true ->
  py_int a = Some uid ->
  raises (Tg.core b) InsertAdmin = None ->
  raises (Tg.core b) SelectAdmin = None ->
  admin_rows_of uid
    (DB (Tg.core (snd (Tg.addadmin_cmd py_int update (a :: rest) b)))) =
    [mk_admin_row uid (Tg.p_id u) (clock (Tg.core b))] /\
  fst (is_admin uid
         (Tg.core (snd (Tg.addadmin_cmd py_int update (a :: rest) b)))) =
    Ok true.
Proof.
  intros Hu Ho Hp Hi Hs.
  assert (E : Tg.core (snd (Tg.addadmin_cmd py_int update (a :: rest) b)) =
              snd (add_admin uid (Some (Tg.p_id u)) (Tg.core b))).
  { unfold Tg.addadmin_cmd, Tg.require_owner, Tg.addadmin_cmd_func.
    rewrite Hu, Ho, Hp. unfold Tg.effective_user_id. rewrite Hu.
    unfold Tg.bind at 1. unfold Tg.ret at 1. unfold Tg.bind, Tg.lift.
    destruct (add_admin uid (Some (Tg.p_id u)) (Tg.core b)) as [[[]|e] w'];
      [|reflexivity].
    rewrite reply_text_core. reflexivity. }
  rewrite E.
  destruct (add_admin_rows (Tg.core b) uid (Some (Tg.p_id u)) Hi) as [Hrows Hr].
  split; [exact Hrows|].
  rewrite is_admin_by_rows by (rewrite Hr; exact Hs).
  rewrite Hrows. cbn. rewrite orb_true_r. reflexivity.
Qed.

Lemma addadmin_makes_admin_witness :
  Tg.effective_user (message_from owner_person a_private_chat None) =
    Some owner_person /\
  sample_int "555" = Some 555 /\
  fst (is_admin 555 (Tg.core sample_bot)) = Ok false /\
  fst (is_admin 555
         (Tg.core (snd (Tg.addadmin_cmd sample_int
                          (message_from owner_person a_private_chat None)
                          ["555"] sample_bot)))) = Ok true.
Proof.
  split; [reflexivity|]. split; [reflexivity|]. split; [reflexivity|].
  exact (proj2 (addadmin_makes_admin sample_int
                  (message_from owner_person a_private_chat None) "555" []
                  sample_bot owner_person 555
                  eq_refl eq_refl eq_refl eq_refl eq_refl)).
Defined.

(** X20: [/removeadmin <id>] from the owner removes the user's row.  When
    the argument is a number for [int] and the delete goes through, the
    admins table afterwards holds no row for the user and [is_admin]
    answers [False] for them, unless the id is the owner's, for whom it
    keeps answering [True]. *)
Theorem removeadmin_removes_admin (py_int : string -> option Z)
  (update : Tg.Upd) (a : string) (rest : list string) (b : Tg.Bot)
  (u : Tg.Person) (uid : Z) :
  Tg.effective_user update = Some u ->
  eq_opt_int (Tg.p_id u) OWNER_ID = true ->
  py_int a = Some uid ->
  raises (Tg.core b) DeleteAdmin = None ->
  raises (Tg.core b) SelectAdmin = None ->
  admin_rows_of uid
    (DB (Tg.core (snd (Tg.removeadmin_cmd py_int update (a :: rest) b)))) = [] /\
  fst (is_admin uid
         (Tg.core (snd (Tg.removeadmin_cmd py_int update (a :: rest) b)))) =
    Ok (eq_opt_int uid OWNER_ID).
Proof.
  intros Hu Ho Hp Hd Hs.
  assert (E : Tg.core (snd (Tg.removeadmin_cmd py_int update (a :: rest) b)) =
              snd (remove_admin uid (Tg.core b))).
  { unfold Tg.removeadmin_cmd, Tg.require_owner, Tg.removeadmin_cmd_func.
    rewrite Hu, Ho, Hp. unfold Tg.bind, Tg.lift.
    destruct (remove_admin uid (Tg.core b)) as [[[]|e] w']; [|reflexivity].
    rewrite reply_text_core. reflexivity. }
  rewrite E.
  destruct (remove_admin_rows (Tg.core b) uid Hd) as [Hrows Hr].
  split; [exact Hrows|].
  rewrite is_admin_by_rows by (rewrite Hr; exact Hs).
  rewrite Hrows. cbn. rewrite orb_false_r. reflexivity.
Qed.

Lemma removeadmin_removes_admin_witness :
  sample_int "8116152355" = Some 8116152355 /\
  admin_rows_of 8116152355
    (DB (Tg.core (snd (Tg.removeadmin_cmd sample_int
                         (message_from owner_person a_private_chat None)
                         ["8116152355"] sample_bot)))) = [] /\
  fst (is_admin 8116152355
         (Tg.core (snd (Tg.removeadmin_cmd sample_int
                          (message_from owner_person a_private_chat None)
                          ["8116152355"] sample_bot)))) = Ok true.
Proof.
  split; [reflexivity|].
  exact (removeadmin_removes_admin sample_int
           (message_from owner_person a_private_chat None) "8116152355" []
           sample_bot owner_person 8116152355
           eq_refl eq_refl eq_refl eq_refl eq_refl).
Defined.

(** X21: [/addadmin] and [/removeadmin] change nothing on bad input.
    Without an argument, or with a first argument [int] does not accept,
    either command leaves the database as it was, whoever sent it, and
    answers with exactly one reply when replies can be sent. *)
Theorem admin_commands_reject_bad_input (py_int : string -> option Z)
  (update : Tg.Upd) (args : list string) (b : Tg.Bot) (msg : Tg.Msg) :
  (forall a rest, args = a :: rest -> py_int a = None) ->
  Tg.message update = Some msg ->
  raises (Tg.core b) ReplyText = None ->
  forall cmd, In cmd [Tg.addadmin_cmd py_int; Tg.removeadmin_cmd py_int] ->
  exists s,
    cmd update args b =
      (Ok tt, Tg.mk_Bot (Tg.core b) (Tg.chats b) (Tg.meta b) (Tg.faults b)
                (Tg.out b ++ [Tg.Reply s])) /\
    In s [Tg.SayNotOwner; Tg.SayAddAdminUsage; Tg.SayRemoveAdminUsage;
          Tg.SayInvalidUserId].
Proof.
  intros Hbad Hm Hr cmd Hcmd.
  assert (Hsay : forall s,
            Tg.reply_text update s b =
            (Ok tt, Tg.mk_Bot (Tg.core b) (Tg.chats b) (Tg.meta b) (Tg.faults b)
                      (Tg.out b ++ [Tg.Reply s]))).
  { intros s. unfold Tg.reply_text, Tg.the_message, Tg.bind, Tg.ret, Tg.emit.
    rewrite Hm, Hr. reflexivity. }
  destruct Hcmd as [<-|[<-|[]]];
    unfold Tg.addadmin_cmd, Tg.removeadmin_cmd, Tg.require_owner,
      Tg.addadmin_cmd_func, Tg.removeadmin_cmd_func;
    (destruct (Tg.effective_user update) as [u|];
     [destruct (eq_opt_int (Tg.p_id u) OWNER_ID);
      [destruct args as [|a rest]; [|rewrite (Hbad a rest eq_refl)]|]|]);
    eexists; (split; [apply Hsay|]); cbn; tauto.
Qed.

Lemma admin_commands_reject_bad_input_witness :
  sample_int "abc" = None /\
  exists s,
    Tg.addadmin_cmd sample_int
      (message_from owner_person a_private_chat None) ["abc"] sample_bot =
    (Ok tt, Tg.mk_Bot (Tg.core sample_bot) [] [] no_api_faults [Tg.Reply s]).
Proof.
  split; [reflexivity|].
  assert (Hbad : forall a rest, ["abc"] = a :: rest -> sample_int a = None).
  { intros a rest H. injection H as <- _. reflexivity. }
  destruct (admin_commands_reject_bad_input sample_int
              (message_from owner_person a_private_chat None) ["abc"] sample_bot
              (Tg.mk_Msg (Some owner_person) a_private_chat None [] None None None)
              Hbad eq_refl eq_refl (Tg.addadmin_cmd sample_int)
              (or_introl eq_refl))
    as (s & E & _).
  exists s. exact E.
Defined.

(** ** Moderation *)

(** Run a handler of [Tg] to its end on the cases at hand and read the
    effects it gained. *)
Ltac run_tg :=
  eexists; eexists; split; [reflexivity|];
  split; [reflexivity|];
  split; [unfold said; cbn [Tg.out]; rewrite <- ?app_assoc; reflexivity|].

(** X22: [/ban] answers every call with exactly one reply and lets no
    failure of the ban out of the handler.  The message being there and
    replies working, the handler ends normally and touches no table; it
    calls [kick_chat_member] at most once, and only in a group or
    supergroup for a replied-to message with a sender; it says the user
    was banned only when that call went through. *)
Theorem ban_is_contained (update : Tg.Upd) (args : list string) (b : Tg.Bot)
  (msg : Tg.Msg) :
  Tg.message update = Some msg ->
  raises (Tg.core b) ReplyText = None ->
  exists b' es,
    Tg.ban_cmd_func update args b = (Ok tt, b') /\
    Tg.core b' = Tg.core b /\
    said b b' es /\
    List.length (replies es) = 1%nat /\
    calls es =
      (if Tg.in_group (Tg.m_chat msg) then
         match Tg.m_reply_to msg with
         | Some (Some p) =>
             [(Tg.KickChatMember, Tg.c_id (Tg.m_chat msg), Tg.p_id p,
               Tg.faults b Tg.KickChatMember)]
         | _ => []
         end
       else []) /\
    (forall uid, In (Tg.SayBanned uid) (replies es) ->
                 In (Tg.KickChatMember, Tg.c_id (Tg.m_chat msg), uid, None)
                    (calls es)).
Proof.
  intros Hm Hr.
  unfold Tg.ban_cmd_func, Tg.the_message, Tg.reply_text, Tg.the_message,
    Tg.try_except, Tg.bot_call, Tg.id_of, Tg.bind, Tg.ret, Tg.raise, Tg.emit.
  rewrite Hm. cbn [Tg.core].
  destruct (Tg.in_group (Tg.m_chat msg)); cbn [negb].
  - destruct (Tg.m_reply_to msg) as [[p|]|].
    + destruct (Tg.faults b Tg.KickChatMember) as [e|] eqn:Hk;
        cbn [Tg.core Tg.faults]; rewrite Hr; run_tg;
        cbn [replies calls app List.length];
        (split; [reflexivity|]); (split; [reflexivity|]).
      * intros uid [H|[]]. discriminate H.
      * intros uid [H|[]]. injection H as <-. left. reflexivity.
    + cbn [Tg.core]. rewrite Hr. run_tg.
      cbn [replies calls app List.length].
      split; [reflexivity|]. split; [reflexivity|].
      intros uid [H|[]]. discriminate H.
    + rewrite Hr. run_tg. cbn [replies calls app List.length].
      split; [reflexivity|]. split; [reflexivity|].
      intros uid [H|[]]. discriminate H.
  - rewrite Hr. run_tg. cbn [replies calls app List.length].
    split; [reflexivity|]. split; [reflexivity|].
    intros uid [H|[]]. discriminate H.
Qed.

Lemma ban_is_contained_witness :
  Tg.message (message_from owner_person a_group (Some (Some ann))) =
    Some (Tg.mk_Msg (Some owner_person) a_group (Some (Some ann)) [] None None None) /\
  raises (Tg.core powerless_bot) ReplyText = None /\
  exists b' es,
    Tg.ban_cmd_func (message_from owner_person a_group (Some (Some ann))) []
      powerless_bot = (Ok tt, b') /\
    said powerless_bot b' es /\
    calls es =
      [(Tg.KickChatMember, -100123, 2,
        Some "Not enough rights to restrict/unrestrict chat member")].
Proof.
  split; [reflexivity|]. split; [reflexivity|].
  destruct (ban_is_contained (message_from owner_person a_group (Some (Some ann)))
              [] powerless_bot _ eq_refl eq_refl)
    as (b' & es & E & _ & Hs & _ & Hc & _).
  exists b', es. split; [exact E|]. split; [exact Hs|exact Hc].
Defined.

(** X23: [/kick] is a ban followed by an unban, and the unban is only
    attempted when the ban went through.  The message being there and
    replies working, the handler ends normally with exactly one reply
    and no table touched; outside a group, or without a replied-to
    sender, it calls nothing; it says the user was kicked only when both
    calls went through. *)
Theorem kick_is_ban_then_unban (update : Tg.Upd) (args : list string)
  (b : Tg.Bot) (msg : Tg.Msg) :
  Tg.message update = Some msg ->
  raises (Tg.core b) ReplyText = None ->
  exists b' es,
    Tg.kick_cmd_func update args b = (Ok tt, b') /\
    Tg.core b' = Tg.core b /\
    said b b' es /\
    List.length (replies es) = 1%nat /\
    calls es =
      (if Tg.in_group (Tg.m_chat msg) then
         match Tg.m_reply_to msg with
         | Some (Some p) =>
             (Tg.KickChatMember, Tg.c_id (Tg.m_chat msg), Tg.p_id p,
              Tg.faults b Tg.KickChatMember)
             :: match Tg.faults b Tg.KickChatMember with
                | Some _ => []
                | None =>
                    [(Tg.UnbanChatMember, Tg.c_id (Tg.m_chat msg), Tg.p_id p,
                      Tg.faults b Tg.UnbanChatMember)]
                end
         | _ => []
         end
       else []) /\
    (forall uid, In (Tg.SayKicked uid) (replies es) ->
                 calls es =
                   [(Tg.KickChatMember, Tg.c_id (Tg.m_chat msg), uid, None);
                    (Tg.UnbanChatMember, Tg.c_id (Tg.m_chat msg), uid, None)]).
Proof.
  intros Hm Hr.
  unfold Tg.kick_cmd_func, Tg.the_message, Tg.reply_text, Tg.the_message,
    Tg.try_except, Tg.bot_call, Tg.id_of, Tg.bind, Tg.ret, Tg.raise, Tg.emit.
  rewrite Hm. cbn [Tg.core].
  destruct (Tg.in_group (Tg.m_chat msg)); cbn [negb].
  - destruct (Tg.m_reply_to msg) as [[p|]|].
    + destruct (Tg.faults b Tg.KickChatMember) as [e|] eqn:Hk;
        cbn [Tg.core Tg.faults];
        [|destruct (Tg.faults b Tg.UnbanChatMember) as [e|] eqn:Hu;
          cbn [Tg.core Tg.faults]];
        rewrite Hr; run_tg; cbn [replies calls app List.length];
        (split; [reflexivity|]); (split; [reflexivity|]).
      * intros uid [H|[]]. discriminate H.
      * intros uid [H|[]]. discriminate H.
      * intros uid [H|[]]. injection H as <-. reflexivity.
    + cbn [Tg.core]. rewrite Hr. run_tg.
      cbn [replies calls app List.length].
      split; [reflexivity|]. split; [reflexivity|].
      intros uid [H|[]]. discriminate H.
    + rewrite Hr. run_tg. cbn [replies calls app List.length].
      split; [reflexivity|]. split; [reflexivity|].
      intros uid [H|[]]. discriminate H.
  - rewrite Hr. run_tg. cbn [replies calls app List.length].
    split; [reflexivity|]. split; [reflexivity|].
    intros uid [H|[]]. discriminate H.
Qed.

Lemma kick_is_ban_then_unban_witness :
  raises (Tg.core sample_bot) ReplyText = None /\
  exists b' es,
    Tg.kick_cmd_func (message_from owner_person a_group (Some (Some ann))) []
      sample_bot = (Ok tt, b') /\
    said sample_bot b' es /\
    calls es = [(Tg.KickChatMember, -100123, 2, None);
                (Tg.UnbanChatMember, -100123, 2, None)].
Proof.
  split; [reflexivity|].
  destruct (kick_is_ban_then_unban
              (message_from owner_person a_group (Some (Some ann)))
              [] sample_bot _ eq_refl eq_refl)
    as (b' & es & E & _ & Hs & _ & Hc & _).
  exists b', es. split; [exact E|]. split; [exact Hs|exact Hc].
Defined.

(** X24: [/unban] takes its target from the replied-to message when
    there is one, and its arguments are then not even parsed; it is not
    restricted to groups.  For a reply to a message with a sender, the
    outcome is the same for all arguments, and, replies working, the
    handler calls [unban_chat_member] once for that sender in the
    current chat, of whatever type, and ends normally with one reply. *)
Theorem unban_prefers_replied_user (py_int : string -> option Z)
  (update : Tg.Upd) (args : list string) (b : Tg.Bot) (msg : Tg.Msg)
  (p : Tg.Person) :
  Tg.message update = Some msg ->
  Tg.m_reply_to msg = Some (Some p) ->
  raises (Tg.core b) ReplyText = None ->
  (forall py_int' args',
     Tg.unban_cmd_func py_int' update args' b =
     Tg.unban_cmd_func py_int update args b) /\
  exists b' es,
    Tg.unban_cmd_func py_int update args b = (Ok tt, b') /\
    Tg.core b' = Tg.core b /\
    said b b' es /\
    List.length (replies es) = 1%nat /\
    calls es = [(Tg.UnbanChatMember, Tg.c_id (Tg.m_chat msg), Tg.p_id p,
                 Tg.faults b Tg.UnbanChatMember)].
Proof.
  intros Hm Ht Hr. split.
  - intros py_int' args'. unfold Tg.unban_cmd_func, Tg.the_message, Tg.bind.
    rewrite Hm. cbn [Tg.ret]. rewrite Ht. reflexivity.
  - unfold Tg.unban_cmd_func, Tg.the_message, Tg.reply_text, Tg.the_message,
      Tg.try_except, Tg.bot_call, Tg.id_of, Tg.bind, Tg.ret, Tg.raise, Tg.emit.
    rewrite Hm, Ht.
    destruct (Tg.faults b Tg.UnbanChatMember) as [e|];
      cbn [Tg.core Tg.faults]; rewrite Hr; run_tg;
      cbn [replies calls app List.length]; split; reflexivity.
Qed.

Lemma unban_prefers_replied_user_witness :
  Tg.m_reply_to
    (Tg.mk_Msg (Some owner_person) a_private_chat (Some (Some ann)) [] None None None)
    = Some (Some ann) /\
  exists b' es,
    Tg.unban_cmd_func sample_int
      (message_from owner_person a_private_chat (Some (Some ann))) ["555"]
      sample_bot = (Ok tt, b') /\
    said sample_bot b' es /\
    calls es = [(Tg.UnbanChatMember, 2, 2, None)].
Proof.
  split; [reflexivity|].
  destruct (unban_prefers_replied_user sample_int
              (message_from owner_person a_private_chat (Some (Some ann)))
              ["555"] sample_bot _ ann eq_refl eq_refl eq_refl)
    as (_ & b' & es & E & _ & Hs & _ & Hc).
  exists b', es. split; [exact E|]. split; [exact Hs|exact Hc].
Defined.

(** ** New members *)

Lemma for_members_run (update : Tg.Upd) (msg : Tg.Msg) (c : Tg.Chat) :
  Tg.message update = Some msg ->
  Tg.effective_chat update = Some c ->
  forall members b,
    Tg.faults b Tg.InsertUser = None ->
    raises (Tg.core b) ReplyText = None ->
    exists b' es,
      Tg.for_members update members b = (Ok tt, b') /\
      said b b' es /\
      List.length es = List.length (humans members) /\
      List.length (replies es) = List.length (humans members) /\
      (forall v, times_recipient v (Tg.core b') =
                 if joins_as_user v members then 1%nat
                 else times_recipient v (Tg.core b)) /\
      broadcasts (DB (Tg.core b')) = broadcasts (DB (Tg.core b)) /\
      admins (DB (Tg.core b')) = admins (DB (Tg.core b)) /\
      Tg.chats b' = Tg.chats b.
Proof.
  intros Hm Hc. induction members as [|p rest IH]; intros b Hi Hr.
  - exists b, []. unfold said. rewrite app_nil_r. repeat split.
  - cbn [Tg.for_members]. unfold Tg.bind at 1. unfold Tg.welcome.
    unfold humans, joins_as_user. cbn [filter existsb].
    destruct (Tg.p_is_bot p) eqn:Hbot; cbn [negb andb orb].
    + cbn [Tg.ret]. destruct (IH b Hi Hr) as (b' & es & E & Hs & H).
      exists b', es. split; [exact E|]. split; [exact Hs|exact H].
    + destruct (saved_user_once b p Hi) as [H1 H2].
      unfold Tg.bind at 1. unfold Tg.save_user, Tg.store_call in *.
      rewrite Hi in *. cbn [snd] in H1, H2.
      set (b1 := Tg.set_users b _) in *.
      rewrite Hc. unfold Tg.bind at 1. unfold Tg.ret at 1.
      unfold Tg.reply_text, Tg.the_message, Tg.bind at 1.
      rewrite Hm. unfold Tg.ret at 1.
      change (raises (Tg.core b1) ReplyText) with (raises (Tg.core b) ReplyText).
      rewrite Hr. unfold Tg.emit at 1.
      set (b2 := Tg.mk_Bot _ _ _ _ (Tg.out b1 ++ _)).
      destruct (IH b2 Hi Hr) as (b' & es & E & Hs & Hl & Hlr & Hv & Hb & Ha & Hch).
      exists b'. eexists. split; [exact E|].
      split; [unfold said in *; rewrite Hs; unfold b2, b1; cbn [Tg.out Tg.set_users Tg.set_core];
              rewrite <- app_assoc; reflexivity|].
      cbn [app List.length replies]. rewrite Hl, Hlr.
      split; [reflexivity|]. split; [reflexivity|].
      split; [|split; [exact Hb|split; [exact Ha|exact Hch]]].
      intros v. rewrite Hv. fold (joins_as_user v rest).
      destruct (joins_as_user v rest); [rewrite orb_true_r; reflexivity|].
      rewrite orb_false_r. unfold times_recipient, snapshot.
      change (users (DB (Tg.core b2))) with (users (DB (Tg.core b1))).
      destruct (Z.eqb_spec (Tg.p_id p) v) as [<-|Hne]; [exact H1|].
      apply H2. congruence.
Qed.

(** X25: every person who joins a chat and is not a bot is welcomed once
    and becomes a recipient of broadcasts; bots are skipped.  The chat
    being known and the inserts and replies going through,
    [new_members] ends normally, replies once per member that is not a
    bot and does nothing else visible; afterwards each id that joined as
    a person is a recipient exactly once, and every other id is a
    recipient as often as before. *)
Theorem new_members_welcomed_and_registered (update : Tg.Upd) (msg : Tg.Msg)
  (c : Tg.Chat) (b : Tg.Bot) :
  Tg.message update = Some msg ->
  Tg.effective_chat update = Some c ->
  Tg.faults b Tg.InsertChat = None ->
  Tg.faults b Tg.InsertUser = None ->
  raises (Tg.core b) ReplyText = None ->
  exists b' es,
    Tg.new_members update b = (Ok tt, b') /\
    said b b' es /\
    List.length es = List.length (humans (Tg.m_new_chat_members msg)) /\
    List.length (replies es) = List.length (humans (Tg.m_new_chat_members msg)) /\
    (forall v, times_recipient v (Tg.core b') =
               if joins_as_user v (Tg.m_new_chat_members msg) then 1%nat
               else times_recipient v (Tg.core b)) /\
    admins (DB (Tg.core b')) = admins (DB (Tg.core b)).
Proof.
  intros Hm Hc Hic Hi Hr. unfold Tg.new_members. rewrite Hm.
  destruct (Tg.m_new_chat_members msg) as [|p rest] eqn:Hmem.
  - exists b, []. unfold said. rewrite app_nil_r. repeat split.
  - unfold Tg.bind at 1. unfold Tg.save_chat, Tg.store_call.
    rewrite Hc, Hic. set (b1 := Tg.set_chats b _).
    destruct (for_members_run update msg c Hm Hc (p :: rest) b1 Hi Hr)
      as (b' & es & E & Hs & Hl & Hlr & Hv & _ & Ha & _).
    exists b', es. split; [exact E|]. split; [exact Hs|].
    split; [exact Hl|]. split; [exact Hlr|]. split; [exact Hv|exact Ha].
Qed.

Lemma new_members_welcomed_and_registered_witness :
  Tg.effective_chat (join_message a_group [newcomer; helper_bot]) = Some a_group /\
  times_recipient 9 (Tg.core sample_bot) = 0%nat /\
  exists b' es,
    Tg.new_members (join_message a_group [newcomer; helper_bot]) sample_bot =
      (Ok tt, b') /\
    said sample_bot b' es /\
    List.length (replies es) = 1%nat /\
    times_recipient 9 (Tg.core b') = 1%nat /\
    times_recipient 77 (Tg.core b') = 0%nat.
Proof.
  split; [reflexivity|]. split; [reflexivity|].
  destruct (new_members_welcomed_and_registered
              (join_message a_group [newcomer; helper_bot]) _ a_group sample_bot
              eq_refl eq_refl eq_refl eq_refl eq_refl)
    as (b' & es & E & Hs & _ & Hlr & Hv & _).
  exists b', es. split; [exact E|]. split; [exact Hs|]. split; [exact Hlr|].
  split; [exact (Hv 9)|exact (Hv 77)].
Defined.

(** ** [/start] and the buttons *)

(** X26: [/start] puts the owner's row back.  When the owner sends
    [/start] and the two inserts go through, the admins table afterwards
    holds exactly one row for the owner, added by 0 at the time of the
    call, whatever it held before; for any other sender the admins table
    is left as it was. *)
Theorem start_restores_owner_row (update : Tg.Upd) (b : Tg.Bot) (u : Tg.Person) :
  Tg.effective_user update = Some u ->
  Tg.faults b Tg.InsertUser = None ->
  raises (Tg.core b) InsertAdmin = None ->
  if eq_opt_int (Tg.p_id u) OWNER_ID
  then admin_rows_of (Tg.p_id u) (DB (Tg.core (snd (Tg.start update b)))) =
         [mk_admin_row (Tg.p_id u) 0 (clock (Tg.core b))]
  else admins (DB (Tg.core (snd (Tg.start update b)))) = admins (DB (Tg.core b)).
Proof.
  intros Hu Hi Ha. unfold Tg.start. rewrite Hu.
  change (truthy_int OWNER_ID) with true. cbn [andb].
  unfold Tg.bind, Tg.save_user, Tg.store_call. rewrite Hi.
  set (b1 := Tg.set_users b _).
  destruct (eq_opt_int (Tg.p_id u) OWNER_ID).
  - destruct (add_admin_rows (Tg.core b1) (Tg.p_id u) (Some 0) Ha) as [Hrows _].
    transitivity (admin_rows_of (Tg.p_id u)
                    (DB (snd (add_admin (Tg.p_id u) (Some 0) (Tg.core b1)))));
      [|exact Hrows].
    do 2 f_equal. unfold Tg.lift.
    destruct (add_admin (Tg.p_id u) (Some 0) (Tg.core b1)) as [[[]|e] w'];
      [|reflexivity].
    rewrite reply_text_core. reflexivity.
  - unfold Tg.ret. rewrite reply_text_core. reflexivity.
Qed.

Lemma start_restores_owner_row_witness :
  Tg.effective_user (message_from owner_person a_private_chat None) =
    Some owner_person /\
  admins (DB (Tg.core bot_without_admins)) = [] /\
  admins (DB (Tg.core (snd (Tg.start
                              (message_from owner_person a_private_chat None)
                              bot_without_admins)))) =
    [mk_admin_row 8116152355 0 1700000100].
Proof.
  split; [reflexivity|]. split; [reflexivity|].
  pose proof (start_restores_owner_row
                (message_from owner_person a_private_chat None)
                bot_without_admins owner_person eq_refl eq_refl eq_refl) as H.
  exact H.
Defined.

(** X27: a button press gets exactly one response and never a reply.
    The calls going through, [callback_query_handler] ends normally with
    a single effect, an answer or an edit of the message; the presser is
    stored as a user, hence becomes a recipient, exactly for the data
    "copy_id" and "cmd_myid"; for any other data the users table is not
    touched, and data other than those two and "cmd_help", or none at
    all, is answered with an empty answer. *)
Theorem button_gets_one_response (update : Tg.Upd) (b : Tg.Bot) (q : Tg.Query) :
  Tg.callback_query update = Some q ->
  Tg.faults b Tg.AnswerQuery = None ->
  Tg.faults b Tg.EditMessageText = None ->
  Tg.faults b Tg.InsertUser = None ->
  exists b' e,
    Tg.callback_query_handler update b = (Ok tt, b') /\
    said b b' [e] /\
    replies [e] = [] /\
    (forall v, times_recipient v (Tg.core b') =
               if stores_user (Tg.or_else (Tg.q_data q) "")
                  && (Tg.p_id (Tg.q_from_user q) =? v)
               then 1%nat else times_recipient v (Tg.core b)) /\
    (stores_user (Tg.or_else (Tg.q_data q) "") = false ->
     Tg.core b' = Tg.core b) /\
    (stores_user (Tg.or_else (Tg.q_data q) "") = false ->
     String.eqb (Tg.or_else (Tg.q_data q) "") "cmd_help" = false ->
     e = Tg.Answer None).
Proof.
  intros Hq Ha He Hi. unfold Tg.callback_query_handler. rewrite Hq.
  unfold stores_user.
  set (data := Tg.or_else (Tg.q_data q) "").
  assert (Hsave : forall b0 : Tg.Bot,
            Tg.faults b0 = Tg.faults b ->
            users (DB (Tg.core b0)) = users (DB (Tg.core b)) ->
            exists b',
              Tg.save_user (Some (Tg.q_from_user q)) b0 = (Ok tt, b') /\
              Tg.out b' = Tg.out b0 /\
              forall v, times_recipient v (Tg.core b') =
                        if Tg.p_id (Tg.q_from_user q) =? v then 1%nat
                        else times_recipient v (Tg.core b)).
  { intros b0 Hf Hus.
    assert (Hi0 : Tg.faults b0 Tg.InsertUser = None) by (rewrite Hf; exact Hi).
    destruct (saved_user_once b0 (Tg.q_from_user q) Hi0) as [H1 H2].
    unfold Tg.save_user, Tg.store_call in *. rewrite Hi0 in *.
    eexists. split; [reflexivity|]. split; [reflexivity|].
    intros v. unfold times_recipient, snapshot.
    destruct (Z.eqb_spec (Tg.p_id (Tg.q_from_user q)) v) as [<-|Hne];
      [exact H1|].
    cbn [snd] in H2. rewrite H2 by congruence. rewrite Hus. reflexivity. }
  destruct (String.eqb data "copy_id") eqn:E1; cbn [orb andb].
  - unfold Tg.bind, Tg.query_answer. rewrite Ha. unfold Tg.emit.
    destruct (Hsave (Tg.mk_Bot (Tg.core b) (Tg.chats b) (Tg.meta b) (Tg.faults b)
                       (Tg.out b ++ [Tg.Answer (Some (Tg.p_id (Tg.q_from_user q)))]))
                eq_refl eq_refl)
      as (b' & E & Ho & Hv).
    exists b'; eexists. split; [exact E|]. split; [exact Ho|].
    split; [reflexivity|]. split; [exact Hv|]. split; discriminate.
  - destruct (String.eqb data "cmd_myid") eqn:E2; cbn [orb andb].
    + unfold Tg.bind, Tg.query_edit_message_text. rewrite He. unfold Tg.emit.
      destruct (Hsave (Tg.mk_Bot (Tg.core b) (Tg.chats b) (Tg.meta b) (Tg.faults b)
                         (Tg.out b ++ [Tg.Edit (Tg.SayYourId (Tg.p_id (Tg.q_from_user q)))]))
                  eq_refl eq_refl)
        as (b' & E & Ho & Hv).
      exists b'; eexists. split; [exact E|]. split; [exact Ho|].
      split; [reflexivity|]. split; [exact Hv|]. split; discriminate.
    + destruct (String.eqb data "cmd_help") eqn:E3.
      * unfold Tg.query_edit_message_text. rewrite He. unfold Tg.emit.
        eexists; eexists. split; [reflexivity|]. split; [reflexivity|].
        split; [reflexivity|]. split; [reflexivity|].
        split; [reflexivity|discriminate].
      * unfold Tg.query_answer. rewrite Ha. unfold Tg.emit.
        eexists; eexists. split; [reflexivity|]. split; [reflexivity|].
        split; [reflexivity|]. split; [reflexivity|].
        split; reflexivity.
Qed.

Lemma button_gets_one_response_witness :
  Tg.callback_query (button_press newcomer (Some "copy_id")) =
    Some (Tg.mk_Query (Some "copy_id") newcomer) /\
  exists b' e,
    Tg.callback_query_handler (button_press newcomer (Some "copy_id"))
      sample_bot = (Ok tt, b') /\
    said sample_bot b' [e] /\
    times_recipient 9 (Tg.core b') = 1%nat /\
    times_recipient 1 (Tg.core b') = 1%nat.
Proof.
  split; [reflexivity|].
  destruct (button_gets_one_response (button_press newcomer (Some "copy_id"))
              sample_bot _ eq_refl eq_refl eq_refl eq_refl)
    as (b' & e & E & Hs & _ & Hv & _).
  exists b', e. split; [exact E|]. split; [exact Hs|].
  split; [exact (Hv 9)|exact (Hv 1)].
Defined.

(** ** Escaping *)

Lemma occurs_append x s1 s2 :
  occurs x (String.append s1 s2) = occurs x s1 || occurs x s2.
Proof.
  induction s1 as [|c s1 IH]; [reflexivity|].
  cbn [String.append occurs]. rewrite IH. apply orb_assoc.
Qed.

Lemma occurs_replace x c r s :
  occurs x (Tg.replace_char c r s) =
  (occurs c s && occurs x r) || (negb (Ascii.eqb x c) && occurs x s).
Proof.
  induction s as [|a rest IH]; [symmetry; apply andb_false_r|].
  cbn [Tg.replace_char occurs].
  destruct (Ascii.eqb_spec a c) as [->|Hac].
  - rewrite occurs_append, IH. rewrite (Ascii.eqb_sym c x).
    cbn [orb andb].
    destruct (occurs x r), (occurs c rest), (Ascii.eqb x c), (occurs x rest);
      reflexivity.
  - cbn [occurs orb]. rewrite IH.
    destruct (Ascii.eqb_spec a x) as [->|Hax].
    + destruct (Ascii.eqb_spec x c) as [->|_]; [contradiction|].
      cbn [negb andb orb]. rewrite orb_true_r. reflexivity.
    + reflexivity.
Qed.

Lemma replace_absent c r s :
  occurs c s = false -> Tg.replace_char c r s = s.
Proof.
  induction s as [|a rest IH]; [reflexivity|].
  cbn [occurs Tg.replace_char]. intros H. apply orb_false_iff in H.
  destruct H as [Ha Hrest]. rewrite Ha, IH by exact Hrest. reflexivity.
Qed.

Lemma replace_nonempty c a r s :
  Tg.replace_char c (String a r) s = "" -> s = "".
Proof.
  destruct s as [|x rest]; [reflexivity|].
  cbn [Tg.replace_char]. destruct (Ascii.eqb x c); discriminate.
Qed.

Lemma esc_nonempty s : Tg.esc s = "" -> s = "".
Proof.
  unfold Tg.esc, Tg.html_escape. intros H.
  repeat apply replace_nonempty in H. exact H.
Qed.

(** X28: what [esc] returns carries no markup.  For every text, the
    result contains none of the characters [<], [>], the double quote
    and the single quote; a text that has none of these nor [&] is
    returned unchanged, and only the empty text gives the empty text. *)
Theorem esc_leaves_no_markup (s : string) :
  (forall x, In x markup_chars -> occurs x (Tg.esc s) = false) /\
  ((forall x, In x ("&"%char :: markup_chars) -> occurs x s = false) ->
   Tg.esc s = s) /\
  (Tg.esc s = "" <-> s = "").
Proof.
  split; [|split].
  - intros x Hx. unfold Tg.esc, Tg.html_escape. rewrite !occurs_replace.
    cbn in Hx.
    destruct Hx as [<-|[<-|[<-|[<-|[]]]]]; cbn;
      rewrite ?andb_false_r; reflexivity.
  - intros H. unfold Tg.esc, Tg.html_escape.
    rewrite (replace_absent "&") by (apply H; cbn; tauto).
    rewrite (replace_absent "<") by (apply H; cbn; tauto).
    rewrite (replace_absent ">") by (apply H; cbn; tauto).
    rewrite (replace_absent "034") by (apply H; cbn; tauto).
    apply replace_absent. apply H. cbn. tauto.
  - split; [apply esc_nonempty|intros ->; reflexivity].
Qed.

Lemma esc_sample : Tg.esc "Tom & <b>Jerry's</b>" =
                   "Tom &amp; &lt;b&gt;Jerry&#x27;s&lt;/b&gt;".
Proof. reflexivity. Qed.

(** ** Forwarded messages *)

Lemma or_else_nonempty (o : option string) (d : string) :
  d <> "" -> Tg.or_else o d <> "".
Proof.
  intros Hd. unfold Tg.or_else.
  destruct o as [[|c s]|]; cbn; try exact Hd. discriminate.
Qed.

Lemma or_string_nonempty (a d : string) : d <> "" -> Tg.or_string a d <> "".
Proof.
  intros Hd. unfold Tg.or_string.
  destruct (String.eqb_spec a ""); cbn; assumption.
Qed.

Lemma save_user_ok (user : option Tg.Person) (b : Tg.Bot) :
  Tg.faults b Tg.InsertUser = None ->
  exists b1,
    Tg.save_user user b = (Ok tt, b1) /\
    Tg.out b1 = Tg.out b /\
    raises (Tg.core b1) = raises (Tg.core b) /\
    Tg.faults b1 = Tg.faults b /\
    forall v, times_recipient v (Tg.core b1) =
              match user with
              | Some p => if Tg.p_id p =? v then 1%nat
                          else times_recipient v (Tg.core b)
              | None => times_recipient v (Tg.core b)
              end.
Proof.
  intros Hi. destruct user as [p|].
  - destruct (saved_user_once b p Hi) as [H1 H2].
    unfold Tg.save_user, Tg.store_call in *. rewrite Hi in *.
    eexists. split; [reflexivity|]. repeat split.
    intros v. unfold times_recipient, snapshot.
    destruct (Z.eqb_spec (Tg.p_id p) v) as [<-|Hne];
      [exact H1|apply H2; congruence].
  - exists b. repeat split.
Qed.

Lemma save_chat_ok (chat : option Tg.Chat) (b : Tg.Bot) :
  Tg.faults b Tg.InsertChat = None ->
  exists b2,
    Tg.save_chat chat b = (Ok tt, b2) /\
    Tg.out b2 = Tg.out b /\
    Tg.core b2 = Tg.core b.
Proof.
  intros Hc. destruct chat as [c|].
  - unfold Tg.save_chat, Tg.store_call. rewrite Hc.
    eexists. split; [reflexivity|]. split; reflexivity.
  - exists b. repeat split.
Qed.

Lemma reply_text_ok update s b msg :
  Tg.message update = Some msg ->
  raises (Tg.core b) ReplyText = None ->
  Tg.reply_text update s b =
  (Ok tt, Tg.mk_Bot (Tg.core b) (Tg.chats b) (Tg.meta b) (Tg.faults b)
            (Tg.out b ++ [Tg.Reply s])).
Proof.
  intros Hm Hr. unfold Tg.reply_text, Tg.the_message, Tg.bind, Tg.ret, Tg.emit.
  rewrite Hm, Hr. reflexivity.
Qed.

(** X29: for a message forwarded from a user, the handler shows that
    user's id, whatever the message says about a forwarding chat or a
    hidden sender.  The message being there and the inserts and the
    reply going through, [forwarded_handler] ends normally with exactly
    one reply, which names the forwarded user's id and a name that is
    never empty; it stores the sender of the message, not the user the
    message was forwarded from. *)
Theorem forwarded_user_is_shown (update : Tg.Upd) (b : Tg.Bot) (msg : Tg.Msg)
  (f : Tg.Person) :
  Tg.message update = Some msg ->
  Tg.m_forward_from msg = Some f ->
  Tg.faults b Tg.InsertUser = None ->
  Tg.faults b Tg.InsertChat = None ->
  raises (Tg.core b) ReplyText = None ->
  exists b' name,
    Tg.forwarded_handler update b = (Ok tt, b') /\
    said b b'
      [Tg.Reply (Tg.SayForwardedUser (option_map Tg.p_id (Tg.m_from_user msg))
                   (Tg.p_id f) name)] /\
    name <> "" /\
    (forall v, times_recipient v (Tg.core b') =
               match Tg.m_from_user msg with
               | Some p => if Tg.p_id p =? v then 1%nat
                           else times_recipient v (Tg.core b)
               | None => times_recipient v (Tg.core b)
               end).
Proof.
  intros Hm Hf Hi Hc Hr. unfold Tg.forwarded_handler. rewrite Hm, Hf.
  set (name := Tg.esc _).
  assert (Hname : name <> "").
  { unfold name. intros H. apply esc_nonempty in H. revert H.
    apply or_string_nonempty, or_else_nonempty. discriminate. }
  destruct (save_user_ok (Tg.m_from_user msg) b Hi)
    as (b1 & E1 & Ho1 & Hr1 & Hf1 & Hv1).
  assert (Hc1 : Tg.faults b1 Tg.InsertChat = None) by (rewrite Hf1; exact Hc).
  destruct (save_chat_ok (Tg.effective_chat update) b1 Hc1)
    as (b2 & E2 & Ho2 & Hcore2).
  unfold Tg.bind. rewrite E1, E2.
  rewrite (reply_text_ok update _ b2 msg Hm)
    by (rewrite Hcore2, Hr1; exact Hr).
  eexists; exists name. split; [reflexivity|].
  split; [unfold said; cbn [Tg.out]; rewrite Ho2, Ho1; reflexivity|].
  split; [exact Hname|].
  intros v. cbn [Tg.core]. rewrite Hcore2. apply Hv1.
Qed.

Lemma forwarded_user_is_shown_witness :
  Tg.m_forward_from
    (Tg.mk_Msg (Some ann) a_private_chat None [] (Some nameless) (Some a_group)
       (Some "Hidden")) = Some nameless /\
  exists b' name,
    Tg.forwarded_handler (forwarded_from ann a_private_chat nameless) sample_bot =
      (Ok tt, b') /\
    said sample_bot b' [Tg.Reply (Tg.SayForwardedUser (Some 2) 31 name)] /\
    name <> "" /\
    times_recipient 31 (Tg.core b') = 0%nat.
Proof.
  split; [reflexivity|].
  destruct (forwarded_user_is_shown (forwarded_from ann a_private_chat nameless)
              sample_bot _ nameless eq_refl eq_refl eq_refl eq_refl eq_refl)
    as (b' & name & E & Hs & Hn & Hv).
  exists b', name. split; [exact E|]. split; [exact Hs|]. split; [exact Hn|].
  exact (Hv 31).
Defined.
